(** * cs171project: extraction heuristics and derived metrics

    A shallow embedding of the data-preparation code of the project:
    - [dataHelpers.js]: [loadAllNAEPData], [fetchNAEP], [getSESCategory],
      the caches, and the poverty context of [getStateContext];
    - [scripts/clean_naep_data.js]: [parseNAEPFile];
    - [dataOutcomes.js]: [toLiteracyScore], [levelFromScore],
      [parseLeadingNumber], and the graduation proxy of [loadOutcomes];
    - [visualization5_integrated.js]: [calculateLinearRegression],
      [calculateStateAverage], and the scatter data;
    - [visualization4.js]: the trend line of [renderScatterPlot],
      [getStateCode], [getStateName], [calculateStatePrediction];
    - [visualization1.js]: [getStateScore], [getNationalAverage],
      [getStateScoresForContext].

    JavaScript numbers are modelled by the rationals they denote, extended
    with NaN and the two infinities: arithmetic on finite values is exact
    (rounding and overflow of binary64 are outside the model) and zero is
    unsigned.  What the theorems say of a computed number is therefore
    said through these operations and through comparisons, or at inputs on
    which binary64 is exact as well.  Strings are byte strings; trimming and lower-casing act on
    ASCII.  A property read [obj[name]] on an object literal sees the
    members inherited from [Object.prototype].  Thrown errors are explicit
    results, and the caches are threaded through the calls as a state. *)

From Stdlib Require Import QArith ZArith String Ascii List Bool Lia.
From Stdlib Require Import Lqa Sorted.
From Stdlib Require Import DecimalString.
From stdpp Require Import base option gmap strings list fin_maps.
Import ListNotations.

Local Open Scope string_scope.

(** ** JavaScript values *)

Module JS.

Inductive number : Type :=
| NaN
| Inf (neg : bool)
| Fin (q : Q).

Definition Qltb (x y : Q) : bool := negb (Qle_bool y x).

Definition isNaN (n : number) : bool :=
  match n with NaN => true | _ => false end.

(** [a < b] *)
Definition lt (a b : number) : bool :=
  match a, b with
  | NaN, _ | _, NaN => false
  | Inf true, Inf true => false
  | Inf true, _ => true
  | _, Inf true => false
  | Inf false, _ => false
  | Fin _, Inf false => true
  | Fin x, Fin y => Qltb x y
  end.

(** [a >= b]: false on NaN, otherwise the negation of [a < b]. *)
Definition ge (a b : number) : bool :=
  match a, b with
  | NaN, _ | _, NaN => false
  | _, _ => negb (lt a b)
  end.

Definition gt (a b : number) : bool := lt b a.
Definition le (a b : number) : bool := ge b a.

(** [a === b] on numbers *)
Definition eq (a b : number) : bool :=
  match a, b with
  | Fin x, Fin y => Qeq_bool x y
  | Inf s, Inf t => Bool.eqb s t
  | _, _ => false
  end.

Definition neg (a : number) : number :=
  match a with
  | NaN => NaN
  | Inf s => Inf (negb s)
  | Fin q => Fin (- q)
  end.

Definition add (a b : number) : number :=
  match a, b with
  | NaN, _ | _, NaN => NaN
  | Inf s, Inf t => if Bool.eqb s t then Inf s else NaN
  | Inf s, Fin _ | Fin _, Inf s => Inf s
  | Fin x, Fin y => Fin (x + y)
  end.

Definition sub (a b : number) : number := add a (neg b).

Definition mul (a b : number) : number :=
  match a, b with
  | NaN, _ | _, NaN => NaN
  | Inf s, Inf t => Inf (xorb s t)
  | Inf s, Fin q | Fin q, Inf s =>
      if Qeq_bool q 0 then NaN else Inf (xorb s (Qltb q 0))
  | Fin x, Fin y => Fin (x * y)
  end.

Definition div (a b : number) : number :=
  match a, b with
  | NaN, _ | _, NaN => NaN
  | Inf _, Inf _ => NaN
  | Inf s, Fin q => Inf (xorb s (Qltb q 0))
  | Fin _, Inf _ => Fin 0
  | Fin x, Fin y =>
      if Qeq_bool y 0
      then (if Qeq_bool x 0 then NaN else Inf (Qltb x 0))
      else Fin (x / y)
  end.

Definition ofZ (z : Z) : number := Fin (inject_Z z).

(** A cell of a sheet, a JSON scalar, or a missing property. *)
Inductive value : Type :=
| VUndefined
| VNull
| VBool (b : bool)
| VNum (n : number)
| VStr (s : string).

(** ToBoolean *)
Definition truthy (v : value) : bool :=
  match v with
  | VUndefined | VNull => false
  | VBool b => b
  | VNum NaN => false
  | VNum (Inf _) => true
  | VNum (Fin q) => negb (Qeq_bool q 0)
  | VStr s => negb (String.eqb s "")
  end.

(** [v == null] *)
Definition nullish (v : value) : bool :=
  match v with VUndefined | VNull => true | _ => false end.

(** [arr[i]]: [undefined] outside the array. *)
Definition index (row : list value) (i : nat) : value :=
  nth i row VUndefined.

(** *** Strings *)

Definition isSpace (c : ascii) : bool :=
  let n := nat_of_ascii c in
  ((9 <=? n) && (n <=? 13) || (n =? 32))%nat.

Definition isDigit (c : ascii) : bool :=
  let n := nat_of_ascii c in ((48 <=? n) && (n <=? 57))%nat.

Definition digitVal (c : ascii) : Z := Z.of_nat (nat_of_ascii c) - 48.

Fixpoint trimStart (s : string) : string :=
  match s with
  | String c s' => if isSpace c then trimStart s' else s
  | EmptyString => EmptyString
  end.

Fixpoint trimEnd (s : string) : string :=
  match s with
  | EmptyString => EmptyString
  | String c s' =>
      match trimEnd s' with
      | EmptyString => if isSpace c then EmptyString else String c EmptyString
      | t => String c t
      end
  end.

Definition trim (s : string) : string := trimEnd (trimStart s).

Definition lowerChar (c : ascii) : ascii :=
  let n := nat_of_ascii c in
  if ((65 <=? n) && (n <=? 90))%nat then ascii_of_nat (n + 32) else c.

Fixpoint toLowerCase (s : string) : string :=
  match s with
  | EmptyString => EmptyString
  | String c s' => String (lowerChar c) (toLowerCase s')
  end.

(** [hay.includes(needle)] *)
Fixpoint includes (hay needle : string) : bool :=
  String.prefix needle hay
  || match hay with
     | EmptyString => false
     | String _ hay' => includes hay' needle
     end.

(** [s.replace(/\s+/g, ' ')] *)
Fixpoint collapseFrom (inRun : bool) (s : string) : string :=
  match s with
  | EmptyString => EmptyString
  | String c s' =>
      if isSpace c
      then (if inRun then collapseFrom true s'
            else String " "%char (collapseFrom true s'))
      else String c (collapseFrom false s')
  end.

Definition collapseSpaces (s : string) : string := collapseFrom false s.

(** Number::toString for the values of the model: the decimal expansion,
    cut after twenty fractional digits.  (The exponent form that
    JavaScript prints for magnitudes from 1e21 on, or below 1e-6, is not
    reproduced.) *)
Definition natString (n : N) : string :=
  NilZero.string_of_uint (N.to_uint n).

Fixpoint fracDigits (fuel : nat) (r d : Z) : string :=
  match fuel with
  | O => EmptyString
  | S fuel' =>
      if (r =? 0)%Z then EmptyString
      else String (ascii_of_nat (48 + Z.to_nat (10 * r / d)))
                  (fracDigits fuel' ((10 * r) mod d) d)
  end.

Definition numberToString (n : number) : string :=
  match n with
  | NaN => "NaN"
  | Inf false => "Infinity"
  | Inf true => "-Infinity"
  | Fin q =>
      let a := Z.abs (Qnum q) in
      let d := Zpos (Qden q) in
      let ip := natString (Z.to_N (a / d)) in
      let fp := fracDigits 20 (a mod d) d in
      let body := if String.eqb fp "" then ip else ip ++ "." ++ fp in
      if (Qnum q <? 0)%Z then "-" ++ body else body
  end.

(** [String(v)] *)
Definition toString (v : value) : string :=
  match v with
  | VUndefined => "undefined"
  | VNull => "null"
  | VBool true => "true"
  | VBool false => "false"
  | VNum n => numberToString n
  | VStr s => s
  end.

(** [String(v || '')] *)
Definition stringOrEmpty (v : value) : string :=
  if truthy v then toString v else "".

(** *** Regular expressions of the loaders *)

Fixpoint takeDigits (s : string) : string * string :=
  match s with
  | String c s' =>
      if isDigit c
      then let '(ds, rest) := takeDigits s' in (String c ds, rest)
      else (EmptyString, s)
  | EmptyString => (EmptyString, EmptyString)
  end.

(** [s.match(re)] for the leading-number pattern (one or more digits, an
    optional dot, any digits, anchored at the start): capture group 1 of
    the match, if any. *)
Definition matchLeadingNumber (s : string) : option string :=
  match takeDigits s with
  | (EmptyString, _) => None
  | (ip, String "."%char rest) =>
      let '(fp, _) := takeDigits rest in Some (ip ++ "." ++ fp)
  | (ip, _) => Some ip
  end.

Fixpoint digitsValue (acc : Z) (s : string) : Z :=
  match s with
  | EmptyString => acc
  | String c s' => digitsValue (10 * acc + digitVal c) s'
  end.

(** [parseFloat(s)] on an unsigned decimal literal without exponent, the
    only strings the loaders pass to it; NaN when [s] does not start with
    a digit. *)
Definition parseFloat (s : string) : number :=
  match takeDigits s with
  | (EmptyString, _) => NaN
  | (ip, String "."%char rest) =>
      let '(fp, _) := takeDigits rest in
      Fin (inject_Z (digitsValue 0 ip)
           + inject_Z (digitsValue 0 fp) / inject_Z (10 ^ Z.of_nat (String.length fp)))
  | (ip, _) => Fin (inject_Z (digitsValue 0 ip))
  end.

(** [parseInt(s)] on a string of decimal digits. *)
Definition parseInt (s : string) : Z := digitsValue 0 (fst (takeDigits s)).

Definition isChar (c : ascii) (lo hi : nat) : bool :=
  let n := nat_of_ascii c in ((48 + lo <=? n) && (n <=? 48 + hi))%nat.

(** The alternatives [199[2-9]|200[0-9]|201[0-9]|202[0-2]] on four characters. *)
Definition yearDigits (a b c d : ascii) : bool :=
  (isChar a 1 1 && isChar b 9 9 && isChar c 9 9 && isChar d 2 9)
  || (isChar a 2 2 && isChar b 0 0 && isChar c 0 1 && isChar d 0 9)
  || (isChar a 2 2 && isChar b 0 0 && isChar c 2 2 && isChar d 0 2).

(** [/^(199[2-9]|200[0-9]|201[0-9]|202[0-2])$/] : the captured year. *)
Definition matchYear (s : string) : option string :=
  match s with
  | String a (String b (String c (String d EmptyString))) =>
      if yearDigits a b c d then Some s else None
  | _ => None
  end.

(** [/^(19[89][0-9]|200[0-9]|201[0-9]|202[0-2])/] : the captured prefix. *)
Definition matchYearPrefix (s : string) : option string :=
  match s with
  | String a (String b (String c (String d _))) =>
      if (isChar a 1 1 && isChar b 9 9 && isChar c 8 9 && isChar d 0 9)
         || (isChar a 2 2 && isChar b 0 0 && isChar c 0 1 && isChar d 0 9)
         || (isChar a 2 2 && isChar b 0 0 && isChar c 2 2 && isChar d 0 2)
      then Some (String a (String b (String c (String d EmptyString))))
      else None
  | _ => None
  end.

End JS.

Import JS.

(** A sheet as [XLSX.utils.sheet_to_json(ws, {header: 1, defval: null})]
    returns it: an array of arrays of cells.  Every element is an array,
    so the loaders' guard [!row || !Array.isArray(row)] never fires on a
    row inside the sheet. *)
Definition row : Type := list value.
Definition grid : Type := list row.

(** What [obj[name]] evaluates to on an object literal whose own
    properties are strings: the own property, or else the member that
    the literal inherits from [Object.prototype] under that name. *)
Inductive member : Type :=
| Code (code : string)
| Inherited (name : string).

Global Instance member_eq_dec : EqDecision member.
Proof. solve_decision. Defined.

Global Instance member_countable : Countable member.
Proof.
  refine (inj_countable'
            (fun m => match m with Code c => inl c | Inherited n => inr n end)
            (fun s => match s with inl c => Code c | inr n => Inherited n end) _).
  intros []; reflexivity.
Defined.

Definition objectPrototype : list string :=
  [ "constructor"; "__defineGetter__"; "__defineSetter__"; "hasOwnProperty";
    "__lookupGetter__"; "__lookupSetter__"; "isPrototypeOf";
    "propertyIsEnumerable"; "toString"; "valueOf"; "__proto__";
    "toLocaleString" ].

Fixpoint ownProperty (tbl : list (string * string)) (name : string) : option string :=
  match tbl with
  | [] => None
  | (k, v) :: tbl' => if String.eqb k name then Some v else ownProperty tbl' name
  end.

Definition getProp (tbl : list (string * string)) (name : string) : option member :=
  match ownProperty tbl name with
  | Some c => Some (Code c)
  | None => if existsb (String.eqb name) objectPrototype
            then Some (Inherited name) else None
  end.

(** ToBoolean of [obj[name]]: inherited members are functions or objects. *)
Definition memberTruthy (m : option member) : bool :=
  match m with
  | Some (Code c) => negb (String.eqb c "")
  | Some (Inherited _) => true
  | None => false
  end.

(** The fifty states and the District of Columbia, as both loaders list them. *)
Definition stateNames : list (string * string) :=
  [ ("Alabama", "AL"); ("Alaska", "AK"); ("Arizona", "AZ"); ("Arkansas", "AR");
    ("California", "CA"); ("Colorado", "CO"); ("Connecticut", "CT");
    ("Delaware", "DE"); ("District of Columbia", "DC"); ("Florida", "FL");
    ("Georgia", "GA"); ("Hawaii", "HI"); ("Idaho", "ID"); ("Illinois", "IL");
    ("Indiana", "IN"); ("Iowa", "IA"); ("Kansas", "KS"); ("Kentucky", "KY");
    ("Louisiana", "LA"); ("Maine", "ME"); ("Maryland", "MD");
    ("Massachusetts", "MA"); ("Michigan", "MI"); ("Minnesota", "MN");
    ("Mississippi", "MS"); ("Missouri", "MO"); ("Montana", "MT");
    ("Nebraska", "NE"); ("Nevada", "NV"); ("New Hampshire", "NH");
    ("New Jersey", "NJ"); ("New Mexico", "NM"); ("New York", "NY");
    ("North Carolina", "NC"); ("North Dakota", "ND"); ("Ohio", "OH");
    ("Oklahoma", "OK"); ("Oregon", "OR"); ("Pennsylvania", "PA");
    ("Rhode Island", "RI"); ("South Carolina", "SC"); ("South Dakota", "SD");
    ("Tennessee", "TN"); ("Texas", "TX"); ("Utah", "UT"); ("Vermont", "VT");
    ("Virginia", "VA"); ("Washington", "WA"); ("West Virginia", "WV");
    ("Wisconsin", "WI"); ("Wyoming", "WY") ].

(** The first index [i], counted from [i0], at which [test] answers. *)
Fixpoint scanRows {A : Type} (test : nat -> row -> option A) (i0 : nat) (rows : grid)
  : option A :=
  match rows with
  | [] => None
  | r :: rows' =>
      match test i0 r with
      | Some a => Some a
      | None => scanRows test (S i0) rows'
      end
  end.

(** [String(row[0] || '').trim()] *)
Definition firstCellOf (r : row) : string := trim (stringOrEmpty (index r 0)).

(** [String(cell || '').trim()] matches the four-digit year pattern. *)
Definition isYearCell (v : value) : bool :=
  match matchYear (trim (stringOrEmpty v)) with Some _ => true | None => false end.

Inductive error : Type :=
| XlsxMissing      (* "XLSX (SheetJS) not found. ..." *)
| FetchFailed      (* "Failed to fetch ..." *)
| ParseStructure   (* "Could not parse Excel file structure" *)
| NoYearColumns.   (* "Could not find year columns in Excel file" *)

Inductive outcome (A : Type) : Type :=
| Returned (a : A)
| Thrown (e : error).
Arguments Returned {A} a.
Arguments Thrown {A} e.

(** The argument of the three classification helpers ([getSESCategory],
    [toLiteracyScore], [levelFromScore]) as their callers pass it: a
    number, [null] or [undefined]. *)
Inductive input : Type :=
| Undefined
| Null
| Num (n : number).

(** ** dataHelpers.js *)

Module DataHelpers.

Definition stateNameToCode : list (string * string) :=
  stateNames ++ [ ("United States", "National") ].

(** The two variables of the header search; [-1] is "not found". *)
Record cursor : Type := { headerRowIndex : Z; dataStartRow : Z }.

Definition notFound : cursor := {| headerRowIndex := -1; dataStartRow := -1 |}.

Definition isLabelRow (r : row) : bool :=
  let firstCell := toLowerCase (firstCellOf r) in
  includes firstCell "state" || includes firstCell "jurisdiction".

(** Strategy 1: look for the "State or jurisdiction" header. *)
Definition strategy1 (rows : grid) (c : cursor) : cursor :=
  match scanRows (fun i r => if isLabelRow r then Some i else None) 0 (firstn 15 rows) with
  | Some i => {| headerRowIndex := Z.of_nat i; dataStartRow := Z.of_nat i + 1 |}
  | None => c
  end.

(** Cells [row[1]] .. [row[min(row.length, 15) - 1]] that are years. *)
Definition yearCount (r : row) : nat :=
  length (List.filter isYearCell (skipn 1 (firstn 15 r))).

(** Strategy 2: look for a row with year numbers. *)
Definition strategy2 (rows : grid) (c : cursor) : cursor :=
  if (headerRowIndex c =? -1)%Z then
    match scanRows (fun i r => if (3 <=? yearCount r)%nat then Some i else None)
                   0 (firstn 15 rows) with
    | Some i => {| headerRowIndex := Z.of_nat i; dataStartRow := Z.of_nat i + 1 |}
    | None => c
    end
  else c.

Definition isNameRow (r : row) : bool :=
  let firstCell := firstCellOf r in
  memberTruthy (getProp stateNameToCode firstCell)
  || String.eqb firstCell "United States".

Definition hasYears (r : row) : bool := existsb isYearCell r.

(** The inner loop of strategy 3: [j] from [max(0, i - 5)] up to [i - 1]. *)
Definition backScan (rows : grid) (i : nat) : option nat :=
  scanRows (fun j r => if hasYears r then Some j else None)
           (i - 5) (firstn (i - (i - 5)) (skipn (i - 5) rows)).

Fixpoint strategy3_loop (rows : grid) (i : nat) (rest : grid) (c : cursor) : cursor :=
  match rest with
  | [] => c
  | r :: rest' =>
      if isNameRow r then
        let c' := match backScan rows i with
                  | Some j => {| headerRowIndex := Z.of_nat j; dataStartRow := Z.of_nat i |}
                  | None => c
                  end in
        if negb (headerRowIndex c' =? -1)%Z then c'
        else strategy3_loop rows (S i) rest' c'
      else strategy3_loop rows (S i) rest' c
  end.

(** Strategy 3: look for the first state name, then the header above it. *)
Definition strategy3 (rows : grid) (c : cursor) : cursor :=
  if (dataStartRow c =? -1)%Z then strategy3_loop rows 0 (firstn 30 rows) c else c.

Definition findHeader (rows : grid) : cursor :=
  strategy3 rows (strategy2 rows (strategy1 rows notFound)).

(** Both variables are set: the negation of the test
    [dataStartRow === -1 || headerRowIndex === -1] that follows the search. *)
Definition found (c : cursor) : bool :=
  negb ((dataStartRow c =? -1)%Z || (headerRowIndex c =? -1)%Z).

Record yearColumn : Type := { colIndex : nat; year : string }.

Fixpoint yearColumnsFrom (i : nat) (cells : list value) : list yearColumn :=
  match cells with
  | [] => []
  | v :: cells' =>
      match matchYear (trim (stringOrEmpty v)) with
      | Some y => {| colIndex := i; year := y |} :: yearColumnsFrom (S i) cells'
      | None => yearColumnsFrom (S i) cells'
      end
  end.

(** The loop over [headerRow[1]] .. [headerRow[headerRow.length - 1]]. *)
Definition findYearColumns (headerRow : row) : list yearColumn :=
  yearColumnsFrom 1 (skipn 1 headerRow).

(** [yearColumns.sort((a, b) => parseInt(b.year) - parseInt(a.year))]:
    a stable sort, latest year first. *)
Fixpoint insertColumn (x : yearColumn) (l : list yearColumn) : list yearColumn :=
  match l with
  | [] => [x]
  | y :: l' =>
      if (parseInt (year y) <? parseInt (year x))%Z then x :: l
      else y :: insertColumn x l'
  end.

Definition sortColumns (l : list yearColumn) : list yearColumn :=
  fold_left (fun acc x => insertColumn x acc) l [].

(** One entry of [stateData]; [None] is [null]. *)
Record scores : Type :=
  { Low : option number; Middle : option number; High : option number;
    NationalAverage : option number }.

Record table : Type :=
  { stateData : gmap member scores; nationalAvg : option number }.

Definition sesGap : number := ofZ 18.

Definition isNationalRow (firstCell : string) : bool :=
  String.eqb firstCell "United States"
  || includes (toLowerCase firstCell) "united states".

(** The cell of a state row: a number as it is, a string through the
    leading-number pattern and [parseFloat], anything else [null]. *)
Definition readScore (scoreCell : value) : option number :=
  match scoreCell with
  | VNum n => Some n
  | VStr s =>
      match matchLeadingNumber s with
      | Some m => Some (parseFloat m)
      | None => None
      end
  | _ => None
  end.

(** [nationalAvg || score] *)
Definition orScore (nat : option number) (score : number) : number :=
  match nat with
  | Some n => if truthy (VNum n) then n else score
  | None => score
  end.

(** The body of the loop over the data rows. *)
Definition parseRow (target : yearColumn) (t : table) (r : row) : table :=
  let firstCell := firstCellOf r in
  if isNationalRow firstCell then
    match index r (colIndex target) with
    | VNum n => {| stateData := stateData t; nationalAvg := Some n |}
    | VStr s =>
        match matchLeadingNumber s with
        | Some m => {| stateData := stateData t; nationalAvg := Some (parseFloat m) |}
        | None => t
        end
    | _ => t
    end
  else
    match getProp stateNameToCode firstCell with
    | Some stateCode =>
        if memberTruthy (Some stateCode) then
          match readScore (index r (colIndex target)) with
          | Some score =>
              if negb (isNaN score) then
                {| stateData :=
                     <[ stateCode :=
                          {| Low := Some (sub score sesGap);
                             Middle := Some score;
                             High := Some (add score sesGap);
                             NationalAverage := Some (orScore (nationalAvg t) score) |} ]>
                       (stateData t);
                   nationalAvg := nationalAvg t |}
              else t
          | None => t
          end
        else t
    | None => t
    end.

Definition emptyTable : table := {| stateData := ∅; nationalAvg := None |}.

(** The part of [loadAllNAEPData] that runs on the rows of the sheet. *)
Definition extract (rows : grid) : outcome table :=
  let c := findHeader rows in
  if (dataStartRow c =? -1)%Z || (headerRowIndex c =? -1)%Z then Thrown ParseStructure
  else
    let headerRow := nth (Z.to_nat (headerRowIndex c)) rows [] in
    match sortColumns (findYearColumns headerRow) with
    | [] => Thrown NoYearColumns
    | targetYearCol :: _ =>
        Returned (fold_left (parseRow targetYearCol)
                            (skipn (Z.to_nat (dataStartRow c)) rows) emptyTable)
    end.

(** *** The caches and the two loaders' entry points *)

(** What the page provides: whether the [XLSX] global is defined, and the
    rows of the first sheet of the workbook behind a path ([None] when
    the response is not ok or the request fails). *)
Record env : Type :=
  { xlsxDefined : bool; fetchSheet : string -> option grid }.

(** [naepDataCache] (a [Map] from grade to loaded table) and the entries
    [{data, ts}] of [localStorage] that [cacheData] writes. *)
Record world : Type :=
  { naepDataCache : gmap Z table;
    localStorage : gmap string (scores * Z) }.

Definition filePath (grade : Z) : string :=
  if (grade =? 4)%Z then "data/fourth_grade_naep.xlsx"
  else "data/eighth_grade_naep.xlsx".

Definition loadAllNAEPData (e : env) (grade : Z) (w : world) : outcome table * world :=
  match naepDataCache w !! grade with
  | Some t => (Returned t, w)
  | None =>
      if negb (xlsxDefined e) then (Thrown XlsxMissing, w)
      else
        match fetchSheet e (filePath grade) with
        | None => (Thrown FetchFailed, w)
        | Some rows =>
            match extract rows with
            | Thrown err => (Thrown err, w)
            | Returned result =>
                (Returned result,
                 {| naepDataCache := <[ grade := result ]> (naepDataCache w);
                    localStorage := localStorage w |})
            end
        end
  end.

(** [JSON.stringify] writes a number that is not finite as [null]. *)
Definition jsonNumber (o : option number) : option number :=
  match o with
  | Some (Fin q) => Some (Fin q)
  | _ => None
  end.

Definition jsonScores (s : scores) : scores :=
  {| Low := jsonNumber (Low s); Middle := jsonNumber (Middle s);
     High := jsonNumber (High s);
     NationalAverage := jsonNumber (NationalAverage s) |}.

(** [cacheData(key, data)] whose [setItem] succeeds, with [now] the
    reading of [Date.now()] (milliseconds) that it stamps the entry with.
    A [setItem] that throws is caught by the code and leaves the store as
    it was; that path is outside the model. *)
Definition cacheData (now : Z) (key : string) (data : scores) (w : world) : world :=
  {| naepDataCache := naepDataCache w;
     localStorage := <[ key := (jsonScores data, now) ]> (localStorage w) |}.

(** [loadCachedData(key)] with the default [maxAgeMinutes = 1440]:
    [(now - ts) / 60000 < 1440]. *)
Definition loadCachedData (now : Z) (key : string) (w : world) : option scores :=
  match localStorage w !! key with
  | Some (data, ts) => if (now - ts <? 1440 * 60000)%Z then Some data else None
  | None => None
  end.

Definition nullScores (nat : option number) : scores :=
  {| Low := None; Middle := None; High := None; NationalAverage := nat |}.

Definition cacheKey (state : string) (grade : Z) (subject : string) : string :=
  "naep_" ++ state ++ "_" ++ numberToString (ofZ grade) ++ "_" ++ subject.

(** [fetchNAEP] at time [now]; its [catch] answers an error of
    [loadAllNAEPData] with the all-[null] record. *)
Definition fetchNAEP (e : env) (now : Z) (state : string) (grade : Z) (subject : string)
    (w : world) : outcome scores * world :=
  match loadCachedData now (cacheKey state grade subject) w with
  | Some cached => (Returned cached, w)
  | None =>
      match loadAllNAEPData e grade w with
      | (Returned t, w') =>
          let result :=
            match stateData t !! Code state with
            | Some sc => sc
            | None => nullScores (nationalAvg t)
            end in
          (Returned result, cacheData now (cacheKey state grade subject) result w')
      | (Thrown _, w') => (Returned (nullScores None), w')
      end
  end.

(** [povertyRate] is what [getStateContext] passes: the mean that
    [d3.mean] returns, [undefined] for a state without rows. *)
Definition getSESCategory (povertyRate : input) : string :=
  match povertyRate with
  | Undefined | Null => "Unknown"
  | Num r =>
      if isNaN r then "Unknown"
      else if ge r (ofZ 30) then "Low"
      else if ge r (ofZ 15) then "Middle"
      else "High"
  end.

End DataHelpers.

(** ** scripts/clean_naep_data.js *)

Module CleanNaep.

Definition stateNameToCode : list (string * string) := stateNames.

Definition isHeaderRow (r : row) : bool :=
  let firstCell := toLowerCase (firstCellOf r) in
  includes firstCell "state" && includes firstCell "jurisdiction".

(** [years] (in the order found) and [yearColumns]. *)
Record header : Type := { years : list Z; yearColumns : gmap Z nat }.

Definition noHeader : header := {| years := []; yearColumns := ∅ |}.

(** The loop over [row[1]] .. [row[min(row.length, 50) - 1]] of the header. *)
Fixpoint headerYears (j : nat) (cells : list value) (h : header) : header :=
  match cells with
  | [] => h
  | cell :: cells' =>
      if nullish cell then headerYears (S j) cells' h
      else
        match matchYearPrefix (toString cell) with
        | Some y =>
            let year := parseInt y in
            if (1990 <=? year)%Z && (year <=? 2025)%Z
               && negb (existsb (Z.eqb year) (years h))
            then headerYears (S j) cells'
                   {| years := years h ++ [year];
                      yearColumns := <[ year := j ]> (yearColumns h) |}
            else headerYears (S j) cells' h
        | None => headerYears (S j) cells' h
        end
  end.

(** [years.sort((a, b) => a - b)] *)
Fixpoint insertYear (x : Z) (l : list Z) : list Z :=
  match l with
  | [] => [x]
  | y :: l' => if (x <? y)%Z then x :: l else y :: insertYear x l'
  end.

Definition sortYears (l : list Z) : list Z :=
  fold_left (fun acc x => insertYear x acc) l [].

(** The header search: [(dataStartIdx, years, yearColumns)];
    [dataStartIdx] stays [-1] when no row of the first ten is a header. *)
Definition findHeader (rows : grid) : Z * header :=
  match scanRows (fun i r =>
                    if isHeaderRow r
                    then Some (Z.of_nat i + 2,
                               headerYears 1 (skipn 1 (firstn 50 r)) noHeader)%Z
                    else None)
                 0 (firstn 10 rows) with
  | Some (d, h) => (d, {| years := sortYears (years h); yearColumns := yearColumns h |})
  | None => (-1, noHeader)%Z
  end.

(** [score] as the two branches of the loop compute it from a cell. *)
Definition readCell (cellValue : value) : option number :=
  match cellValue with
  | VNum n => Some n
  | VStr s =>
      match matchLeadingNumber s with
      | Some m => Some (parseFloat m)
      | None => None
      end
  | _ => None
  end.

(** [score != null && !isNaN(score) && score > 0] *)
Definition keepScore (score : option number) : option number :=
  match score with
  | Some n => if negb (isNaN n) && gt n (ofZ 0) then Some n else None
  | None => None
  end.

(** What one cell of a year column contributes: the guard
    [row[colIdx] != null], the coercion and the filter. *)
Definition cellScore (cell : value) : option number :=
  if nullish cell then None else keepScore (readCell cell).

(** [years.forEach(year => ...)] over one row, writing into [acc]. *)
Definition rowScores (h : header) (r : row) (acc : gmap Z number) : gmap Z number :=
  fold_left
    (fun acc year =>
       match yearColumns h !! year with
       | Some colIdx =>
           match cellScore (index r colIdx) with
           | Some score => <[ year := score ]> acc
           | None => acc
           end
       | None => acc
       end)
    (years h) acc.

Record parsed : Type :=
  { stateData : gmap member (gmap Z number);
    nationalAvgByYear : gmap Z number }.

Definition isNationalRow (stateName : string) : bool :=
  includes (collapseSpaces (toLowerCase stateName)) "united states".

(** The case-insensitive pass over [Object.entries(stateNameToCode)]. *)
Fixpoint lookupIgnoringCase (tbl : list (string * string)) (stateName : string)
  : option string :=
  match tbl with
  | [] => None
  | (key, code) :: tbl' =>
      if String.eqb (toLowerCase key) (toLowerCase stateName) then Some code
      else lookupIgnoringCase tbl' stateName
  end.

Definition matchState (stateName : string) : option member :=
  let stateCode := getProp stateNameToCode stateName in
  if memberTruthy stateCode then stateCode
  else
    match lookupIgnoringCase stateNameToCode stateName with
    | Some code => Some (Code code)
    | None => stateCode
    end.

Definition parseRow (h : header) (p : parsed) (r : row) : parsed :=
  let stateName := firstCellOf r in
  if String.eqb stateName "" then p
  else if isNationalRow stateName then
    {| stateData := stateData p;
       nationalAvgByYear := rowScores h r (nationalAvgByYear p) |}
  else
    match matchState stateName with
    | Some stateCode =>
        if memberTruthy (Some stateCode) then
          let yearScores := rowScores h r ∅ in
          if (0 <? size yearScores)%nat then
            {| stateData := <[ stateCode := yearScores ]> (stateData p);
               nationalAvgByYear := nationalAvgByYear p |}
          else p
        else p
    | None => p
    end.

Definition emptyParsed : parsed := {| stateData := ∅; nationalAvgByYear := ∅ |}.

(** [parseNAEPFile] on the rows of the sheet.  The loop starts at
    [dataStartIdx]; from [-1] its first turn reads [rows[-1]], which is
    [undefined] and skipped, and the next turns read every row. *)
Definition parseNAEPFile (rows : grid) : list Z * parsed :=
  let '(dataStartIdx, h) := findHeader rows in
  (years h, fold_left (parseRow h) (skipn (Z.to_nat dataStartIdx) rows) emptyParsed).

End CleanNaep.

(** ** dataOutcomes.js *)

Module DataOutcomes.

Definition toLiteracyScore (litP1Percent : input) : option number :=
  match litP1Percent with
  | Undefined | Null => None
  | Num p => if isNaN p then None else Some (sub (ofZ 320) (mul p (ofZ 2)))
  end.

(** The argument is what [toLiteracyScore] returned: a number or [null]. *)
Definition levelFromScore (score : input) : string :=
  match score with
  | Undefined | Null => "Unknown"
  | Num s =>
      if isNaN s then "Unknown"
      else if lt s (ofZ 200) then "Below Basic"
      else if lt s (ofZ 240) then "Basic"
      else if lt s (ofZ 280) then "Proficient"
      else "Advanced"
  end.

End DataOutcomes.

(** ** visualization5_integrated.js *)

(** [d3.mean(data, f)]: the mean of the values that are not NaN,
    [undefined] when there is none. *)
Definition d3mean (vals : list number) : option number :=
  let kept := List.filter (fun v => negb (isNaN v)) vals in
  match kept with
  | [] => None
  | _ => Some (div (fold_left add kept (ofZ 0)) (ofZ (Z.of_nat (length kept))))
  end.

(** ToNumber of what [d3.mean] returned. *)
Definition meanValue (m : option number) : number :=
  match m with Some n => n | None => NaN end.

Module Viz5.

Record datum : Type := { spending : number; score : number }.

Record line : Type := { slope : number; intercept : number }.

(** The two sums of the [forEach]: [(num, den)]. *)
Definition sums (xMean yMean : number) (data : list datum) : number * number :=
  fold_left
    (fun '(num, den) d =>
       (add num (mul (sub (spending d) xMean) (sub (score d) yMean)),
        add den (mul (sub (spending d) xMean) (sub (spending d) xMean))))
    data (ofZ 0, ofZ 0).

Definition calculateLinearRegression (data : list datum) : option line :=
  let n := length data in
  if (n <? 2)%nat then None
  else
    let xMean := meanValue (d3mean (map spending data)) in
    let yMean := meanValue (d3mean (map score data)) in
    let '(num, den) := sums xMean yMean data in
    let slope := if negb (eq den (ofZ 0)) then div num den else ofZ 0 in
    let intercept := sub yMean (mul slope xMean) in
    Some {| slope := slope; intercept := intercept |}.

End Viz5.

(** ** visualization4.js *)

Module Viz4.

Record stateScore : Type := { literacyScore : number; prediction : number }.

(** The trend line of [renderScatterPlot]: [(slope, intercept)]. *)
Definition trendLine (stateScores : list stateScore) : number * number :=
  let xMean := meanValue (d3mean (map literacyScore stateScores)) in
  let yMean := meanValue (d3mean (map prediction stateScores)) in
  let '(numerator, denominator) :=
    fold_left
      (fun '(numerator, denominator) d =>
         (add numerator (mul (sub (literacyScore d) xMean) (sub (prediction d) yMean)),
          add denominator (mul (sub (literacyScore d) xMean) (sub (literacyScore d) xMean))))
      stateScores (ofZ 0, ofZ 0) in
  let slope := div numerator denominator in
  let intercept := sub yMean (mul slope xMean) in
  (slope, intercept).

End Viz4.

(** ** visualization1.js *)

Module Viz1.

(** One grade of [data/naep_cleaned.json], as [clean_naep_data.js] writes
    it: the years, and per state code the score of each year under the
    year's decimal string. *)
Record gradeData : Type :=
  { years : list Z;
    states : gmap string (gmap string number);
    nationalAvg : gmap string number }.

(** [years.sort((a, b) => b - a)] *)
Fixpoint insertDesc (x : Z) (l : list Z) : list Z :=
  match l with
  | [] => [x]
  | y :: l' => if (y <? x)%Z then x :: l else y :: insertDesc x l'
  end.

Definition sortDesc (l : list Z) : list Z :=
  fold_left (fun acc x => insertDesc x acc) l [].

(** [String(years[0])] *)
Definition latestYear (years : list Z) : string :=
  match sortDesc years with
  | y :: _ => numberToString (ofZ y)
  | [] => "undefined"
  end.

Definition sesGap : number := ofZ 18.

(** The SES adjustment at the end of [getStateScore]. *)
Definition adjust (score : number) (ses : string) : number :=
  if String.eqb ses "Low" then sub score sesGap
  else if String.eqb ses "High" then add score sesGap
  else score.

(** [getStateScore] on the loaded file [data]; [None] is [null].  A
    [state] that names a member of [Object.prototype] passes the first
    test and fails the second, with the same result as a missing state. *)
Definition getStateScore (data : gmap string gradeData) (state : string) (grade : Z)
    (ses : string) : option number :=
  let gradeKey := "grade" ++ numberToString (ofZ grade) in
  match data !! gradeKey with
  | None => None
  | Some gd =>
      match states gd !! state with
      | None => None
      | Some stateScores =>
          match stateScores !! latestYear (years gd) with
          | None => None
          | Some score =>
              if negb (truthy (VNum score)) then None
              else Some (adjust score ses)
          end
      end
  end.

End Viz1.

(** ** Further code of the same files *)

(** [Math.min(a, b)] and [Math.max(a, b)]: NaN when an argument is NaN. *)
Definition mathMin (a b : number) : number :=
  if isNaN a || isNaN b then NaN else if lt b a then b else a.

Definition mathMax (a b : number) : number :=
  if isNaN a || isNaN b then NaN else if lt a b then b else a.

(** [d3.min(values)] and [d3.max(values)]: NaN is skipped, and the
    result is [undefined] when nothing is left. *)
Definition d3min (vals : list number) : option number :=
  fold_left
    (fun min value =>
       match min with
       | Some m => if gt m value then Some value else min
       | None => if ge value value then Some value else None
       end)
    vals None.

Definition d3max (vals : list number) : option number :=
  fold_left
    (fun max value =>
       match max with
       | Some m => if lt m value then Some value else max
       | None => if ge value value then Some value else None
       end)
    vals None.

(** *** dataOutcomes.js: parseLeadingNumber and the graduation proxy *)

Module Outcomes.

(** What the pattern of [parseLeadingNumber] matches at the start of a
    string that begins with a digit: the digits, and a dot with the digits
    after it when at least one digit follows the dot. *)
Definition numberAt (s : string) : string :=
  let '(ip, rest) := takeDigits s in
  match rest with
  | String c rest' =>
      if Ascii.eqb c "." then
        match takeDigits rest' with
        | (EmptyString, _) => ip
        | (fp, _) => ip ++ "." ++ fp
        end
      else ip
  | EmptyString => ip
  end.

Definition startsWithDigit (s : string) : bool :=
  match s with
  | String c _ => isDigit c
  | EmptyString => false
  end.

(** [s.match(re)] for the pattern of [parseLeadingNumber] (an optional
    minus sign, digits, optionally a dot and digits; not anchored): the
    leftmost match. *)
Fixpoint firstNumber (s : string) : option string :=
  match s with
  | EmptyString => None
  | String c s' =>
      if isDigit c then Some (numberAt s)
      else if Ascii.eqb c "-" && startsWithDigit s' then Some (String c (numberAt s'))
      else firstNumber s'
  end.

(** [+m] for a match [m] of that pattern. *)
Definition signedValue (m : string) : number :=
  match m with
  | String c m' => if Ascii.eqb c "-" then neg (parseFloat m') else parseFloat m
  | EmptyString => parseFloat m
  end.

Definition parseLeadingNumber (x : value) : option number :=
  if nullish x then None
  else
    match firstNumber (toString x) with
    | Some m => Some (signedValue m)
    | None => None
    end.

(** ToNumber of what [d3.min] or [d3.max] returned. *)
Definition numberOf (o : option number) : number :=
  match o with Some n => n | None => NaN end.

(** [hsRateProxy] of [loadOutcomes] for one state: [counts] are the values
    of [hsGradsByState], [hsGraduates] and [hsRate] the entries of the
    state ([None] is [null]). *)
Definition hsRateProxy (hsRate hsGraduates : option number) (counts : list number)
  : option number :=
  let gradCounts := List.filter (fun v => negb (isNaN v)) counts in
  let minG := numberOf (d3min gradCounts) in
  let maxG := numberOf (d3max gradCounts) in
  match hsRate, hsGraduates with
  | None, Some g =>
      if gt maxG minG
      then Some (mul (div (sub g minG) (sub maxG minG)) (ofZ 100))
      else None
  | _, _ => None
  end.

End Outcomes.

(** *** visualization4.js: the state tables and the prediction *)

Module Viz4Helpers.

(** The table of [getStateCode]. *)
Definition codeOfName : list (string * string) :=
  [ ("Alabama", "AL"); ("Alaska", "AK"); ("Arizona", "AZ"); ("Arkansas", "AR");
    ("California", "CA"); ("Colorado", "CO"); ("Connecticut", "CT"); ("Delaware", "DE");
    ("Florida", "FL"); ("Georgia", "GA"); ("Hawaii", "HI"); ("Idaho", "ID");
    ("Illinois", "IL"); ("Indiana", "IN"); ("Iowa", "IA"); ("Kansas", "KS");
    ("Kentucky", "KY"); ("Louisiana", "LA"); ("Maine", "ME"); ("Maryland", "MD");
    ("Massachusetts", "MA"); ("Michigan", "MI"); ("Minnesota", "MN"); ("Mississippi", "MS");
    ("Missouri", "MO"); ("Montana", "MT"); ("Nebraska", "NE"); ("Nevada", "NV");
    ("New Hampshire", "NH"); ("New Jersey", "NJ"); ("New Mexico", "NM"); ("New York", "NY");
    ("North Carolina", "NC"); ("North Dakota", "ND"); ("Ohio", "OH"); ("Oklahoma", "OK");
    ("Oregon", "OR"); ("Pennsylvania", "PA"); ("Rhode Island", "RI"); ("South Carolina", "SC");
    ("South Dakota", "SD"); ("Tennessee", "TN"); ("Texas", "TX"); ("Utah", "UT");
    ("Vermont", "VT"); ("Virginia", "VA"); ("Washington", "WA"); ("West Virginia", "WV");
    ("Wisconsin", "WI"); ("Wyoming", "WY"); ("District of Columbia", "DC") ].

(** [map[stateName] || null]; [None] is [null]. *)
Definition getStateCode (stateName : string) : option member :=
  let m := getProp codeOfName stateName in
  if memberTruthy m then m else None.

(** The table of [getStateName]. *)
Definition nameOfCode : list (string * string) :=
  [ ("AL", "Alabama"); ("AK", "Alaska"); ("AZ", "Arizona"); ("AR", "Arkansas");
    ("CA", "California"); ("CO", "Colorado"); ("CT", "Connecticut"); ("DE", "Delaware");
    ("FL", "Florida"); ("GA", "Georgia"); ("HI", "Hawaii"); ("ID", "Idaho");
    ("IL", "Illinois"); ("IN", "Indiana"); ("IA", "Iowa"); ("KS", "Kansas");
    ("KY", "Kentucky"); ("LA", "Louisiana"); ("ME", "Maine"); ("MD", "Maryland");
    ("MA", "Massachusetts"); ("MI", "Michigan"); ("MN", "Minnesota"); ("MS", "Mississippi");
    ("MO", "Missouri"); ("MT", "Montana"); ("NE", "Nebraska"); ("NV", "Nevada");
    ("NH", "New Hampshire"); ("NJ", "New Jersey"); ("NM", "New Mexico"); ("NY", "New York");
    ("NC", "North Carolina"); ("ND", "North Dakota"); ("OH", "Ohio"); ("OK", "Oklahoma");
    ("OR", "Oregon"); ("PA", "Pennsylvania"); ("RI", "Rhode Island"); ("SC", "South Carolina");
    ("SD", "South Dakota"); ("TN", "Tennessee"); ("TX", "Texas"); ("UT", "Utah");
    ("VT", "Vermont"); ("VA", "Virginia"); ("WA", "Washington"); ("WV", "West Virginia");
    ("WI", "Wisconsin"); ("WY", "Wyoming"); ("DC", "District of Columbia") ].

(** [map[stateCode] || stateCode]: a name, an inherited member, or the
    argument itself, as [Code]. *)
Definition getStateName (stateCode : string) : member :=
  match getProp nameOfCode stateCode with
  | Some m => if memberTruthy (Some m) then m else Code stateCode
  | None => Code stateCode
  end.

(** [incomeEffects], the three percentages of the latest cohort. *)
Record incomeEffects : Type := { low : number; medium : number; high : number }.

(** [incomeEffects[sesLevel] || incomeEffects.medium], as the number that
    [income / 50] makes of it: a member inherited from [Object.prototype]
    is a function or an object, and its number is NaN. *)
Definition incomeOf (effects : incomeEffects) (sesLevel : string) : number :=
  let own :=
    if String.eqb sesLevel "low" then Some (low effects)
    else if String.eqb sesLevel "medium" then Some (medium effects)
    else if String.eqb sesLevel "high" then Some (high effects)
    else None in
  match own with
  | Some v => if truthy (VNum v) then v else medium effects
  | None =>
      if existsb (String.eqb sesLevel) objectPrototype then NaN else medium effects
  end.

(** [map.get(key) || fallback] *)
Definition getOr (m : gmap member number) (key : string) (fallback : number) : number :=
  match m !! Code key with
  | Some v => if truthy (VNum v) then v else fallback
  | None => fallback
  end.

Definition calculateStatePrediction (stateGradRates stateGini : gmap member number)
    (effects : incomeEffects) (stateCode sesLevel : string) (literacyScore : number)
  : number :=
  let baseRate := getOr stateGradRates stateCode (ofZ 35) in
  let gini := getOr stateGini stateCode (Fin (48 # 100)) in
  let income := incomeOf effects sesLevel in
  let readingAdj :=
    if truthy (VNum literacyScore)
    then mul (div (sub literacyScore (ofZ 240)) (ofZ 10)) (ofZ 2)
    else ofZ 0 in
  let incomeMod := div income (ofZ 50) in
  let giniPen := mul (sub gini (Fin (45 # 100))) (ofZ 10) in
  let predicted :=
    sub (add (add baseRate readingAdj) (mul baseRate (sub incomeMod (ofZ 1)))) giniPen in
  mathMax (ofZ 15) (mathMin (ofZ 75) predicted).

End Viz4Helpers.

(** *** visualization5_integrated.js: the average spending and the scatter data *)

Module Viz5Helpers.

(** [stateData.spending]: per category the [amount] of its entry, [None]
    when the category has no entry. *)
Record spending : Type :=
  { lowSES : option number; middleSES : option number; highSES : option number }.

(** The [forEach] over the three categories: [(total, count)]. *)
Definition totals (sp : spending) : number * nat :=
  fold_left
    (fun '(total, count) cat =>
       match cat with
       | Some amount => (add total amount, S count)
       | None => (total, count)
       end)
    [lowSES sp; middleSES sp; highSES sp] (ofZ 0, 0%nat).

Definition calculateStateAverage (sp : spending) : number :=
  let '(total, count) := totals sp in
  if (0 <? count)%nat then div total (ofZ (Z.of_nat count)) else ofZ 0.

(** A state of the funding data: its spending and the score of the
    avatar's grade, a number, [null] or [undefined]. *)
Record stateRow : Type := { rowSpending : spending; rowScore : input }.

(** [scatterData] of [createScatterPanel]: the [map] and the [filter]
    [d.spending && d.score && !isNaN(d.spending) && !isNaN(d.score)]. *)
Definition scatterData (stateData : list stateRow) : list Viz5.datum :=
  flat_map
    (fun d =>
       let avgSpending := calculateStateAverage (rowSpending d) in
       match rowScore d with
       | Num score =>
           if truthy (VNum avgSpending) && truthy (VNum score)
              && negb (isNaN avgSpending) && negb (isNaN score)
           then [ {| Viz5.spending := avgSpending; Viz5.score := score |} ]
           else []
       | _ => []
       end)
    stateData.

End Viz5Helpers.

(** *** dataHelpers.js: the poverty rate of getStateContext *)

Module Context.

Import DataHelpers.

(** A row of the poverty file as [d3.autoType] reads it: [State] is a
    cell, [Poverty_150] a number or [null] for an empty cell. *)
Record povertyRow : Type := { State : value; Poverty_150 : input }.

(** [+v] *)
Definition unaryPlus (v : input) : number :=
  match v with
  | Undefined => NaN
  | Null => ofZ 0
  | Num n => n
  end.

(** [r.State === state] *)
Definition isState (state : string) (r : povertyRow) : bool :=
  match State r with
  | VStr s => String.eqb s state
  | _ => false
  end.

(** [avgPov]: [d3.mean(stateRows, d => +d.Poverty_150)]. *)
Definition avgPov (poverty : list povertyRow) (state : string) : option number :=
  d3mean (map (fun d => unaryPlus (Poverty_150 d)) (List.filter (isState state) poverty)).

(** The fields [povertyRate] and [ses] of the context. *)
Definition povertyContext (poverty : list povertyRow) (state : string)
  : option number * string :=
  let rate := avgPov poverty state in
  (rate, getSESCategory (match rate with Some n => Num n | None => Undefined end)).

End Context.

(** *** visualization1.js: the national average and the context states *)

Module Viz1Context.
Import Viz1.

(** [getNationalAverage] on the loaded file [data]; [None] is [null]. *)
Definition getNationalAverage (data : gmap string gradeData) (grade : Z) : option number :=
  let gradeKey := "grade" ++ numberToString (ofZ grade) in
  match data !! gradeKey with
  | None => None
  | Some gd =>
      match nationalAvg gd !! latestYear (years gd) with
      | Some v => if truthy (VNum v) then Some v else None
      | None => None
      end
  end.

(** An element of [stateScores]. *)
Record contextScore : Type := { state : string; score : number }.

(** The loop over [Object.entries(gradeData.states)]: [entries] are the
    states in the order of the object, each with its scores by year. *)
Definition scoresOf (latest ses : string) (entries : list (string * gmap string number))
  : list contextScore :=
  omap
    (fun '(stateCode, scores) =>
       match scores !! latest with
       | Some baseScore =>
           if negb (isNaN baseScore)
           then Some {| state := stateCode; score := adjust baseScore ses |}
           else None
       | None => None
       end)
    entries.

(** [stateScores.sort((a, b) => b.score - a.score)]: the sort is stable,
    and [x] goes before the first [y] for which the comparator is positive
    at [(y, x)]. *)
Fixpoint insertByScore (x : contextScore) (l : list contextScore) : list contextScore :=
  match l with
  | [] => [x]
  | y :: l' =>
      if gt (sub (score x) (score y)) (ofZ 0) then x :: l else y :: insertByScore x l'
  end.

Definition sortByScore (l : list contextScore) : list contextScore :=
  fold_left (fun acc x => insertByScore x acc) l [].

(** An element of the result: the copied properties of the element of
    [stateScores] at an index ([None] when the index is out of range and
    nothing is copied), and the label. *)
Record labelled : Type := { entry : option contextScore; label : string }.

Definition pick (stateScores : list contextScore) : list labelled :=
  if (0 <? length stateScores)%nat then
    [ {| entry := stateScores !! 0%nat; label := "Highest" |} ]
    ++ (if (10 <? length stateScores)%nat
        then [ {| entry := stateScores !! (length stateScores / 2)%nat; label := "Middle" |} ]
        else [])
    ++ [ {| entry := stateScores !! (length stateScores - 1)%nat; label := "Lowest" |} ]
  else [].

(** [getStateScoresForContext] on the grade's object, [None] when the file
    has no such grade. *)
Definition getStateScoresForContext
    (gradeData : option (list Z * list (string * gmap string number))) (ses : string)
  : list labelled :=
  match gradeData with
  | None => []
  | Some (years, entries) => pick (sortByScore (scoresOf (latestYear years) ses entries))
  end.

End Viz1Context.

(** ** The operations as the specification words them *)

Module Spec.

(** Category bucketing: the first label whose upper bound exceeds the
    value; the final label when the value exceeds all bounds. *)
Fixpoint bucketFrom (final : string) (value : number) (thresholds : list (number * string))
  : string :=
  match thresholds with
  | [] => final
  | (upperBound, label) :: rest =>
      if lt value upperBound then label else bucketFrom final value rest
  end.

Definition bucket (value : number) (thresholds : list (number * string)) : string :=
  bucketFrom (List.last (map snd thresholds) "") value thresholds.

Definition naepThresholds : list (number * string) :=
  [ (ofZ 200, "Below Basic"); (ofZ 240, "Basic"); (ofZ 280, "Proficient");
    (Inf false, "Advanced") ].

(** Percent-to-score transform: [scoreMax - percentBelowThreshold * slopeConstant]. *)
Definition toScore (scoreMax slopeConstant percentBelowThreshold : number) : number :=
  sub scoreMax (mul percentBelowThreshold slopeConstant).

(** The SES categories, from the poorest up. *)
Definition sesRank (category : string) : nat :=
  if String.eqb category "Low" then 0
  else if String.eqb category "Middle" then 1
  else if String.eqb category "High" then 2
  else 3.

(** Least squares over points [(x, y)]: the means, the sum of the
    products of the deviations and the sum of the squared deviations of x;
    [slope = Sxy / Sxx] and [intercept = ybar - slope * xbar]. *)
Definition Qsum (l : list Q) : Q := fold_right Qplus 0%Q l.

Definition mean (l : list Q) : Q := (Qsum l / inject_Z (Z.of_nat (length l)))%Q.

Definition xbar (pts : list (Q * Q)) : Q := mean (map fst pts).
Definition ybar (pts : list (Q * Q)) : Q := mean (map snd pts).

Definition Sxy (pts : list (Q * Q)) : Q :=
  Qsum (map (fun p => (fst p - xbar pts) * (snd p - ybar pts))%Q pts).


(** Strategy 3 of the header search as the specification words it: the
    back-scan above the first state-name row among the first 30 rows, and
    above no other row. *)
Definition strategy3FirstName (rows : grid) : DataHelpers.cursor :=
  match scanRows (fun i r => if DataHelpers.isNameRow r then Some i else None)
                 0 (firstn 30 rows) with
  | Some i =>
      match DataHelpers.backScan rows i with
      | Some j =>
          {| DataHelpers.headerRowIndex := Z.of_nat j;
             DataHelpers.dataStartRow := Z.of_nat i |}
      | None => DataHelpers.notFound
      end
  | None => DataHelpers.notFound
  end.

End Spec.

(** ** Sample inputs *)

Module Samples.

Import DataHelpers.

(** A sheet on which strategy 1 fails, strategy 2 finds the header in row
    1, and strategy 3 on its own would take row 0. *)
Definition orderGrid : grid :=
  [ [VStr "Average scores"; VStr "2019"];
    [VStr "Year"; VStr "2015"; VStr "2017"; VStr "2019"];
    [VStr "California"; VNum (ofZ 213); VNum (ofZ 215); VNum (ofZ 216)] ].

(** A sheet without a header: no label, no years, no state name. *)
Definition badSheet : grid :=
  [ [VStr "Reading results"; VNull]; [VStr "n/a"; VStr "n/a"] ].

(** A sheet whose header row is found by its label and has no year. *)
Definition noYearSheet : grid :=
  [ [VStr "State"; VStr "Score"]; [VStr "Texas"; VNum (ofZ 215)] ].

Definition emptyWorld : world := {| naepDataCache := ∅; localStorage := ∅ |}.

(** A page where [XLSX] is loaded and both workbooks hold [sheet]. *)
Definition pageWith (sheet : grid) : env :=
  {| xlsxDefined := true; fetchSheet := fun _ => Some sheet |}.

(** The sheet of the end-to-end scenario of the specification. *)
Definition specSheet : grid :=
  [ [VStr "State or jurisdiction"; VStr "2019"; VStr "2022"];
    [VStr "United States"; VNum (ofZ 220); VNum (ofZ 222)];
    [VStr "California"; VNum (ofZ 215); VNum (ofZ 219)] ].

(** A sheet whose only state row has the string "0" under the year. *)
Definition zeroSheet : grid :=
  [ [VStr "State"; VStr "2022"]; [VStr "Texas"; VStr "0"] ].

(** The same rows in the layout that [clean_naep_data.js] expects: the
    header, one row under it, then the data. *)
Definition zeroSheetClean : grid :=
  [ [VStr "State or jurisdiction"; VStr "2022"]; [VNull; VNull];
    [VStr "Texas"; VStr "0"] ].



Definition threePoints : list (Q * Q) := [ (1, 2); (2, 4); (3, 6) ]%Q.

(** A sheet without a label row and without a row of three years, whose
    first state-name row has nothing above it and whose second has the
    year row above it. *)
Definition laterStateGrid : grid :=
  [ [VStr "Texas"; VNum (ofZ 210)];
    [VStr ""; VStr "2022"];
    [VStr "California"; VNum (ofZ 219)] ].

End Samples.

(** Inputs for the further properties. *)

Module MoreSamples.

Import DataHelpers Samples.

(** What [loadAllNAEPData] extracts from [specSheet]. *)
Definition specTable : table :=
  fold_left (parseRow {| colIndex := 2; year := "2022" |}) (skipn 1 specSheet) emptyTable.


(** The record of California in [specTable], and the caches after a
    first [fetchNAEP] for it at time 0. *)
Definition caScores : scores :=
  {| Low := Some (ofZ 201); Middle := Some (ofZ 219); High := Some (ofZ 237);
     NationalAverage := Some (ofZ 222) |}.

Definition cachedWorld : world :=
  {| naepDataCache := {[ 4%Z := specTable ]};
     localStorage := {[ "naep_CA_4_READING" := (caScores, 0%Z) ]} |}.

(** A sheet for [parseNAEPFile]: the state name in lower case, a string
    "0" under 2022. *)
Definition cleanSheet : grid :=
  [ [VStr "State or jurisdiction"; VStr "2019"; VNum (ofZ 2022)]; [VNull];
    [VStr "United States"; VNum (ofZ 220); VNum (ofZ 222)];
    [VStr "texas"; VNum (ofZ 215); VStr "0"] ].

(** A point of the prediction scatter with finite coordinates. *)
Definition finite4 (p : Q * Q) : Viz4.stateScore :=
  {| Viz4.literacyScore := Fin (fst p); Viz4.prediction := Fin (snd p) |}.

(** A page without the [XLSX] global and without files. *)
Definition emptyPage : env := {| xlsxDefined := false; fetchSheet := fun _ => None |}.

(** Two states with a score for 2022 and one without. *)
Definition contextYears : list Z := [2019; 2022]%Z.
Definition contextEntries : list (string * gmap string number) :=
  [ ("NM", <["2022" := ofZ 202]> ∅); ("MA", <["2022" := ofZ 227]> ∅);
    ("PR", <["2019" := ofZ 190]> ∅) ].

End MoreSamples.

(** Invariants of the loops, used in the further properties. *)

Module Invariants.

Import DataHelpers.

(** A record of [stateData] as the loop builds it. *)
Definition wellFormed (sc : scores) : Prop :=
  exists m n : number,
    Middle sc = Some m /\ isNaN m = false
    /\ Low sc = Some (sub m (ofZ 18)) /\ High sc = Some (add m (ofZ 18))
    /\ NationalAverage sc = Some n /\ isNaN n = false.

(** What the header loop of [parseNAEPFile] keeps true of [years] and
    [yearColumns] while it reads the header row [r]. *)
Definition headerInv (r : row) (h : CleanNaep.header) : Prop :=
  NoDup (CleanNaep.years h)
  /\ (forall y, y ∈ CleanNaep.years h ->
        (1990 <= y <= 2025)%Z
        /\ exists col ys,
             CleanNaep.yearColumns h !! y = Some col
             /\ (1 <= col < 50)%nat
             /\ matchYearPrefix (toString (index r col)) = Some ys
             /\ parseInt ys = y).

(** A score that [parseNAEPFile] keeps for a year. *)
Definition keptScore (h : CleanNaep.header) (y : Z) (s : number) : Prop :=
  isNaN s = false /\ gt s (ofZ 0) = true /\ y ∈ CleanNaep.years h.

(** [s] contains a decimal digit. *)
Fixpoint hasDigit (s : string) : bool :=
  match s with
  | EmptyString => false
  | String c s' => isDigit c || hasDigit s'
  end.

(** The amounts of the categories that a state has an entry for. *)
Definition presentAmounts (sp : Viz5Helpers.spending) : list number :=
  omap (fun a : option number => a)
       [Viz5Helpers.lowSES sp; Viz5Helpers.middleSES sp; Viz5Helpers.highSES sp].

(** An element of [stateScores] with a finite score, and the order that
    the comparator of [getStateScoresForContext] asks for. *)
Definition finiteScore (c : Viz1Context.contextScore) : Prop :=
  exists q, Viz1Context.score c = Fin q.

Definition descending (a b : Viz1Context.contextScore) : Prop :=
  le (Viz1Context.score b) (Viz1Context.score a) = true.

(** A point of the prediction scatter as a point of the spending scatter. *)
Definition asDatum (d : Viz4.stateScore) : Viz5.datum :=
  {| Viz5.spending := Viz4.literacyScore d; Viz5.score := Viz4.prediction d |}.

(** A magnitude far below the range of the code's numbers: sums and
    products of a few such values do not overflow. *)
Definition moderate (q : Q) : Prop :=
  (- inject_Z (10 ^ 100) <= q <= inject_Z (10 ^ 100))%Q.

End Invariants.

(** * Properties *)

Import Samples.

Import DataHelpers.

(** ** Comparisons of numbers *)

Lemma Qltb_lt (x y : Q) : Qltb x y = true <-> (x < y)%Q.
Proof.
  unfold Qltb. rewrite negb_true_iff, <- not_true_iff_false, Qle_bool_iff.
  split; [apply Qnot_le_lt | apply Qlt_not_le].
Qed.

Lemma Qltb_ge (x y : Q) : Qltb x y = false <-> (y <= x)%Q.
Proof.
  unfold Qltb. rewrite negb_false_iff. apply Qle_bool_iff.
Qed.

Lemma le_Fin (a b : Q) : le (Fin a) (Fin b) = true <-> (a <= b)%Q.
Proof.
  unfold le, ge, lt. rewrite negb_true_iff. apply Qltb_ge.
Qed.

Lemma ge_not_nan (a b : number) : ge a b = true -> isNaN a = false.
Proof. destruct a; [discriminate | reflexivity | reflexivity]. Qed.

Lemma lt_not_nan (a b : number) : lt a b = true -> isNaN a = false.
Proof. destruct a; [discriminate | reflexivity | reflexivity]. Qed.

Lemma ge_negb_lt (a b : number) :
  isNaN a = false -> isNaN b = false -> ge a b = negb (lt a b).
Proof. destruct a, b; simpl; congruence. Qed.

(** [<] is transitive, and [a <= b < c] gives [a < c]. *)
Lemma number_lt_trans (a b c : number) : lt a b = true -> lt b c = true -> lt a c = true.
Proof.
  destruct a as [| [] | x], b as [| [] | y], c as [| [] | z]; simpl; try congruence.
  rewrite !Qltb_lt. apply Qlt_trans.
Qed.

Lemma number_le_lt_trans (a b c : number) : le a b = true -> lt b c = true -> lt a c = true.
Proof.
  unfold le.
  destruct a as [| [] | x], b as [| [] | y], c as [| [] | z]; simpl; try congruence.
  rewrite negb_true_iff, Qltb_ge, !Qltb_lt. apply Qle_lt_trans.
Qed.

(** ** dataOutcomes.js and getSESCategory *)

(** C6. [levelFromScore] is the bucketing of the specification at the
    bounds 200, 240 and 280: it answers with the first label whose upper
    bound strictly exceeds the score and with the last label when no bound
    does; 199.9 is "Below Basic" and 200 is "Basic"; [null], [undefined]
    and NaN give "Unknown". The function is total: it never throws. *)
Theorem levelFromScore_bucket :
  (forall s : number,
      DataOutcomes.levelFromScore (Num s)
      = if isNaN s then "Unknown" else Spec.bucket s Spec.naepThresholds)
  /\ DataOutcomes.levelFromScore Null = "Unknown"
  /\ DataOutcomes.levelFromScore Undefined = "Unknown"
  /\ DataOutcomes.levelFromScore (Num NaN) = "Unknown"
  /\ DataOutcomes.levelFromScore (Num (Fin (1999 # 10))) = "Below Basic"
  /\ DataOutcomes.levelFromScore (Num (Fin 200)) = "Basic"
  /\ (forall s : number, lt s (ofZ 200) = true ->
        DataOutcomes.levelFromScore (Num s) = "Below Basic")
  /\ (forall s : number, ge s (ofZ 200) = true -> lt s (ofZ 240) = true ->
        DataOutcomes.levelFromScore (Num s) = "Basic")
  /\ (forall s : number, ge s (ofZ 240) = true -> lt s (ofZ 280) = true ->
        DataOutcomes.levelFromScore (Num s) = "Proficient")
  /\ (forall s : number, ge s (ofZ 280) = true ->
        DataOutcomes.levelFromScore (Num s) = "Advanced").
Proof.
  repeat split; try reflexivity.
  - intros s. unfold DataOutcomes.levelFromScore, Spec.bucket. simpl.
    destruct (isNaN s) eqn:Hn; [reflexivity |].
    destruct (lt s (ofZ 200)); [reflexivity |].
    destruct (lt s (ofZ 240)); [reflexivity |].
    destruct (lt s (ofZ 280)); [reflexivity |].
    destruct (lt s (Inf false)); reflexivity.
  - intros s Hs. unfold DataOutcomes.levelFromScore.
    rewrite (lt_not_nan _ _ Hs), Hs. reflexivity.
  - intros s Hge Hlt. unfold DataOutcomes.levelFromScore.
    pose proof (ge_not_nan _ _ Hge) as Hn. rewrite Hn.
    rewrite ge_negb_lt in Hge by (assumption || reflexivity).
    apply negb_true_iff in Hge. rewrite Hge, Hlt. reflexivity.
  - intros s Hge Hlt. unfold DataOutcomes.levelFromScore.
    pose proof (ge_not_nan _ _ Hge) as Hn. rewrite Hn.
    rewrite ge_negb_lt in Hge by (assumption || reflexivity).
    apply negb_true_iff in Hge.
    assert (H200 : lt s (ofZ 200) = false).
    { destruct (lt s (ofZ 200)) eqn:E; [| reflexivity].
      rewrite (number_lt_trans s (ofZ 200) (ofZ 240) E eq_refl) in Hge. discriminate. }
    rewrite H200, Hge, Hlt. reflexivity.
  - intros s Hs. unfold DataOutcomes.levelFromScore.
    pose proof (ge_not_nan _ _ Hs) as Hn. rewrite Hn.
    rewrite ge_negb_lt in Hs by (assumption || reflexivity).
    apply negb_true_iff in Hs.
    assert (H240 : lt s (ofZ 240) = false).
    { destruct (lt s (ofZ 240)) eqn:E; [| reflexivity].
      rewrite (number_lt_trans s (ofZ 240) (ofZ 280) E eq_refl) in Hs. discriminate. }
    assert (H200 : lt s (ofZ 200) = false).
    { destruct (lt s (ofZ 200)) eqn:E; [| reflexivity].
      rewrite (number_lt_trans s (ofZ 200) (ofZ 280) E eq_refl) in Hs. discriminate. }
    rewrite H200, H240, Hs. reflexivity.
Qed.

Lemma levelFromScore_bucket_witness :
  lt (Fin (1999 # 10)) (ofZ 200) = true
  /\ DataOutcomes.levelFromScore (Num (Fin (1999 # 10))) = "Below Basic".
Proof.
  split; [reflexivity |].
  apply (proj1 (proj2 (proj2 (proj2 (proj2 (proj2 (proj2 levelFromScore_bucket))))))).
  reflexivity.
Defined.

(** C9. [toLiteracyScore] is the affine transform of the specification
    with [scoreMax = 320] and [slopeConstant = 2]: on a number that is not
    NaN it returns [320 - p * 2] as the code computes it, so 200 for 60 and
    320 for 0, and a higher percentage never gets a higher score; it returns
    [null] for [null], [undefined] and NaN. *)
Theorem toLiteracyScore_affine :
  (forall p : number,
      DataOutcomes.toLiteracyScore (Num p)
      = if isNaN p then None else Some (Spec.toScore (ofZ 320) (ofZ 2) p))
  /\ DataOutcomes.toLiteracyScore (Num (ofZ 60)) = Some (ofZ 200)
  /\ DataOutcomes.toLiteracyScore (Num (ofZ 0)) = Some (ofZ 320)
  /\ (forall p1 p2 : number,
        le p1 p2 = true ->
        exists s1 s2 : number,
          DataOutcomes.toLiteracyScore (Num p1) = Some s1
          /\ DataOutcomes.toLiteracyScore (Num p2) = Some s2
          /\ le s2 s1 = true)
  /\ DataOutcomes.toLiteracyScore Null = None
  /\ DataOutcomes.toLiteracyScore Undefined = None
  /\ DataOutcomes.toLiteracyScore (Num NaN) = None.
Proof.
  split; [reflexivity |]. split; [reflexivity |]. split; [reflexivity |].
  split; [| repeat split; reflexivity].
  intros p1 p2 H.
  destruct p1 as [| [|] | q1], p2 as [| [|] | q2];
    try (vm_compute in H; discriminate H);
    eexists; eexists; (split; [reflexivity |]); (split; [reflexivity |]);
    try reflexivity.
  unfold le, ge, lt in H |- *. cbn [sub add neg mul ofZ Spec.toScore] in H |- *.
  rewrite negb_true_iff in H |- *. apply Qltb_ge in H. apply Qltb_ge. change (inject_Z 320) with 320%Q.
  change (inject_Z 2) with 2%Q. lra.
Qed.

(** C10. [getSESCategory] is inverse to the poverty rate: 'Low' from 30
    up, 'Middle' on [15, 30), 'High' below 15, 'Unknown' for [null],
    [undefined] and NaN; and a higher rate never gets a higher category. *)
Theorem getSESCategory_inverse :
  (forall r : number, ge r (ofZ 30) = true -> getSESCategory (Num r) = "Low")
  /\ (forall r : number, ge r (ofZ 15) = true -> lt r (ofZ 30) = true ->
        getSESCategory (Num r) = "Middle")
  /\ (forall r : number, lt r (ofZ 15) = true -> getSESCategory (Num r) = "High")
  /\ getSESCategory Null = "Unknown"
  /\ getSESCategory Undefined = "Unknown"
  /\ getSESCategory (Num NaN) = "Unknown"
  /\ (forall r1 r2 : number, le r1 r2 = true ->
        (Spec.sesRank (getSESCategory (Num r2))
         <= Spec.sesRank (getSESCategory (Num r1)))%nat).
Proof.
  repeat split; try reflexivity.
  - intros r H. unfold getSESCategory. rewrite (ge_not_nan _ _ H), H. reflexivity.
  - intros r H15 H30. unfold getSESCategory.
    pose proof (ge_not_nan _ _ H15) as Hn. rewrite Hn, H15.
    rewrite ge_negb_lt, H30 by (assumption || reflexivity). reflexivity.
  - intros r H. unfold getSESCategory.
    pose proof (lt_not_nan _ _ H) as Hn. rewrite Hn.
    rewrite !ge_negb_lt by (assumption || reflexivity).
    rewrite H, (number_lt_trans r (ofZ 15) (ofZ 30) H eq_refl). reflexivity.
  - intros r1 r2 H.
    assert (Hn2 : isNaN r2 = false) by (apply (ge_not_nan _ _ H)).
    assert (Hn1 : isNaN r1 = false) by (destruct r1, r2; simpl in *; congruence).
    unfold getSESCategory. rewrite Hn1, Hn2.
    rewrite !ge_negb_lt by (assumption || reflexivity).
    destruct (lt r2 (ofZ 30)) eqn:E30.
    + rewrite (number_le_lt_trans _ _ _ H E30).
      destruct (lt r2 (ofZ 15)) eqn:E15.
      * rewrite (number_le_lt_trans _ _ _ H E15). vm_compute. lia.
      * destruct (lt r1 (ofZ 15)); vm_compute; lia.
    + destruct (lt r1 (ofZ 30)); [| vm_compute; lia].
      destruct (lt r1 (ofZ 15)); vm_compute; lia.
Qed.

Lemma getSESCategory_inverse_witness :
  ge (Fin (63 # 2)) (ofZ 30) = true /\ getSESCategory (Num (Fin (63 # 2))) = "Low".
Proof.
  split; [reflexivity |].
  apply (proj1 getSESCategory_inverse). reflexivity.
Defined.

(** ** The header search of loadAllNAEPData *)

Section Scan.

Variable P : row -> bool.

Let firstIndex (i0 : nat) (rows : grid) : option nat :=
  scanRows (fun i r => if P r then Some i else None) i0 rows.

(** A successful scan stops at the first row that passes the test. *)
Lemma scanRows_Some (rows : grid) (i0 i : nat) :
  firstIndex i0 rows = Some i ->
  (i0 <= i)%nat
  /\ (exists r, rows !! (i - i0)%nat = Some r /\ P r = true)
  /\ (forall k r, (k < i - i0)%nat -> rows !! k = Some r -> P r = false).
Proof.
  unfold firstIndex. revert i0. induction rows as [| r rows IH]; intros i0 H; simpl in H.
  - discriminate.
  - destruct (P r) eqn:HP.
    + injection H as <-. replace (i0 - i0)%nat with 0%nat by lia.
      split; [lia |]. split; [exists r; auto |]. intros k r' Hk. lia.
    + apply IH in H as (Hle & (r' & Hr' & HP') & Hbefore).
      split; [lia |].
      replace (i - i0)%nat with (S (i - S i0)) by lia.
      split; [exists r'; auto |].
      intros [| k] r'' Hk Hl; simpl in Hl.
      * injection Hl as <-. exact HP.
      * apply (Hbefore k); [lia | exact Hl].
Qed.

(** A failed scan has tested every row. *)
Lemma scanRows_None (rows : grid) (i0 : nat) :
  firstIndex i0 rows = None <-> (forall k r, rows !! k = Some r -> P r = false).
Proof.
  unfold firstIndex. revert i0. induction rows as [| r rows IH]; intros i0; simpl.
  - split; [intros _ k r H; destruct k; discriminate | reflexivity].
  - destruct (P r) eqn:HP.
    + split; [discriminate |]. intros H. specialize (H 0%nat r eq_refl). congruence.
    + rewrite IH. split.
      * intros H [| k] r' Hl; simpl in Hl; [injection Hl as <-; exact HP | eauto].
      * intros H k r' Hl. apply (H (S k)). exact Hl.
Qed.

End Scan.

Lemma found_set (h d : nat) :
  found {| headerRowIndex := Z.of_nat h; dataStartRow := Z.of_nat d |} = true.
Proof.
  unfold found; simpl.
  destruct (Z.eqb_spec (Z.of_nat d) (-1)); [lia |].
  destruct (Z.eqb_spec (Z.of_nat h) (-1)); [lia | reflexivity].
Qed.

Lemma found_set_succ (h : nat) :
  found {| headerRowIndex := Z.of_nat h; dataStartRow := Z.of_nat h + 1 |} = true.
Proof.
  replace (Z.of_nat h + 1)%Z with (Z.of_nat (S h)) by lia. apply found_set.
Qed.

Lemma found_indices (c : cursor) :
  found c = true -> (headerRowIndex c =? -1)%Z = false /\ (dataStartRow c =? -1)%Z = false.
Proof.
  unfold found. rewrite negb_true_iff, orb_false_iff. tauto.
Qed.

(** Each strategy either leaves the two variables as they were or sets both. *)
Lemma strategy1_cases (rows : grid) (c : cursor) :
  strategy1 rows c = c \/ found (strategy1 rows c) = true.
Proof.
  unfold strategy1. destruct (scanRows _ _ _); [right; apply found_set_succ | left; reflexivity].
Qed.

Lemma strategy2_cases (rows : grid) (c : cursor) :
  strategy2 rows c = c \/ found (strategy2 rows c) = true.
Proof.
  unfold strategy2. destruct (headerRowIndex c =? -1)%Z; [| left; reflexivity].
  destruct (scanRows _ _ _); [right; apply found_set_succ | left; reflexivity].
Qed.

(** Once both variables are set, the guards of strategies 2 and 3 are
    false and their loops do not run. *)
Lemma strategy2_skipped (rows : grid) (c : cursor) :
  found c = true -> strategy2 rows c = c.
Proof.
  intros H. apply found_indices in H as [Hh _]. unfold strategy2. rewrite Hh. reflexivity.
Qed.

Lemma strategy3_skipped (rows : grid) (c : cursor) :
  found c = true -> strategy3 rows c = c.
Proof.
  intros H. apply found_indices in H as [_ Hd]. unfold strategy3. rewrite Hd. reflexivity.
Qed.

Lemma backScan_Some (rows : grid) (i j : nat) :
  backScan rows i = Some j ->
  (i - 5 <= j < i)%nat
  /\ (exists h, rows !! j = Some h /\ hasYears h = true)
  /\ (forall k h, (i - 5 <= k < j)%nat -> rows !! k = Some h -> hasYears h = false).
Proof.
  unfold backScan. intros H.
  apply scanRows_Some in H as (Hle & (h & Hh & HP) & Hbefore).
  apply lookup_take_Some in Hh as [Hh Hlt]. rewrite lookup_drop in Hh.
  replace (i - 5 + (j - (i - 5)))%nat with j in Hh by lia.
  split; [lia |]. split; [eauto |].
  intros k h' Hk Hl. apply (Hbefore (k - (i - 5))%nat); [lia |].
  apply lookup_take_Some. split; [| lia]. rewrite lookup_drop.
  replace (i - 5 + (k - (i - 5)))%nat with k by lia. exact Hl.
Qed.

(** Where the loop of strategy 3 stops when it sets the variables: at the
    first state-name row that has a year row in the five rows above it. *)
Lemma strategy3_loop_cases (rows rest : grid) (i : nat) (c : cursor) :
  (headerRowIndex c =? -1)%Z = true ->
  strategy3_loop rows i rest c = c
  \/ exists i' j r,
      strategy3_loop rows i rest c
      = {| headerRowIndex := Z.of_nat j; dataStartRow := Z.of_nat i' |}
      /\ (i <= i')%nat /\ rest !! (i' - i)%nat = Some r /\ isNameRow r = true
      /\ backScan rows i' = Some j
      /\ (forall k r', (i <= k < i')%nat -> rest !! (k - i)%nat = Some r' ->
            isNameRow r' = true -> backScan rows k = None).
Proof.
  revert i c. induction rest as [| r rest IH]; intros i c Hc; simpl; [left; reflexivity |].
  assert (Next : forall i' r0,
             (S i <= i')%nat -> rest !! (i' - S i)%nat = Some r0 ->
             (forall k r', (S i <= k < i')%nat -> rest !! (k - S i)%nat = Some r' ->
                isNameRow r' = true -> backScan rows k = None) ->
             (isNameRow r = true -> backScan rows i = None) ->
             (i <= i')%nat /\ (r :: rest) !! (i' - i)%nat = Some r0
             /\ (forall k r', (i <= k < i')%nat -> (r :: rest) !! (k - i)%nat = Some r' ->
                   isNameRow r' = true -> backScan rows k = None)).
  { intros i' r0 Hle Hl Hprev Hhere. split; [lia |]. split.
    - replace (i' - i)%nat with (S (i' - S i)) by lia. exact Hl.
    - intros k r' Hk Hlk Hn. destruct (Nat.eq_dec k i) as [-> | Hne].
      + rewrite Nat.sub_diag in Hlk. injection Hlk as <-. auto.
      + apply (Hprev k r'); [lia | | exact Hn].
        replace (k - i)%nat with (S (k - S i)) in Hlk by lia. exact Hlk. }
  destruct (isNameRow r) eqn:Hname.
  - destruct (backScan rows i) as [j |] eqn:Hback.
    + right. exists i, j, r. simpl.
      destruct (Z.eqb_spec (Z.of_nat j) (-1)); [lia |]. simpl.
      rewrite Nat.sub_diag. repeat split; auto. intros k r' Hk. lia.
    + rewrite Hc. simpl.
      destruct (IH (S i) c Hc) as [-> | (i' & j & r' & -> & Hle & Hl & Hn & Hb & Hprev)];
        [left; reflexivity |].
      right. exists i', j, r'. split; [reflexivity |].
      destruct (Next i' r' Hle Hl Hprev (fun _ => eq_refl)) as (H1 & H2 & H3). auto.
  - destruct (IH (S i) c Hc) as [-> | (i' & j & r' & -> & Hle & Hl & Hn & Hb & Hprev)];
      [left; reflexivity |].
    right. exists i', j, r'. split; [reflexivity |].
    destruct (Next i' r' Hle Hl Hprev ltac:(discriminate)) as (H1 & H2 & H3). auto.
Qed.

Lemma strategy3_cases (rows : grid) :
  strategy3 rows notFound = notFound
  \/ exists i j r h,
      strategy3 rows notFound
      = {| headerRowIndex := Z.of_nat j; dataStartRow := Z.of_nat i |}
      /\ (i < 30)%nat /\ rows !! i = Some r /\ isNameRow r = true
      /\ (i - 5 <= j < i)%nat /\ rows !! j = Some h /\ hasYears h = true
      /\ (forall k h', (i - 5 <= k < j)%nat -> rows !! k = Some h' -> hasYears h' = false)
      /\ (forall k r', (k < i)%nat -> rows !! k = Some r' -> isNameRow r' = true ->
            backScan rows k = None).
Proof.
  unfold strategy3. simpl.
  destruct (strategy3_loop_cases rows (firstn 30 rows) 0 notFound eq_refl)
    as [-> | (i & j & r & -> & _ & Hl & Hn & Hb & Hprev)]; [left; reflexivity |].
  right. rewrite Nat.sub_0_r in Hl. apply lookup_take_Some in Hl as [Hl Hlt].
  apply backScan_Some in Hb as (Hj & (h & Hh & Hy) & Hfirst).
  exists i, j, r, h. repeat split; auto; try lia.
  intros k r' Hk Hlk Hname. apply (Hprev k r'); [lia | | exact Hname].
  rewrite Nat.sub_0_r. apply lookup_take_Some. split; [exact Hlk | lia].
Qed.

(** The search as a whole: the first strategy that sets the variables. *)
Lemma findHeader_first (rows : grid) :
  findHeader rows
  = (if found (strategy1 rows notFound) then strategy1 rows notFound
     else if found (strategy2 rows notFound) then strategy2 rows notFound
     else strategy3 rows notFound).
Proof.
  unfold findHeader.
  destruct (found (strategy1 rows notFound)) eqn:F1.
  - rewrite (strategy2_skipped rows _ F1). apply strategy3_skipped, F1.
  - destruct (strategy1_cases rows notFound) as [E | E]; [| congruence].
    rewrite E.
    destruct (found (strategy2 rows notFound)) eqn:F2; [apply strategy3_skipped, F2 |].
    destruct (strategy2_cases rows notFound) as [E2 | E2]; [| congruence].
    rewrite E2. reflexivity.
Qed.

(** A scan succeeds as soon as one of its rows passes the test. *)
Lemma scanRows_found (P : row -> bool) (rows : grid) (i0 k : nat) (r : row) :
  rows !! k = Some r -> P r = true ->
  scanRows (fun i r => if P r then Some i else None) i0 rows <> None.
Proof.
  intros Hl HP E. pose proof (proj1 (scanRows_None P rows i0) E k r Hl) as F.
  congruence.
Qed.

Lemma backScan_found (rows : grid) (i j : nat) (h : row) :
  (i - 5 <= j < i)%nat -> rows !! j = Some h -> hasYears h = true ->
  backScan rows i <> None.
Proof.
  intros Hj Hl Hy. unfold backScan.
  apply (scanRows_found hasYears _ _ (j - (i - 5))%nat h); [| exact Hy].
  apply lookup_take_Some. split; [| lia]. rewrite lookup_drop.
  replace (i - 5 + (j - (i - 5)))%nat with j by lia. exact Hl.
Qed.

(** When the loop of strategy 3 ends without a header, no state-name row
    that it visited has a year row in the five rows above it. *)
Lemma strategy3_loop_none (rows rest : grid) (i : nat) (c : cursor) :
  (headerRowIndex c =? -1)%Z = true ->
  (headerRowIndex (strategy3_loop rows i rest c) =? -1)%Z = true ->
  forall k r, rest !! k = Some r -> isNameRow r = true -> backScan rows (i + k) = None.
Proof.
  revert i c. induction rest as [| r0 rest IH]; intros i c Hc H k r Hl Hn.
  - discriminate.
  - cbn [strategy3_loop] in H. destruct (isNameRow r0) eqn:Hname.
    + destruct (backScan rows i) as [j |] eqn:Hback.
      * cbn [headerRowIndex] in H.
        destruct (Z.eqb_spec (Z.of_nat j) (-1)) as [E | E]; [lia |].
        cbn [negb headerRowIndex] in H.
        destruct (Z.eqb_spec (Z.of_nat j) (-1)); [lia | discriminate].
      * rewrite Hc in H. cbn [negb] in H.
        destruct k as [| k]; simpl in Hl.
        -- rewrite Nat.add_0_r. exact Hback.
        -- replace (i + S k)%nat with (S i + k)%nat by lia.
           apply (IH (S i) c Hc H k r Hl Hn).
    + destruct k as [| k]; simpl in Hl.
      * injection Hl as <-. congruence.
      * replace (i + S k)%nat with (S i + k)%nat by lia.
        apply (IH (S i) c Hc H k r Hl Hn).
Qed.

(** On [laterStateGrid] strategies 1 and 2 fail, and the first
    state-name row (row 0) has no row above it: a search that looks above
    the first state-name row only finds nothing, while the code passes on
    to the next state-name row (row 2) and takes the year row above it. *)
Lemma strategy3_passes_first_state_row :
  found (strategy1 laterStateGrid notFound) = false
  /\ found (strategy2 laterStateGrid notFound) = false
  /\ Spec.strategy3FirstName laterStateGrid = notFound
  /\ findHeader laterStateGrid = {| headerRowIndex := 1; dataStartRow := 2 |}
  /\ findHeader laterStateGrid <> Spec.strategy3FirstName laterStateGrid.
Proof.
  split; [reflexivity |]. split; [reflexivity |]. split; [reflexivity |].
  split; [reflexivity |]. vm_compute. discriminate.
Qed.

(** C4, as the code has it. The header search tries its strategies in
    strict order and the first that succeeds determines the result: the
    search returns what strategy 1 finds, else what strategy 2 finds, else
    what strategy 3 finds, each taken on its own; once a strategy has set
    the two variables, the later strategies leave them as they are.
    Strategy 1 succeeds exactly when one of the first 15 rows has a first
    cell containing "state" or "jurisdiction", and answers with the first
    such row. Strategy 2 succeeds exactly when one of the first 15 rows
    has at least 3 year cells among columns 1 to 14, and answers with the
    first such row. Strategy 3 succeeds exactly when one of the first 30
    rows is a state-name row with a year row among the five rows above
    it, and answers with the first such state-name row, passing over the
    state-name rows before it that have none, and with the first year row
    above it. *)
Theorem findHeader_strict_order (rows : grid) :
  let s1 := strategy1 rows notFound in
  let s2 := strategy2 rows notFound in
  let s3 := strategy3 rows notFound in
  findHeader rows = (if found s1 then s1 else if found s2 then s2 else s3)
  /\ (forall c, found c = true -> strategy2 rows c = c /\ strategy3 rows c = c)
  /\ (found s1 = true ->
      exists i r, s1 = {| headerRowIndex := Z.of_nat i; dataStartRow := Z.of_nat i + 1 |}
        /\ (i < 15)%nat /\ rows !! i = Some r /\ isLabelRow r = true
        /\ forall k r', (k < i)%nat -> rows !! k = Some r' -> isLabelRow r' = false)
  /\ (forall i r, (i < 15)%nat -> rows !! i = Some r -> isLabelRow r = true ->
        found s1 = true)
  /\ (found s2 = true ->
      exists i r, s2 = {| headerRowIndex := Z.of_nat i; dataStartRow := Z.of_nat i + 1 |}
        /\ (i < 15)%nat /\ rows !! i = Some r /\ (3 <= yearCount r)%nat
        /\ forall k r', (k < i)%nat -> rows !! k = Some r' -> (yearCount r' < 3)%nat)
  /\ (forall i r, (i < 15)%nat -> rows !! i = Some r -> (3 <= yearCount r)%nat ->
        found s2 = true)
  /\ (found s3 = true ->
      exists i j r h, s3 = {| headerRowIndex := Z.of_nat j; dataStartRow := Z.of_nat i |}
        /\ (i < 30)%nat /\ rows !! i = Some r /\ isNameRow r = true
        /\ (i - 5 <= j < i)%nat /\ rows !! j = Some h /\ hasYears h = true
        /\ (forall k h', (i - 5 <= k < j)%nat -> rows !! k = Some h' ->
              hasYears h' = false)
        /\ (forall k r', (k < i)%nat -> rows !! k = Some r' -> isNameRow r' = true ->
              backScan rows k = None))
  /\ (forall i j r h, (i < 30)%nat -> rows !! i = Some r -> isNameRow r = true ->
        (i - 5 <= j < i)%nat -> rows !! j = Some h -> hasYears h = true ->
        found s3 = true)
  /\ (found s1 = false -> s1 = notFound)
  /\ (found s2 = false -> s2 = notFound)
  /\ (found s3 = false -> s3 = notFound).
Proof.
  intros s1 s2 s3.
  split; [apply findHeader_first |].
  split; [intros c Hc; split; [apply strategy2_skipped | apply strategy3_skipped]; exact Hc |].
  split.
  { subst s1. unfold strategy1.
    destruct (scanRows _ 0%nat (firstn 15 rows)) as [i |] eqn:E; [| discriminate].
    intros _. apply scanRows_Some in E as (_ & (r & Hr & HP) & Hbefore).
    rewrite Nat.sub_0_r in Hr, Hbefore. apply lookup_take_Some in Hr as [Hr Hi].
    exists i, r. repeat split; auto.
    intros k r' Hk Hl. apply (Hbefore k); [exact Hk |].
    apply lookup_take_Some. split; [exact Hl | lia]. }
  split.
  { intros i r Hi Hl HP. subst s1. unfold strategy1.
    destruct (scanRows _ 0%nat (firstn 15 rows)) as [i' |] eqn:E; [apply found_set_succ |].
    exfalso. revert E. apply (scanRows_found isLabelRow _ _ i r); [| exact HP].
    apply lookup_take_Some. split; [exact Hl | exact Hi]. }
  split.
  { subst s2. unfold strategy2. simpl.
    destruct (scanRows _ 0%nat (firstn 15 rows)) as [i |] eqn:E; [| discriminate].
    intros _.
    apply (scanRows_Some (fun r => (3 <=? yearCount r)%nat)) in E
      as (_ & (r & Hr & HP) & Hbefore).
    rewrite Nat.sub_0_r in Hr, Hbefore. apply lookup_take_Some in Hr as [Hr Hi].
    exists i, r. repeat split; auto.
    + apply Nat.leb_le, HP.
    + intros k r' Hk Hl. apply Nat.leb_gt, (Hbefore k); [exact Hk |].
      apply lookup_take_Some. split; [exact Hl | lia]. }
  split.
  { intros i r Hi Hl HP. subst s2. unfold strategy2. simpl.
    destruct (scanRows _ 0%nat (firstn 15 rows)) as [i' |] eqn:E; [apply found_set_succ |].
    exfalso. revert E.
    apply (scanRows_found (fun r => (3 <=? yearCount r)%nat) _ _ i r).
    - apply lookup_take_Some. split; [exact Hl | exact Hi].
    - apply Nat.leb_le, HP. }
  split.
  { intros F3. destruct (strategy3_cases rows) as [E | E]; [| exact E].
    subst s3. rewrite E in F3. discriminate. }
  split.
  { intros i j r h Hi Hl Hn Hj Hh Hy. subst s3.
    destruct (strategy3_cases rows) as [E | (i' & j' & r' & h' & E & _)];
      [| rewrite E; apply found_set].
    exfalso. apply (backScan_found rows i j h Hj Hh Hy).
    unfold strategy3 in E. simpl in E.
    apply (strategy3_loop_none rows (firstn 30 rows) 0 notFound eq_refl) with (k := i) (r := r).
    - rewrite E. reflexivity.
    - apply lookup_take_Some. split; [exact Hl | exact Hi].
    - exact Hn. }
  split.
  { intros F. subst s1. destruct (strategy1_cases rows notFound) as [E | E]; [exact E | congruence]. }
  split.
  { intros F. subst s2. destruct (strategy2_cases rows notFound) as [E | E]; [exact E | congruence]. }
  intros F. subst s3.
  destruct (strategy3_cases rows) as [E | (i' & j' & r' & h' & E & _)]; [exact E |].
  rewrite E, found_set in F. discriminate.
Qed.

Lemma findHeader_strict_order_witness :
  found (strategy3 laterStateGrid notFound) = true.
Proof.
  apply (proj1 (proj2 (proj2 (proj2 (proj2 (proj2 (proj2 (proj2
           (findHeader_strict_order laterStateGrid))))))))
           2%nat 1%nat [VStr "California"; VNum (ofZ 219)] [VStr ""; VStr "2022"]).
  - lia.
  - reflexivity.
  - reflexivity.
  - simpl. lia.
  - reflexivity.
  - reflexivity.
Defined.

(** On [orderGrid] strategy 1 fails and strategy 2 succeeds: the search
    answers with the header of strategy 2 (row 1), not with the one that
    strategy 3 finds on its own (row 0). *)
Example findHeader_orderGrid :
  found (strategy1 orderGrid notFound) = false
  /\ findHeader orderGrid = {| headerRowIndex := 1; dataStartRow := 2 |}
  /\ strategy2 orderGrid notFound = {| headerRowIndex := 1; dataStartRow := 2 |}
  /\ strategy3 orderGrid notFound = {| headerRowIndex := 0; dataStartRow := 2 |}.
Proof. repeat split; vm_compute; reflexivity. Qed.

(** ** The errors of loadAllNAEPData *)

Lemma insertColumn_not_nil (x : yearColumn) (l : list yearColumn) : insertColumn x l <> [].
Proof. destruct l as [| y l]; simpl; [| destruct (_ <? _)%Z]; discriminate. Qed.

Lemma sortColumns_nil (l : list yearColumn) : sortColumns l = [] <-> l = [].
Proof.
  unfold sortColumns. split; [| intros ->; reflexivity].
  assert (G : forall acc, fold_left (fun acc x => insertColumn x acc) l acc = [] -> l = []).
  { induction l as [| x l IH]; intros acc H; [reflexivity |]. simpl in H.
    assert (Hl : l = []) by (eapply IH, H). subst l. simpl in H.
    destruct (insertColumn_not_nil _ _ H). }
  apply G.
Qed.

Lemma yearColumnsFrom_nil (i : nat) (cells : list value) :
  yearColumnsFrom i cells = []
  <-> (forall k cell, cells !! k = Some cell -> isYearCell cell = false).
Proof.
  revert i. induction cells as [| v cells IH]; intros i; simpl.
  - split; [intros _ k cell H; destruct k; discriminate | reflexivity].
  - unfold isYearCell at 1.
    destruct (matchYear (trim (stringOrEmpty v))) eqn:E.
    + split; [discriminate |]. intros H. specialize (H 0%nat v eq_refl).
      unfold isYearCell in H. rewrite E in H. discriminate.
    + rewrite IH. split.
      * intros H [| k] cell Hl; simpl in Hl; [| eauto].
        injection Hl as <-. unfold isYearCell. rewrite E. reflexivity.
      * intros H k cell Hl. apply (H (S k)). exact Hl.
Qed.

(** No year column: no cell of the header row past column 0 is a year. *)
Lemma findYearColumns_nil (headerRow : row) :
  findYearColumns headerRow = []
  <-> (forall j cell, (1 <= j)%nat -> headerRow !! j = Some cell -> isYearCell cell = false).
Proof.
  unfold findYearColumns. rewrite yearColumnsFrom_nil. split.
  - intros H j cell Hj Hl. apply (H (j - 1)%nat). rewrite lookup_drop.
    replace (1 + (j - 1))%nat with j by lia. exact Hl.
  - intros H k cell Hl. rewrite lookup_drop in Hl. apply (H (1 + k)%nat); [lia | exact Hl].
Qed.

Lemma found_findHeader (rows : grid) :
  found (findHeader rows)
  = found (strategy1 rows notFound) || found (strategy2 rows notFound)
    || found (strategy3 rows notFound).
Proof.
  rewrite findHeader_first.
  destruct (found (strategy1 rows notFound)) eqn:F1; [exact F1 |].
  destruct (found (strategy2 rows notFound)) eqn:F2; [exact F2 | reflexivity].
Qed.

Lemma extract_cases (rows : grid) :
  extract rows
  = if negb (found (findHeader rows)) then Thrown ParseStructure
    else match sortColumns (findYearColumns
                 (nth (Z.to_nat (headerRowIndex (findHeader rows))) rows [])) with
         | [] => Thrown NoYearColumns
         | targetYearCol :: _ =>
             Returned (fold_left (parseRow targetYearCol)
                         (skipn (Z.to_nat (dataStartRow (findHeader rows))) rows)
                         emptyTable)
         end.
Proof. unfold extract, found. rewrite negb_involutive. reflexivity. Qed.

(** An error of the extraction leaves [loadAllNAEPData] without a table
    and both caches as they were. *)
Lemma loadAllNAEPData_thrown (e : env) (grade : Z) (w : world) (rows : grid) (err : error) :
  naepDataCache w !! grade = None ->
  xlsxDefined e = true ->
  fetchSheet e (filePath grade) = Some rows ->
  extract rows = Thrown err ->
  loadAllNAEPData e grade w = (Thrown err, w).
Proof.
  intros Hc Hx Hf He. unfold loadAllNAEPData. rewrite Hc, Hx, Hf, He. reflexivity.
Qed.

(** C8. The extraction fails with the structure error exactly when none
    of the three strategies locates a header and data start, and with the
    no-year-columns error exactly when a header row is located and no
    column of it other than column 0 matches the year pattern; these are
    its only errors, and in both cases [loadAllNAEPData] throws without
    returning or caching a table. *)
Theorem extract_errors (rows : grid) :
  (extract rows = Thrown ParseStructure
   <-> found (strategy1 rows notFound) = false
       /\ found (strategy2 rows notFound) = false
       /\ found (strategy3 rows notFound) = false)
  /\ (extract rows = Thrown NoYearColumns
      <-> found (findHeader rows) = true
          /\ forall j cell, (1 <= j)%nat ->
               nth (Z.to_nat (headerRowIndex (findHeader rows))) rows [] !! j = Some cell ->
               isYearCell cell = false)
  /\ (forall err, extract rows = Thrown err -> err = ParseStructure \/ err = NoYearColumns)
  /\ (forall e grade w err,
        naepDataCache w !! grade = None -> xlsxDefined e = true ->
        fetchSheet e (filePath grade) = Some rows -> extract rows = Thrown err ->
        loadAllNAEPData e grade w = (Thrown err, w)).
Proof.
  split; [split | split; [split | split]].
  - intros H. rewrite extract_cases in H.
    destruct (found (findHeader rows)) eqn:F; simpl in H.
    + destruct (sortColumns _); discriminate.
    + rewrite found_findHeader in F. apply orb_false_iff in F as [F F3].
      apply orb_false_iff in F as [F1 F2]. auto.
  - intros (F1 & F2 & F3). rewrite extract_cases, found_findHeader, F1, F2, F3.
    reflexivity.
  - intros H. rewrite extract_cases in H.
    destruct (found (findHeader rows)); [| discriminate].
    simpl in H. split; [reflexivity |].
    apply findYearColumns_nil, sortColumns_nil.
    destruct (sortColumns _); [reflexivity | discriminate].
  - intros [F H]. rewrite extract_cases, F. simpl.
    apply findYearColumns_nil in H. rewrite H. reflexivity.
  - intros err H. rewrite extract_cases in H.
    destruct (found (findHeader rows)); simpl in H.
    + destruct (sortColumns _); [| discriminate]. injection H as <-. auto.
    + injection H as <-. auto.
  - intros e grade w err. apply loadAllNAEPData_thrown.
Qed.

Lemma extract_errors_witness :
  (found (strategy1 badSheet notFound) = false
   /\ found (strategy2 badSheet notFound) = false
   /\ found (strategy3 badSheet notFound) = false)
  /\ extract badSheet = Thrown ParseStructure.
Proof.
  assert (H : found (strategy1 badSheet notFound) = false
              /\ found (strategy2 badSheet notFound) = false
              /\ found (strategy3 badSheet notFound) = false)
    by (repeat split; vm_compute; reflexivity).
  split; [exact H |].
  apply (proj2 (proj1 (extract_errors badSheet)) H).
Defined.

Example extract_noYearSheet : extract noYearSheet = Thrown NoYearColumns.
Proof. vm_compute. reflexivity. Qed.

(** ** Structural failures and fetchNAEP *)

(** On a sheet without a header [loadAllNAEPData] throws the structure
    error, and [fetchNAEP] hands its caller the all-[null] record as an
    ordinary result: the error does not reach the caller of [fetchNAEP]. *)
Lemma fetchNAEP_hides_structure_error :
  loadAllNAEPData (pageWith badSheet) 4 emptyWorld = (Thrown ParseStructure, emptyWorld)
  /\ fetchNAEP (pageWith badSheet) 0 "TX" 4 "READING" emptyWorld
     = (Returned {| Low := None; Middle := None; High := None; NationalAverage := None |},
        emptyWorld)
  /\ fst (fetchNAEP (pageWith badSheet) 0 "TX" 4 "READING" emptyWorld)
     <> Thrown ParseStructure.
Proof.
  assert (E : extract badSheet = Thrown ParseStructure) by (vm_compute; reflexivity).
  assert (L : loadAllNAEPData (pageWith badSheet) 4 emptyWorld
              = (Thrown ParseStructure, emptyWorld)).
  { apply (loadAllNAEPData_thrown _ _ _ badSheet); [reflexivity .. | exact E]. }
  assert (F : fetchNAEP (pageWith badSheet) 0 "TX" 4 "READING" emptyWorld
              = (Returned (nullScores None), emptyWorld)).
  { unfold fetchNAEP. rewrite L. reflexivity. }
  split; [exact L |]. split; [exact F |]. rewrite F. discriminate.
Qed.

(** C3, as the code has it. When the extraction fails structurally,
    [loadAllNAEPData] surfaces the failure to its caller as a thrown error
    and caches no table; [fetchNAEP], which calls it, catches that error
    and returns the all-[null] record
    [{Low: null, Middle: null, High: null, NationalAverage: null}] instead,
    writing nothing to either cache. *)
Theorem structural_failure_handling
    (e : env) (now : Z) (state : string) (grade : Z) (subject : string) (w : world)
    (rows : grid) (err : error) :
  naepDataCache w !! grade = None ->
  xlsxDefined e = true ->
  fetchSheet e (filePath grade) = Some rows ->
  extract rows = Thrown err ->
  loadCachedData now (cacheKey state grade subject) w = None ->
  loadAllNAEPData e grade w = (Thrown err, w)
  /\ fetchNAEP e now state grade subject w
     = (Returned {| Low := None; Middle := None; High := None; NationalAverage := None |}, w).
Proof.
  intros Hc Hx Hf He Hl.
  pose proof (loadAllNAEPData_thrown e grade w rows err Hc Hx Hf He) as L.
  split; [exact L |]. unfold fetchNAEP. rewrite Hl, L. reflexivity.
Qed.

Lemma structural_failure_handling_witness :
  loadAllNAEPData (pageWith noYearSheet) 8 emptyWorld = (Thrown NoYearColumns, emptyWorld)
  /\ fetchNAEP (pageWith noYearSheet) 1000 "TX" 8 "READING" emptyWorld
     = (Returned {| Low := None; Middle := None; High := None; NationalAverage := None |},
        emptyWorld).
Proof.
  apply (structural_failure_handling (pageWith noYearSheet) 1000 "TX" 8 "READING"
           emptyWorld noYearSheet NoYearColumns).
  - reflexivity.
  - reflexivity.
  - reflexivity.
  - vm_compute. reflexivity.
  - reflexivity.
Defined.

(** ** The national row and the state records *)

Lemma ownProperty_In (tbl : list (string * string)) (name v : string) :
  ownProperty tbl name = Some v -> In (name, v) tbl.
Proof.
  induction tbl as [| [k c] tbl IH]; simpl; [discriminate |].
  destruct (String.eqb_spec k name) as [-> | _].
  - intros [= ->]. left. reflexivity.
  - intros H. right. apply IH, H.
Qed.

(** 'National' is the code of 'United States' and of no other name. *)
Lemma national_code_name (name : string) :
  getProp DataHelpers.stateNameToCode name = Some (Code "National") ->
  name = "United States".
Proof.
  unfold getProp.
  destruct (ownProperty DataHelpers.stateNameToCode name) as [c |] eqn:E.
  - intros [= ->]. apply ownProperty_In in E.
    unfold DataHelpers.stateNameToCode, stateNames in E. simpl in E.
    repeat (destruct E as [E | E]; [congruence |]). destruct E.
  - destruct (existsb _ _); discriminate.
Qed.

Section DataHelpersRows.

Variable target : yearColumn.

(** A national row writes to [nationalAvg] only. *)
Lemma parseRow_national (t : table) (r : row) :
  DataHelpers.isNationalRow (firstCellOf r) = true ->
  stateData (parseRow target t r) = stateData t.
Proof.
  intros H. unfold parseRow. rewrite H.
  destruct (index r (colIndex target)) as [| | b | n | s]; try reflexivity.
  destruct (matchLeadingNumber s); reflexivity.
Qed.

(** A key that a row adds is the code of its first cell, and the row is
    not a national row. *)
Lemma parseRow_keys (t : table) (r : row) (k : member) :
  is_Some (stateData (parseRow target t r) !! k) ->
  is_Some (stateData t !! k)
  \/ (DataHelpers.isNationalRow (firstCellOf r) = false
      /\ getProp DataHelpers.stateNameToCode (firstCellOf r) = Some k).
Proof.
  destruct (DataHelpers.isNationalRow (firstCellOf r)) eqn:N.
  - rewrite (parseRow_national t r N). auto.
  - unfold parseRow. rewrite N.
    destruct (getProp DataHelpers.stateNameToCode (firstCellOf r)) as [c |]; [| auto].
    destruct (memberTruthy (Some c)); [| auto].
    destruct (readScore _) as [score |]; [| auto].
    destruct (negb (isNaN score)); [| auto]. simpl.
    rewrite lookup_insert_is_Some. intros [-> | [_ H]]; auto.
Qed.

Lemma fold_parseRow_keys (rows : grid) (t : table) (k : member) :
  is_Some (stateData (fold_left (parseRow target) rows t) !! k) ->
  is_Some (stateData t !! k)
  \/ exists r, r ∈ rows
       /\ DataHelpers.isNationalRow (firstCellOf r) = false
       /\ getProp DataHelpers.stateNameToCode (firstCellOf r) = Some k.
Proof.
  revert t. induction rows as [| r rows IH]; intros t H; simpl in H; [auto |].
  apply IH in H as [H | (r' & Hin & Hr')].
  - apply parseRow_keys in H as [H | H]; [auto |].
    right. exists r. split; [apply list_elem_of_here | exact H].
  - right. exists r'. split; [apply list_elem_of_further, Hin | exact Hr'].
Qed.

End DataHelpersRows.

Section CleanNaepRows.

Variable h : CleanNaep.header.

Lemma clean_parseRow_national (p : CleanNaep.parsed) (r : row) :
  CleanNaep.isNationalRow (firstCellOf r) = true ->
  CleanNaep.stateData (CleanNaep.parseRow h p r) = CleanNaep.stateData p.
Proof.
  intros H. unfold CleanNaep.parseRow. rewrite H.
  destruct (String.eqb (firstCellOf r) ""); reflexivity.
Qed.

Lemma clean_parseRow_keys (p : CleanNaep.parsed) (r : row) (k : member) :
  is_Some (CleanNaep.stateData (CleanNaep.parseRow h p r) !! k) ->
  is_Some (CleanNaep.stateData p !! k)
  \/ (CleanNaep.isNationalRow (firstCellOf r) = false
      /\ CleanNaep.matchState (firstCellOf r) = Some k).
Proof.
  destruct (CleanNaep.isNationalRow (firstCellOf r)) eqn:N.
  - rewrite (clean_parseRow_national p r N). auto.
  - unfold CleanNaep.parseRow. rewrite N.
    destruct (String.eqb (firstCellOf r) ""); [auto |].
    destruct (CleanNaep.matchState (firstCellOf r)) as [c |]; [| auto].
    destruct (memberTruthy (Some c)); [| auto].
    destruct (0 <? size _)%nat; [| auto]. simpl.
    rewrite lookup_insert_is_Some. intros [-> | [_ H]]; auto.
Qed.

Lemma clean_fold_parseRow_keys (rows : grid) (p : CleanNaep.parsed) (k : member) :
  is_Some (CleanNaep.stateData (fold_left (CleanNaep.parseRow h) rows p) !! k) ->
  is_Some (CleanNaep.stateData p !! k)
  \/ exists r, r ∈ rows
       /\ CleanNaep.isNationalRow (firstCellOf r) = false
       /\ CleanNaep.matchState (firstCellOf r) = Some k.
Proof.
  revert p. induction rows as [| r rows IH]; intros p H; simpl in H; [auto |].
  apply IH in H as [H | (r' & Hin & Hr')].
  - apply clean_parseRow_keys in H as [H | H]; [auto |].
    right. exists r. split; [apply list_elem_of_here | exact H].
  - right. exists r'. split; [apply list_elem_of_further, Hin | exact Hr'].
Qed.

End CleanNaepRows.

(** C7. The national row is kept out of the state records, in both
    loaders. A row whose name contains "United States" changes the
    national value only and leaves the state records as they were; every
    key of the state records of an extracted table is the code that the
    name of some row which is not a national row resolves to; and
    'National', the code that [loadAllNAEPData] lists for 'United States',
    is never a key of its state records. *)
Theorem aggregate_excluded :
  (forall (target : yearColumn) (t : table) (r : row),
      DataHelpers.isNationalRow (firstCellOf r) = true ->
      stateData (parseRow target t r) = stateData t)
  /\ (forall (rows : grid) (t : table),
        extract rows = Returned t ->
        (forall k, is_Some (stateData t !! k) ->
           exists r, r ∈ rows
             /\ DataHelpers.isNationalRow (firstCellOf r) = false
             /\ getProp DataHelpers.stateNameToCode (firstCellOf r) = Some k)
        /\ stateData t !! Code "National" = None)
  /\ (forall (h : CleanNaep.header) (p : CleanNaep.parsed) (r : row),
        CleanNaep.isNationalRow (firstCellOf r) = true ->
        CleanNaep.stateData (CleanNaep.parseRow h p r) = CleanNaep.stateData p
        /\ CleanNaep.nationalAvgByYear (CleanNaep.parseRow h p r)
           = CleanNaep.rowScores h r (CleanNaep.nationalAvgByYear p))
  /\ (forall (rows : grid) (k : member),
        is_Some (CleanNaep.stateData (snd (CleanNaep.parseNAEPFile rows)) !! k) ->
        exists r, r ∈ rows
          /\ CleanNaep.isNationalRow (firstCellOf r) = false
          /\ CleanNaep.matchState (firstCellOf r) = Some k).
Proof.
  assert (Keys : forall rows t, extract rows = Returned t ->
            forall k, is_Some (stateData t !! k) ->
              exists r, r ∈ rows
                /\ DataHelpers.isNationalRow (firstCellOf r) = false
                /\ getProp DataHelpers.stateNameToCode (firstCellOf r) = Some k).
  { intros rows t E k Hk. rewrite extract_cases in E.
    destruct (negb _); [discriminate |].
    destruct (sortColumns _) as [| target cols]; [discriminate |].
    injection E as <-.
    apply fold_parseRow_keys in Hk as [Hk | (r & Hin & Hr)].
    - simpl in Hk. rewrite lookup_empty in Hk. destruct Hk as [x Hx]. discriminate.
    - exists r. split; [| exact Hr]. eapply subseteq_drop, Hin. }
  split; [| split; [| split]].
  - intros target t r. apply parseRow_national.
  - intros rows t E. split; [apply (Keys rows t E) |].
    destruct (stateData t !! Code "National") as [sc |] eqn:L; [| reflexivity].
    destruct (Keys rows t E (Code "National")) as (r & _ & N & G); [rewrite L; eauto |].
    apply national_code_name in G. rewrite G in N. discriminate.
  - intros h p r N. split; [apply clean_parseRow_national, N |].
    unfold CleanNaep.parseRow. rewrite N.
    destruct (String.eqb_spec (firstCellOf r) "") as [E | _]; [| reflexivity].
    rewrite E in N. discriminate.
  - intros rows k Hk. unfold CleanNaep.parseNAEPFile in Hk.
    destruct (CleanNaep.findHeader rows) as [d h]. simpl in Hk.
    apply clean_fold_parseRow_keys in Hk as [Hk | (r & Hin & Hr)].
    + simpl in Hk. rewrite lookup_empty in Hk. destruct Hk as [x Hx]. discriminate.
    + exists r. split; [| exact Hr]. eapply subseteq_drop, Hin.
Qed.

Lemma aggregate_excluded_witness :
  DataHelpers.isNationalRow (firstCellOf [VStr "United States"; VNum (ofZ 222)]) = true
  /\ stateData (parseRow {| colIndex := 1; year := "2022" |} emptyTable
                  [VStr "United States"; VNum (ofZ 222)])
     = stateData emptyTable.
Proof.
  split; [reflexivity |]. apply (proj1 aggregate_excluded). reflexivity.
Defined.

(** The end-to-end sheet: the latest year is 2022, the national row sets
    the national average and California is the only state record. *)
Example extract_specSheet :
  exists t, extract specSheet = Returned t
    /\ nationalAvg t = Some (ofZ 222)
    /\ stateData t !! Code "CA"
       = Some {| Low := Some (ofZ 201); Middle := Some (ofZ 219);
                 High := Some (ofZ 237); NationalAverage := Some (ofZ 222) |}
    /\ stateData t !! Code "National" = None
    /\ size (stateData t) = 1%nat.
Proof.
  eexists. split; [vm_compute; reflexivity |]. repeat split; vm_compute; reflexivity.
Qed.

(** ** The coercion of a cell *)

Lemma matchLeadingNumber_digit (s m : string) :
  matchLeadingNumber s = Some m ->
  exists c m', m = String c m' /\ isDigit c = true.
Proof.
  unfold matchLeadingNumber. destruct s as [| c s]; simpl; [discriminate |].
  destruct (isDigit c) eqn:D; [| discriminate].
  destruct (takeDigits s) as [ds rest].
  destruct rest as [| c' rest].
  - intros [= <-]. eauto.
  - destruct (Ascii.eqb_spec c' "."%char) as [-> | Hc].
    + destruct (takeDigits rest) as [fp rest']. intros [= <-]. simpl. eauto.
    + assert (E : Some (String c ds) = Some m -> exists c0 m', m = String c0 m' /\ isDigit c0 = true)
        by (intros [= <-]; eauto).
      destruct c' as [[] [] [] [] [] [] [] []]; try exact E. congruence.
Qed.

(** What the leading-number pattern captures parses to a finite number. *)
Lemma parseFloat_leading (s m : string) :
  matchLeadingNumber s = Some m -> isNaN (parseFloat m) = false.
Proof.
  intros H. apply matchLeadingNumber_digit in H as (c & m' & -> & D).
  unfold parseFloat. simpl. rewrite D.
  destruct (takeDigits m') as [ds rest].
  destruct rest as [| c' rest]; [reflexivity |].
  destruct c' as [[] [] [] [] [] [] [] []]; try reflexivity.
  destruct (takeDigits rest). reflexivity.
Qed.

(** The rule of the specification holds for [parseNAEPFile]: a number is
    taken as it is and a string through the leading-number pattern, and
    the value is kept only when it is not NaN and greater than 0. *)
Lemma cellScore_rule :
  (forall n : number,
      CleanNaep.cellScore (VNum n)
      = if negb (isNaN n) && gt n (ofZ 0) then Some n else None)
  /\ (forall s m : string, matchLeadingNumber s = Some m ->
        CleanNaep.cellScore (VStr s)
        = if gt (parseFloat m) (ofZ 0) then Some (parseFloat m) else None)
  /\ (forall s : string, matchLeadingNumber s = None -> CleanNaep.cellScore (VStr s) = None)
  /\ CleanNaep.cellScore VNull = None
  /\ CleanNaep.cellScore (VStr "0") = None
  /\ CleanNaep.cellScore (VStr "-5") = None
  /\ CleanNaep.cellScore (VStr "N/A") = None
  /\ CleanNaep.cellScore (VStr "219.5*") = Some (parseFloat "219.5").
Proof.
  split; [| split; [| split]]; [| | | repeat split; vm_compute; reflexivity].
  - intros n. reflexivity.
  - intros s m H. unfold CleanNaep.cellScore, CleanNaep.readCell. simpl. rewrite H.
    simpl. rewrite (parseFloat_leading s m H). reflexivity.
  - intros s H. unfold CleanNaep.cellScore, CleanNaep.readCell. simpl. rewrite H.
    reflexivity.
Qed.

(** C2, at the input where [loadAllNAEPData] departs from the rule. For
    the cell "0" of a state row [loadAllNAEPData] stores a record for the
    state, with the scores -18, 0 and 18, while [parseNAEPFile] records
    nothing for the same cell. *)
Theorem zero_cell_is_stored :
  (exists t, extract zeroSheet = Returned t
     /\ stateData t !! Code "TX"
        = Some {| Low := Some (ofZ (-18)); Middle := Some (ofZ 0);
                  High := Some (ofZ 18); NationalAverage := Some (ofZ 0) |})
  /\ readScore (VStr "0") = Some (ofZ 0)
  /\ CleanNaep.cellScore (VStr "0") = None
  /\ CleanNaep.stateData (snd (CleanNaep.parseNAEPFile zeroSheetClean)) !! Code "TX" = None.
Proof.
  split; [eexists; split; vm_compute; reflexivity |].
  repeat split; vm_compute; reflexivity.
Qed.

(** ** The SES adjustment *)




(** ** Linear regression *)

Lemma fold_left_Qsum {A : Type} (f : A -> Q) (l : list A) (a : Q) :
  (fold_left (fun acc p => acc + f p) l a == a + Spec.Qsum (map f l))%Q.
Proof.
  revert a. induction l as [| p l IH]; intros a; simpl; [ring |].
  rewrite IH. ring.
Qed.

Lemma filter_finite {A : Type} (f : A -> Q) (l : list A) :
  List.filter (fun v => negb (isNaN v)) (map (fun p => Fin (f p)) l)
  = map (fun p => Fin (f p)) l.
Proof. induction l as [| p l IH]; simpl; [| rewrite IH]; reflexivity. Qed.

Lemma fold_add_finite {A : Type} (f : A -> Q) (l : list A) (a : Q) :
  fold_left add (map (fun p => Fin (f p)) l) (Fin a)
  = Fin (fold_left (fun acc p => acc + f p)%Q l a).
Proof. revert a. induction l as [| p l IH]; intros a; simpl; [| rewrite IH]; reflexivity. Qed.

Lemma Qeq_bool_length_pos (n : nat) :
  (0 < n)%nat -> Qeq_bool (inject_Z (Z.of_nat n)) 0 = false.
Proof.
  intros H. apply not_true_iff_false. rewrite Qeq_bool_iff.
  unfold Qeq, inject_Z; simpl. lia.
Qed.

(** [d3.mean] of finite values is their sum over their number. *)
Lemma d3mean_finite {A : Type} (f : A -> Q) (l : list A) :
  (0 < length l)%nat ->
  exists m : Q,
    d3mean (map (fun p => Fin (f p)) l) = Some (Fin m)
    /\ (m == Spec.mean (map f l))%Q.
Proof.
  intros H. unfold d3mean. rewrite filter_finite.
  destruct l as [| p l]; [simpl in H; lia |].
  remember (p :: l) as l' eqn:El.
  assert (Hn : map (fun p => Fin (f p)) l' <> []) by (subst l'; discriminate).
  destruct (map (fun p => Fin (f p)) l') as [| v vs] eqn:Em; [congruence |].
  rewrite <- Em. unfold ofZ at 1. rewrite fold_add_finite.
  rewrite length_map. unfold div, ofZ. rewrite (Qeq_bool_length_pos _ H).
  eexists. split; [reflexivity |].
  unfold Spec.mean. rewrite length_map, fold_left_Qsum.
  change (inject_Z 0) with 0%Q. rewrite Qplus_0_l. reflexivity.
Qed.






(** The trend line of [renderScatterPlot] has no such guard: on the
    same two points it divides 0 by 0. *)
Example trendLine_zero_variance :
  Viz4.trendLine [ {| Viz4.literacyScore := ofZ 3; Viz4.prediction := ofZ 1 |};
                   {| Viz4.literacyScore := ofZ 3; Viz4.prediction := ofZ 5 |} ]
  = (NaN, NaN).
Proof. vm_compute. reflexivity. Qed.

(** * Further properties of the code *)

Import MoreSamples Invariants.

(** ** The caches of dataHelpers.js *)

Lemma loadAllNAEPData_localStorage (e : env) (grade : Z) (w : world) :
  localStorage (snd (loadAllNAEPData e grade w)) = localStorage w.
Proof.
  unfold loadAllNAEPData.
  destruct (naepDataCache w !! grade); [reflexivity |].
  destruct (negb (xlsxDefined e)); [reflexivity |].
  destruct (fetchSheet e (filePath grade)) as [rows |]; [| reflexivity].
  destruct (extract rows); reflexivity.
Qed.

Lemma loadAllNAEPData_keeps (e : env) (grade : Z) (w : world) (g : Z) (t : table) :
  naepDataCache w !! g = Some t ->
  naepDataCache (snd (loadAllNAEPData e grade w)) !! g = Some t.
Proof.
  intros H. unfold loadAllNAEPData.
  destruct (naepDataCache w !! grade) as [t0 |] eqn:C; [auto |].
  destruct (negb (xlsxDefined e)); [auto |].
  destruct (fetchSheet e (filePath grade)) as [rows |]; [| auto].
  destruct (extract rows) as [result | err]; [| auto]. simpl.
  rewrite lookup_insert_ne; [exact H |]. congruence.
Qed.

(** [fetchNAEP] always answers with a record and never throws. Neither
    it nor [loadAllNAEPData] replaces or drops a table that is already
    cached for a grade, and [fetchNAEP] writes no [localStorage] entry
    other than the one of its own key. *)
Theorem fetchNAEP_safe
    (e : env) (now : Z) (state : string) (grade : Z) (subject : string) (w : world) :
  exists (s : scores) (w' : world),
    fetchNAEP e now state grade subject w = (Returned s, w')
    /\ (forall g t, naepDataCache w !! g = Some t -> naepDataCache w' !! g = Some t)
    /\ (forall g t, naepDataCache w !! g = Some t ->
          naepDataCache (snd (loadAllNAEPData e grade w)) !! g = Some t)
    /\ (forall k, k <> cacheKey state grade subject ->
          localStorage w' !! k = localStorage w !! k).
Proof.
  unfold fetchNAEP.
  destruct (loadCachedData now (cacheKey state grade subject) w) as [cached |].
  - exists cached, w. split; [reflexivity |]. split; [auto |].
    split; [intros g t H; apply loadAllNAEPData_keeps, H | reflexivity].
  - pose proof (loadAllNAEPData_keeps e grade w) as K.
    pose proof (loadAllNAEPData_localStorage e grade w) as LS.
    destruct (loadAllNAEPData e grade w) as [[t | err] w1]; simpl in K, LS.
    + eexists. eexists. split; [reflexivity |]. simpl.
      split; [intros g t0 H; apply K, H |].
      split; [intros g t0 H; apply K, H |].
      intros k Hk. rewrite lookup_insert_ne by congruence. rewrite LS. reflexivity.
    + eexists. eexists. split; [reflexivity |].
      split; [intros g t0 H; apply K, H |].
      split; [intros g t0 H; apply K, H |].
      intros k Hk. rewrite LS. reflexivity.
Qed.



Lemma loadAllNAEPData_outcome (e : env) (grade : Z) (w1 w2 : world) :
  naepDataCache w1 = naepDataCache w2 ->
  fst (loadAllNAEPData e grade w1) = fst (loadAllNAEPData e grade w2).
Proof.
  intros H. unfold loadAllNAEPData. rewrite H.
  destruct (naepDataCache w2 !! grade); [reflexivity |].
  destruct (negb (xlsxDefined e)); [reflexivity |].
  destruct (fetchSheet e (filePath grade)) as [rows |]; [| reflexivity].
  destruct (extract rows); reflexivity.
Qed.

(** An entry that [localStorage] holds under the key of a state, grade
    and subject is answered by [fetchNAEP] for 24 hours from its time
    stamp, whatever the page then provides: the call returns the stored
    record and changes nothing. From 24 hours on the entry is ignored:
    [fetchNAEP] answers as it does without the entry. *)
Theorem fetchNAEP_cached
    (e : env) (now : Z) (state : string) (grade : Z) (subject : string) (w : world)
    (data : scores) (ts : Z) :
  localStorage w !! cacheKey state grade subject = Some (data, ts) ->
  ((now - ts < 86400000)%Z ->
   fetchNAEP e now state grade subject w = (Returned data, w))
  /\ ((86400000 <= now - ts)%Z ->
      loadCachedData now (cacheKey state grade subject) w = None
      /\ fst (fetchNAEP e now state grade subject w)
         = fst (fetchNAEP e now state grade subject
                  {| naepDataCache := naepDataCache w;
                     localStorage :=
                       delete (cacheKey state grade subject) (localStorage w) |})).
Proof.
  intros Hentry. split.
  - intros Hfresh. unfold fetchNAEP, loadCachedData. rewrite Hentry.
    destruct (Z.ltb_spec (now - ts) (1440 * 60000)) as [_ | Hge]; [reflexivity | lia].
  - intros Hold.
    assert (Hmiss : loadCachedData now (cacheKey state grade subject) w = None).
    { unfold loadCachedData. rewrite Hentry.
      destruct (Z.ltb_spec (now - ts) (1440 * 60000)) as [Hlt | _]; [lia | reflexivity]. }
    split; [exact Hmiss |].
    unfold fetchNAEP. rewrite Hmiss. unfold loadCachedData at 1. cbn [localStorage].
    rewrite lookup_delete_eq.
    pose proof (loadAllNAEPData_outcome e grade w
                  {| naepDataCache := naepDataCache w;
                     localStorage :=
                       delete (cacheKey state grade subject) (localStorage w) |} eq_refl)
      as Hsame.
    destruct (loadAllNAEPData e grade w) as [[t | err] w1];
      destruct (loadAllNAEPData e grade _) as [[t' | err'] w2];
      simpl in Hsame; try discriminate; [injection Hsame as <- |]; reflexivity.
Qed.

Lemma fetchNAEP_cached_witness :
  fetchNAEP emptyPage 5000 "CA" 4 "READING" cachedWorld = (Returned caScores, cachedWorld).
Proof.
  refine (proj1 (fetchNAEP_cached emptyPage 5000%Z "CA" 4%Z "READING" cachedWorld
                   caScores 0%Z _) _).
  - vm_compute. reflexivity.
  - lia.
Defined.

(** ** The table of loadAllNAEPData *)

Lemma orScore_not_nan (nat : option number) (score : number) :
  isNaN score = false -> isNaN (orScore nat score) = false.
Proof.
  intros H. unfold orScore. destruct nat as [[| s | q] |]; simpl; auto.
  destruct (negb (Qeq_bool q 0)); auto.
Qed.

Lemma parseRow_wellFormed (target : yearColumn) (t : table) (r : row) :
  (forall k sc, stateData t !! k = Some sc -> wellFormed sc) ->
  forall k sc, stateData (parseRow target t r) !! k = Some sc -> wellFormed sc.
Proof.
  intros Ht k sc. unfold parseRow.
  destruct (DataHelpers.isNationalRow (firstCellOf r)).
  - destruct (index r (colIndex target)) as [| | b | n | s]; simpl; try apply Ht.
    destruct (matchLeadingNumber s); simpl; apply Ht.
  - destruct (getProp DataHelpers.stateNameToCode (firstCellOf r)) as [c |]; [| apply Ht].
    destruct (memberTruthy (Some c)); [| apply Ht].
    destruct (readScore _) as [score |]; [| apply Ht].
    destruct (isNaN score) eqn:Hn; simpl; [apply Ht |].
    destruct (decide (c = k)) as [-> | Hne].
    + rewrite lookup_insert_eq. intros [= <-].
      exists score, (orScore (nationalAvg t) score). simpl.
      repeat split; auto. apply orScore_not_nan, Hn.
    + rewrite lookup_insert_ne by exact Hne. apply Ht.
Qed.

(** Every record of a table that [loadAllNAEPData] extracts has a score
    that is not NaN under [Middle], that score less 18 under [Low] and plus
    18 under [High], and a national average that is a number and not NaN:
    no field of a stored record is [null]. *)
Theorem extract_records (rows : grid) (t : table) (k : member) (sc : scores) :
  extract rows = Returned t ->
  stateData t !! k = Some sc ->
  exists m n : number,
    Middle sc = Some m /\ isNaN m = false
    /\ Low sc = Some (sub m (ofZ 18)) /\ High sc = Some (add m (ofZ 18))
    /\ NationalAverage sc = Some n /\ isNaN n = false.
Proof.
  intros E. rewrite extract_cases in E.
  destruct (negb _); [discriminate |].
  destruct (sortColumns _) as [| target cols]; [discriminate |].
  injection E as <-.
  assert (G : forall rs t0,
             (forall k sc, stateData t0 !! k = Some sc -> wellFormed sc) ->
             forall k sc, stateData (fold_left (parseRow target) rs t0) !! k = Some sc ->
                          wellFormed sc).
  { induction rs as [| r rs IH]; intros t0 H0; simpl; [exact H0 |].
    apply IH, parseRow_wellFormed, H0. }
  apply G. intros k0 sc0 H. simpl in H. rewrite lookup_empty in H. discriminate.
Qed.

Lemma extract_records_witness :
  exists m n : number,
    Middle caScores = Some m /\ isNaN m = false
    /\ Low caScores = Some (sub m (ofZ 18)) /\ High caScores = Some (add m (ofZ 18))
    /\ NationalAverage caScores = Some n /\ isNaN n = false.
Proof.
  apply (extract_records specSheet specTable (Code "CA") caScores);
    vm_compute; reflexivity.
Defined.

(** The sort of the year columns puts first the column of the latest
    year, and of several columns with that year the leftmost: the column
    from which [loadAllNAEPData] reads every score. *)
Theorem sortColumns_latest (cols : list yearColumn) :
  cols <> [] ->
  exists (target : yearColumn) (rest before after : list yearColumn),
    sortColumns cols = target :: rest
    /\ cols = (before ++ target :: after)%list
    /\ (forall c, c ∈ before -> (parseInt (year c) < parseInt (year target))%Z)
    /\ (forall c, c ∈ after -> (parseInt (year c) <= parseInt (year target))%Z).
Proof.
  assert (Snoc : forall l x, sortColumns (l ++ [x])%list = insertColumn x (sortColumns l)).
  { intros l x. unfold sortColumns. rewrite fold_left_app. reflexivity. }
  induction cols as [| x l IH] using rev_ind; [congruence |]. intros _.
  rewrite Snoc. destruct l as [| y l'].
  - exists x, [], [], []. simpl. repeat split; intros c Hc; inversion Hc.
  - destruct IH as (target & rest & before & after & Hs & Hl & Hb & Ha); [discriminate |].
    rewrite Hs. cbn [insertColumn].
    destruct (Z.ltb_spec (parseInt (year target)) (parseInt (year x))) as [Hlt | Hge].
    + exists x, (target :: rest), (y :: l'), []. split; [reflexivity |].
      split; [reflexivity |]. split; [| intros c Hc; inversion Hc].
      intros c Hc. rewrite Hl in Hc.
      apply elem_of_app in Hc as [Hc | Hc]; [specialize (Hb c Hc); lia |].
      apply elem_of_cons in Hc as [-> | Hc]; [exact Hlt | specialize (Ha c Hc); lia].
    + exists target, (insertColumn x rest), before, (after ++ [x])%list.
      split; [reflexivity |]. split; [rewrite Hl, <- app_assoc; reflexivity |].
      split; [exact Hb |]. intros c Hc.
      apply elem_of_app in Hc as [Hc | Hc]; [apply Ha, Hc |].
      apply list_elem_of_singleton in Hc as ->. exact Hge.
Qed.

Lemma sortColumns_latest_witness :
  exists (target : yearColumn) (rest before after : list yearColumn),
    sortColumns (findYearColumns [VStr "State"; VStr "2019"; VStr "2022"; VStr "2022"])
    = target :: rest
    /\ findYearColumns [VStr "State"; VStr "2019"; VStr "2022"; VStr "2022"]
       = (before ++ target :: after)%list
    /\ (forall c, c ∈ before -> (parseInt (year c) < parseInt (year target))%Z)
    /\ (forall c, c ∈ after -> (parseInt (year c) <= parseInt (year target))%Z).
Proof.
  apply sortColumns_latest. vm_compute. discriminate.
Defined.

(** ** The header and the scores of parseNAEPFile *)

Lemma insertYear_perm (x : Z) (l : list Z) : CleanNaep.insertYear x l ≡ₚ x :: l.
Proof.
  induction l as [| y l IH]; simpl; [reflexivity |].
  destruct (x <? y)%Z; [reflexivity |]. rewrite IH. apply Permutation_swap.
Qed.

Lemma sortYears_perm (l : list Z) : CleanNaep.sortYears l ≡ₚ l.
Proof.
  unfold CleanNaep.sortYears.
  assert (G : forall acc, fold_left (fun acc x => CleanNaep.insertYear x acc) l acc
                          ≡ₚ (l ++ acc)%list).
  { induction l as [| x l IH]; intros acc; simpl; [reflexivity |].
    rewrite IH, insertYear_perm. symmetry. apply Permutation_middle. }
  rewrite G, app_nil_r. reflexivity.
Qed.

Lemma insertYear_sorted (x : Z) (l : list Z) :
  StronglySorted Z.le l -> StronglySorted Z.le (CleanNaep.insertYear x l).
Proof.
  induction l as [| y l IH]; intros Hs; simpl.
  - constructor; [constructor | constructor].
  - inversion Hs as [| ? ? Hl Hy]; subst.
    destruct (Z.ltb_spec x y) as [Hlt | Hge].
    + constructor; [exact Hs |]. constructor; [lia |].
      eapply Forall_impl; [exact Hy |]. simpl. intros z Hz. lia.
    + constructor; [apply IH, Hl |].
      rewrite insertYear_perm. constructor; [exact Hge | exact Hy].
Qed.

Lemma sortYears_sorted (l : list Z) : StronglySorted Z.le (CleanNaep.sortYears l).
Proof.
  unfold CleanNaep.sortYears.
  assert (G : forall acc, StronglySorted Z.le acc ->
             StronglySorted Z.le (fold_left (fun acc x => CleanNaep.insertYear x acc) l acc)).
  { induction l as [| x l IH]; intros acc Ha; simpl; [exact Ha |].
    apply IH, insertYear_sorted, Ha. }
  apply G. constructor.
Qed.

Lemma sorted_NoDup_strict (l : list Z) :
  StronglySorted Z.le l -> NoDup l -> StronglySorted Z.lt l.
Proof.
  induction l as [| x l IH]; intros Hs Hn; [constructor |].
  inversion Hs as [| ? ? Hl Hx]; subst. apply NoDup_cons in Hn as [Hnx Hn].
  constructor; [apply IH; assumption |].
  rewrite Forall_forall in Hx. apply Forall_forall. intros y Hy.
  specialize (Hx y Hy). assert (x <> y) by (intros ->; apply Hnx, Hy). lia.
Qed.

Lemma headerYears_inv (r : row) (cells : list value) (j : nat) (h : CleanNaep.header) :
  (forall k, (k < length cells)%nat -> nth k cells VUndefined = index r (j + k)) ->
  (1 <= j)%nat -> (j + length cells <= 50)%nat ->
  headerInv r h -> headerInv r (CleanNaep.headerYears j cells h).
Proof.
  revert j h. induction cells as [| cell cells IH]; intros j h Hcells Hj Hlen Hinv; simpl;
    [exact Hinv |].
  simpl in Hlen.
  assert (Hnext : forall k, (k < length cells)%nat ->
                    nth k cells VUndefined = index r (S j + k)).
  { intros k Hk. specialize (Hcells (S k) ltac:(simpl; lia)). simpl in Hcells.
    rewrite Hcells. f_equal. lia. }
  assert (Hcell : cell = index r j).
  { specialize (Hcells 0%nat ltac:(simpl; lia)). simpl in Hcells.
    rewrite Hcells. f_equal. lia. }
  destruct (nullish cell) eqn:Hnull; [apply IH; auto; lia |].
  destruct (matchYearPrefix (toString cell)) as [ys |] eqn:Hm; [| apply IH; auto; lia].
  destruct ((1990 <=? parseInt ys)%Z && (parseInt ys <=? 2025)%Z
            && negb (existsb (Z.eqb (parseInt ys)) (CleanNaep.years h))) eqn:Hc;
    [| apply IH; auto; lia].
  apply IH; auto; [lia |].
  apply andb_true_iff in Hc as [Hc Hnew]. apply andb_true_iff in Hc as [Hlo Hhi].
  apply Z.leb_le in Hlo. apply Z.leb_le in Hhi.
  assert (Hnotin : parseInt ys ∉ CleanNaep.years h).
  { intros Hin. apply negb_true_iff in Hnew.
    assert (existsb (Z.eqb (parseInt ys)) (CleanNaep.years h) = true); [| congruence].
    apply existsb_exists. exists (parseInt ys). split; [| apply Z.eqb_refl].
    apply list_elem_of_In, Hin. }
  destruct Hinv as [Hnd Hys]. split; simpl.
  - apply NoDup_app. split; [exact Hnd |]. split; [| apply NoDup_singleton].
    intros y Hy Hy'. apply list_elem_of_singleton in Hy'. subst y. contradiction.
  - intros y Hy. apply elem_of_app in Hy as [Hy | Hy].
    + destruct (Hys y Hy) as (Hr & col & ys' & Hcol & Hb & Hmm & Hp). split; [exact Hr |].
      exists col, ys'. split; [| auto].
      rewrite lookup_insert_ne; [exact Hcol |]. intros <-. contradiction.
    + apply list_elem_of_singleton in Hy. subst y. split; [lia |].
      exists j, ys. rewrite lookup_insert_eq. subst cell. repeat split; auto; lia.
Qed.

(** The years that [parseNAEPFile] returns are in strictly ascending order
    and lie between 1990 and 2025, and each of them is the year that some
    cell in columns 1 to 49 of the header row begins with, the header row
    being one of the first ten rows whose first cell contains both "state"
    and "jurisdiction". *)
Theorem parseNAEPFile_years (rows : grid) :
  StronglySorted Z.lt (fst (CleanNaep.parseNAEPFile rows))
  /\ forall y, y ∈ fst (CleanNaep.parseNAEPFile rows) ->
       (1990 <= y <= 2025)%Z
       /\ exists i r col ys,
            (i < 10)%nat /\ rows !! i = Some r /\ CleanNaep.isHeaderRow r = true
            /\ (1 <= col < 50)%nat
            /\ matchYearPrefix (toString (index r col)) = Some ys
            /\ parseInt ys = y.
Proof.
  unfold CleanNaep.parseNAEPFile, CleanNaep.findHeader.
  destruct (scanRows _ 0%nat (firstn 10 rows)) as [[d h] |] eqn:E.
  - simpl.
    assert (Hrow : exists i r, (i < 10)%nat /\ rows !! i = Some r
                     /\ CleanNaep.isHeaderRow r = true
                     /\ h = CleanNaep.headerYears 1 (skipn 1 (firstn 50 r)) CleanNaep.noHeader).
    { clear -E.
      assert (G : forall rs i0,
                 scanRows (fun i r => if CleanNaep.isHeaderRow r
                                      then Some (Z.of_nat i + 2,
                                                 CleanNaep.headerYears 1 (skipn 1 (firstn 50 r))
                                                   CleanNaep.noHeader)%Z
                                      else None) i0 rs = Some (d, h) ->
                 exists k r, rs !! k = Some r /\ CleanNaep.isHeaderRow r = true
                   /\ h = CleanNaep.headerYears 1 (skipn 1 (firstn 50 r)) CleanNaep.noHeader).
      { induction rs as [| r rs IH]; intros i1 H; simpl in H; [discriminate |].
        destruct (CleanNaep.isHeaderRow r) eqn:Hh.
        - injection H as _ <-. exists 0%nat, r. auto.
        - apply IH in H as (k & r' & Hk & Hr & Hh'). exists (S k), r'. auto. }
      apply G in E as (k & r & Hk & Hr & Hh).
      apply lookup_take_Some in Hk as [Hk Hlt]. exists k, r. auto. }
    destruct Hrow as (i & r & Hi & Hr & Hhead & ->).
    assert (Hinv : headerInv r (CleanNaep.headerYears 1 (skipn 1 (firstn 50 r))
                                  CleanNaep.noHeader)).
    { apply headerYears_inv.
      - intros k Hk. unfold index. rewrite length_drop, length_take in Hk.
        rewrite !nth_lookup, lookup_drop, lookup_take_lt by lia. reflexivity.
      - lia.
      - rewrite length_drop, length_take. lia.
      - split; [constructor |]. simpl. intros y Hy. inversion Hy. }
    destruct Hinv as [Hnd Hys]. split.
    + apply sorted_NoDup_strict; [apply sortYears_sorted |].
      rewrite sortYears_perm. exact Hnd.
    + intros y Hy. rewrite sortYears_perm in Hy.
      destruct (Hys y Hy) as (Hrange & col & ys & _ & Hcol & Hm & Hp).
      split; [exact Hrange |]. exists i, r, col, ys. auto 10.
  - simpl. split; [constructor |]. intros y Hy. inversion Hy.
Qed.

Lemma parseNAEPFile_years_witness :
  2022%Z ∈ fst (CleanNaep.parseNAEPFile zeroSheetClean)
  /\ (1990 <= 2022 <= 2025)%Z.
Proof.
  assert (H : 2022%Z ∈ fst (CleanNaep.parseNAEPFile zeroSheetClean))
    by (vm_compute; apply list_elem_of_here).
  split; [exact H |].
  apply (proj1 (proj2 (parseNAEPFile_years zeroSheetClean) 2022%Z H)).
Defined.

Lemma cellScore_kept (cell : value) (s : number) :
  CleanNaep.cellScore cell = Some s -> isNaN s = false /\ gt s (ofZ 0) = true.
Proof.
  unfold CleanNaep.cellScore, CleanNaep.keepScore.
  destruct (nullish cell); [discriminate |].
  destruct (CleanNaep.readCell cell) as [n |]; [| discriminate].
  destruct (negb (isNaN n) && gt n (ofZ 0)) eqn:E; [| discriminate].
  intros [= <-]. apply andb_true_iff in E as [E1 E2].
  apply negb_true_iff in E1. auto.
Qed.

Lemma rowScores_kept (h : CleanNaep.header) (r : row) (acc : gmap Z number) :
  (forall y s, acc !! y = Some s -> keptScore h y s) ->
  forall y s, CleanNaep.rowScores h r acc !! y = Some s -> keptScore h y s.
Proof.
  unfold CleanNaep.rowScores.
  assert (G : forall (l : list Z) (acc : gmap Z number),
             (forall y, y ∈ l -> y ∈ CleanNaep.years h) ->
             (forall y s, acc !! y = Some s -> keptScore h y s) ->
             forall y s,
               fold_left
                 (fun acc year =>
                    match CleanNaep.yearColumns h !! year with
                    | Some colIdx =>
                        match CleanNaep.cellScore (index r colIdx) with
                        | Some score => <[ year := score ]> acc
                        | None => acc
                        end
                    | None => acc
                    end) l acc !! y = Some s -> keptScore h y s).
  { induction l as [| year l IH]; intros acc0 Hl Hacc; simpl; [exact Hacc |].
    apply IH; [intros y Hy; apply Hl, list_elem_of_further, Hy |].
    destruct (CleanNaep.yearColumns h !! year) as [col |]; [| exact Hacc].
    destruct (CleanNaep.cellScore (index r col)) as [score |] eqn:Hc; [| exact Hacc].
    intros y s. destruct (decide (year = y)) as [-> | Hne].
    - rewrite lookup_insert_eq. intros [= <-].
      destruct (cellScore_kept _ _ Hc) as [H1 H2].
      split; [exact H1 |]. split; [exact H2 |]. apply Hl, list_elem_of_here.
    - rewrite lookup_insert_ne by exact Hne. apply Hacc. }
  apply G. auto.
Qed.

Lemma clean_parseRow_kept (h : CleanNaep.header) (p : CleanNaep.parsed) (r : row) :
  (forall k rec, CleanNaep.stateData p !! k = Some rec ->
     rec <> ∅ /\ forall y s, rec !! y = Some s -> keptScore h y s) ->
  (forall y s, CleanNaep.nationalAvgByYear p !! y = Some s -> keptScore h y s) ->
  (forall k rec, CleanNaep.stateData (CleanNaep.parseRow h p r) !! k = Some rec ->
     rec <> ∅ /\ forall y s, rec !! y = Some s -> keptScore h y s)
  /\ (forall y s, CleanNaep.nationalAvgByYear (CleanNaep.parseRow h p r) !! y = Some s ->
        keptScore h y s).
Proof.
  intros Hs Hn. unfold CleanNaep.parseRow.
  destruct (String.eqb (firstCellOf r) ""); [auto |].
  destruct (CleanNaep.isNationalRow (firstCellOf r)).
  - simpl. split; [exact Hs |]. apply rowScores_kept, Hn.
  - destruct (CleanNaep.matchState (firstCellOf r)) as [c |]; [| auto].
    destruct (memberTruthy (Some c)); [| auto].
    destruct (Nat.ltb_spec 0 (size (CleanNaep.rowScores h r ∅))) as [Hpos | _]; [| auto].
    simpl. split; [| exact Hn].
    intros k rec. destruct (decide (c = k)) as [-> | Hne].
    + rewrite lookup_insert_eq. intros [= <-]. split.
      * intros E. rewrite E, map_size_empty in Hpos. lia.
      * apply rowScores_kept. intros y s H. rewrite lookup_empty in H. discriminate.
    + rewrite lookup_insert_ne by exact Hne. apply Hs.
Qed.

(** Every score in the result of [parseNAEPFile], for a state or for the
    nation, is a number that is not NaN and is greater than 0, and it is
    stored under one of the years that the file returns; no state is
    stored with an empty record. *)
Theorem parseNAEPFile_scores (rows : grid) :
  (forall k rec,
      CleanNaep.stateData (snd (CleanNaep.parseNAEPFile rows)) !! k = Some rec ->
      rec <> ∅
      /\ forall y s, rec !! y = Some s ->
           isNaN s = false /\ gt s (ofZ 0) = true
           /\ y ∈ fst (CleanNaep.parseNAEPFile rows))
  /\ (forall y s,
        CleanNaep.nationalAvgByYear (snd (CleanNaep.parseNAEPFile rows)) !! y = Some s ->
        isNaN s = false /\ gt s (ofZ 0) = true
        /\ y ∈ fst (CleanNaep.parseNAEPFile rows)).
Proof.
  unfold CleanNaep.parseNAEPFile.
  destruct (CleanNaep.findHeader rows) as [d h]. simpl.
  generalize (skipn (Z.to_nat d) rows). intros rs.
  assert (G : forall rs p,
             (forall k rec, CleanNaep.stateData p !! k = Some rec ->
                rec <> ∅ /\ forall y s, rec !! y = Some s -> keptScore h y s) ->
             (forall y s, CleanNaep.nationalAvgByYear p !! y = Some s -> keptScore h y s) ->
             (forall k rec,
                CleanNaep.stateData (fold_left (CleanNaep.parseRow h) rs p) !! k = Some rec ->
                rec <> ∅ /\ forall y s, rec !! y = Some s -> keptScore h y s)
             /\ (forall y s,
                   CleanNaep.nationalAvgByYear (fold_left (CleanNaep.parseRow h) rs p) !! y
                   = Some s -> keptScore h y s)).
  { clear rs. induction rs as [| r rs IH]; intros p Hs Hn; simpl; [auto |].
    destruct (clean_parseRow_kept h p r Hs Hn) as [Hs' Hn']. apply IH; assumption. }
  apply G; simpl.
  - intros k rec H. rewrite lookup_empty in H. discriminate.
  - intros y s H. rewrite lookup_empty in H. discriminate.
Qed.

(** When none of the first ten rows is a header row, [parseNAEPFile] does
    not fail: it returns no years, no state and no national average. *)
Theorem parseNAEPFile_no_header (rows : grid) :
  (forall i r, (i < 10)%nat -> rows !! i = Some r -> CleanNaep.isHeaderRow r = false) ->
  CleanNaep.parseNAEPFile rows = ([], CleanNaep.emptyParsed).
Proof.
  intros H. unfold CleanNaep.parseNAEPFile, CleanNaep.findHeader.
  assert (E : scanRows (fun i r =>
                          if CleanNaep.isHeaderRow r
                          then Some (Z.of_nat i + 2,
                                     CleanNaep.headerYears 1 (skipn 1 (firstn 50 r))
                                       CleanNaep.noHeader)%Z
                          else None) 0 (firstn 10 rows) = None).
  { assert (G : forall rs i0,
               (forall k r, rs !! k = Some r -> CleanNaep.isHeaderRow r = false) ->
               scanRows (fun i r =>
                           if CleanNaep.isHeaderRow r
                           then Some (Z.of_nat i + 2,
                                      CleanNaep.headerYears 1 (skipn 1 (firstn 50 r))
                                        CleanNaep.noHeader)%Z
                           else None) i0 rs = None).
    { induction rs as [| r rs IH]; intros i0 Hr; simpl; [reflexivity |].
      rewrite (Hr 0%nat r eq_refl). apply IH. intros k r' Hk. apply (Hr (S k)), Hk. }
    apply G. intros k r Hk. apply lookup_take_Some in Hk as [Hk Hlt]. eauto. }
  rewrite E. simpl. f_equal.
  generalize rows at 1. intros rs.
  assert (Step : forall r, CleanNaep.parseRow CleanNaep.noHeader CleanNaep.emptyParsed r
                           = CleanNaep.emptyParsed).
  { intros r. unfold CleanNaep.parseRow.
    destruct (String.eqb (firstCellOf r) ""); [reflexivity |].
    destruct (CleanNaep.isNationalRow (firstCellOf r)); [reflexivity |].
    destruct (CleanNaep.matchState (firstCellOf r)) as [c |]; [| reflexivity].
    destruct (memberTruthy (Some c)); reflexivity. }
  induction rs as [| r rs IH]; simpl; [reflexivity |]. rewrite Step. exact IH.
Qed.

Lemma parseNAEPFile_no_header_witness :
  CleanNaep.parseNAEPFile zeroSheet = ([], CleanNaep.emptyParsed)
  /\ extract zeroSheet <> Thrown ParseStructure.
Proof.
  split; [| vm_compute; discriminate].
  apply parseNAEPFile_no_header.
  intros [| [| i]] r Hi Hr; simpl in Hr; try discriminate;
    injection Hr as <-; vm_compute; reflexivity.
Defined.

Lemma parseNAEPFile_scores_witness :
  CleanNaep.stateData (snd (CleanNaep.parseNAEPFile cleanSheet)) !! Code "TX"
  = Some {[ 2019%Z := ofZ 215 ]}
  /\ ({[ 2019%Z := ofZ 215 ]} : gmap Z number) <> ∅.
Proof.
  assert (H : CleanNaep.stateData (snd (CleanNaep.parseNAEPFile cleanSheet)) !! Code "TX"
              = Some {[ 2019%Z := ofZ 215 ]}) by (vm_compute; reflexivity).
  split; [exact H |].
  apply (proj1 (proj1 (parseNAEPFile_scores cleanSheet) (Code "TX") _ H)).
Defined.

(** ** State names without regard to case *)

Lemma lower_unique (tbl : list (string * string)) (k1 c1 k2 c2 : string) :
  NoDup (map (fun e => toLowerCase (fst e)) tbl) ->
  In (k1, c1) tbl -> In (k2, c2) tbl -> toLowerCase k1 = toLowerCase k2 ->
  (k1, c1) = (k2, c2).
Proof.
  induction tbl as [| [k c] tbl IH]; simpl; intros Hnd H1 H2 Hl; [contradiction |].
  apply NoDup_cons in Hnd as [Hnot Hnd].
  assert (Hin : forall k' c', In (k', c') tbl ->
                  toLowerCase k' ∈ map (fun e => toLowerCase (fst e)) tbl).
  { intros k' c' H. apply list_elem_of_In, in_map_iff. exists (k', c'). auto. }
  destruct H1 as [[= <- <-] | H1], H2 as [[= <- <-] | H2].
  - reflexivity.
  - exfalso. apply Hnot. rewrite Hl. eapply Hin, H2.
  - exfalso. apply Hnot. rewrite <- Hl. eapply Hin, H1.
  - apply IH; assumption.
Qed.

Lemma lookupIgnoringCase_found (tbl : list (string * string)) (name code s : string) :
  NoDup (map (fun e => toLowerCase (fst e)) tbl) ->
  In (name, code) tbl -> toLowerCase s = toLowerCase name ->
  CleanNaep.lookupIgnoringCase tbl s = Some code.
Proof.
  induction tbl as [| [k c] tbl IH]; simpl; intros Hnd Hin Hl; [contradiction |].
  destruct (String.eqb_spec (toLowerCase k) (toLowerCase s)) as [E | Hne].
  - assert (P : (k, c) = (name, code)).
    { apply (lower_unique ((k, c) :: tbl)); simpl; auto. congruence. }
    congruence.
  - apply NoDup_cons in Hnd as [_ Hnd].
    destruct Hin as [[= -> ->] | Hin]; [congruence |]. apply IH; assumption.
Qed.

(** [parseNAEPFile] resolves the name of a state without regard to the
    case of its letters: every spelling that lower-cases to the lower-cased
    name of a listed state gets the code of that state. *)
Theorem matchState_ignores_case (name code s : string) :
  In (name, code) stateNames ->
  toLowerCase s = toLowerCase name ->
  CleanNaep.matchState s = Some (Code code).
Proof.
  intros Hin Hl.
  assert (Hnd : NoDup (map (fun e => toLowerCase (fst e)) stateNames))
    by (apply (bool_decide_unpack _); vm_compute; reflexivity).
  assert (Hcodes : forallb (fun e => negb (String.eqb (snd e) "")) stateNames = true)
    by (vm_compute; reflexivity).
  assert (Hproto : forallb (fun p => forallb (fun e =>
                     negb (String.eqb (toLowerCase p) (toLowerCase (fst e)))) stateNames)
                     objectPrototype = true) by (vm_compute; reflexivity).
  assert (Hcode : negb (String.eqb code "") = true).
  { rewrite forallb_forall in Hcodes. apply (Hcodes (name, code) Hin). }
  unfold CleanNaep.matchState, CleanNaep.stateNameToCode, getProp.
  destruct (ownProperty stateNames s) as [c' |] eqn:Eo.
  - apply ownProperty_In in Eo.
    assert (P : (s, c') = (name, code)) by (apply (lower_unique stateNames); assumption).
    injection P as -> ->. simpl. rewrite Hcode. reflexivity.
  - destruct (existsb (String.eqb s) objectPrototype) eqn:Ep.
    + exfalso. apply existsb_exists in Ep as (p & Hp & Hs).
      apply String.eqb_eq in Hs. subst p.
      rewrite forallb_forall in Hproto. specialize (Hproto s Hp).
      rewrite forallb_forall in Hproto. specialize (Hproto (name, code) Hin).
      simpl in Hproto. rewrite Hl, String.eqb_refl in Hproto. discriminate.
    + cbn [memberTruthy].
      rewrite (lookupIgnoringCase_found stateNames name code s Hnd Hin Hl).
      reflexivity.
Qed.

Lemma matchState_ignores_case_witness :
  CleanNaep.matchState "new YORK" = Some (Code "NY").
Proof.
  apply (matchState_ignores_case "New York" "NY" "new YORK").
  - vm_compute. tauto.
  - vm_compute. reflexivity.
Defined.

(** ** The unguarded trend line of visualization4.js *)

Lemma trendLine_sums (xMean yMean : number) (stateScores : list Viz4.stateScore)
    (acc : number * number) :
  fold_left
    (fun '(numerator, denominator) d =>
       (add numerator (mul (sub (Viz4.literacyScore d) xMean) (sub (Viz4.prediction d) yMean)),
        add denominator
            (mul (sub (Viz4.literacyScore d) xMean) (sub (Viz4.literacyScore d) xMean))))
    stateScores acc
  = fold_left
      (fun '(num, den) d =>
         (add num (mul (sub (Viz5.spending d) xMean) (sub (Viz5.score d) yMean)),
          add den (mul (sub (Viz5.spending d) xMean) (sub (Viz5.spending d) xMean))))
      (map asDatum stateScores) acc.
Proof.
  revert acc. induction stateScores as [| d l IH]; intros [num den]; [reflexivity |].
  cbn [fold_left map]. rewrite IH. reflexivity.
Qed.

Lemma div_zero_not_finite (num den : number) :
  eq den (ofZ 0) = true -> forall q : Q, div num den <> Fin q.
Proof.
  intros Hz q. destruct den as [| b | d]; try discriminate.
  unfold eq, ofZ in Hz. change (inject_Z 0) with 0%Q in Hz.
  destruct num as [| s | n]; simpl; [discriminate | discriminate |].
  rewrite Hz. destruct (Qeq_bool n 0); discriminate.
Qed.

(** The trend line of [renderScatterPlot] is computed from the same
    means and the same two sums as [calculateLinearRegression] computes
    on the same points, and it divides without a guard. When the
    denominator that the code has computed is not 0, the two lines are
    the same. When it is 0, the slope of the trend line is the result of
    a division by 0, NaN or an infinity and never a number, where
    [calculateLinearRegression] answers with slope 0. *)
Theorem trendLine_unguarded (stateScores : list Viz4.stateScore) :
  let data := map asDatum stateScores in
  let xMean := meanValue (d3mean (map Viz5.spending data)) in
  let yMean := meanValue (d3mean (map Viz5.score data)) in
  let num := fst (Viz5.sums xMean yMean data) in
  let den := snd (Viz5.sums xMean yMean data) in
  Viz4.trendLine stateScores = (div num den, sub yMean (mul (div num den) xMean))
  /\ (eq den (ofZ 0) = true ->
      forall q : Q, fst (Viz4.trendLine stateScores) <> Fin q)
  /\ ((2 <= length stateScores)%nat -> eq den (ofZ 0) = false ->
      Viz5.calculateLinearRegression data
      = Some {| Viz5.slope := fst (Viz4.trendLine stateScores);
                Viz5.intercept := snd (Viz4.trendLine stateScores) |})
  /\ ((2 <= length stateScores)%nat -> eq den (ofZ 0) = true ->
      exists l : Viz5.line,
        Viz5.calculateLinearRegression data = Some l
        /\ Viz5.slope l = ofZ 0
        /\ Viz5.slope l <> fst (Viz4.trendLine stateScores)).
Proof.
  intros data xMean yMean num den.
  assert (Ex : map Viz5.spending data = map Viz4.literacyScore stateScores).
  { unfold data. rewrite map_map. reflexivity. }
  assert (Ey : map Viz5.score data = map Viz4.prediction stateScores).
  { unfold data. rewrite map_map. reflexivity. }
  assert (T : Viz4.trendLine stateScores
              = (div num den, sub yMean (mul (div num den) xMean))).
  { unfold Viz4.trendLine. rewrite <- Ex, <- Ey. fold xMean yMean.
    rewrite trendLine_sums. fold data.
    unfold num, den, Viz5.sums.
    destruct (fold_left _ data (ofZ 0, ofZ 0)) as [n d]. reflexivity. }
  split; [exact T |]. rewrite T. cbn [fst snd].
  split; [intros Hz; apply div_zero_not_finite, Hz |].
  assert (R : (2 <= length stateScores)%nat ->
              Viz5.calculateLinearRegression data
              = Some {| Viz5.slope := if negb (eq den (ofZ 0)) then div num den else ofZ 0;
                        Viz5.intercept :=
                          sub yMean
                              (mul (if negb (eq den (ofZ 0)) then div num den else ofZ 0)
                                   xMean) |}).
  { intros Hn. unfold Viz5.calculateLinearRegression.
    replace (length data) with (length stateScores) by (unfold data; rewrite length_map; reflexivity).
    destruct (Nat.ltb_spec (length stateScores) 2) as [Hlt | _]; [lia |].
    fold xMean yMean. unfold num, den.
    destruct (Viz5.sums xMean yMean data) as [n d]. reflexivity. }
  split.
  - intros Hn Hz. rewrite (R Hn), Hz. reflexivity.
  - intros Hn Hz. rewrite (R Hn), Hz. eexists. split; [reflexivity |].
    split; [reflexivity |]. cbn [Viz5.slope negb]. intros E.
    apply (div_zero_not_finite num den Hz (inject_Z 0)). symmetry. exact E.
Qed.

Lemma trendLine_unguarded_witness :
  Viz5.calculateLinearRegression (map asDatum (map finite4 threePoints))
  = Some {| Viz5.slope := fst (Viz4.trendLine (map finite4 threePoints));
            Viz5.intercept := snd (Viz4.trendLine (map finite4 threePoints)) |}.
Proof.
  apply (proj1 (proj2 (proj2 (trendLine_unguarded (map finite4 threePoints))))).
  - vm_compute. lia.
  - vm_compute. reflexivity.
Defined.

(** ** parseLeadingNumber *)

Lemma numberAt_digit (c : ascii) (s : string) :
  isDigit c = true -> exists m', Outcomes.numberAt (String c s) = String c m'.
Proof.
  intros D. unfold Outcomes.numberAt. simpl. rewrite D.
  destruct (takeDigits s) as [ds rest].
  destruct rest as [| c' rest']; [eauto |].
  destruct (Ascii.eqb c' "."); [| eauto].
  destruct (takeDigits rest') as [[| f fp] r]; simpl; eauto.
Qed.

Lemma parseFloat_digit (c : ascii) (m' : string) :
  isDigit c = true -> exists q : Q, parseFloat (String c m') = Fin q.
Proof.
  intros D. unfold parseFloat. simpl. rewrite D.
  destruct (takeDigits m') as [ds rest].
  destruct rest as [| c' rest]; [eauto |].
  destruct c' as [[] [] [] [] [] [] [] []]; eauto.
  destruct (takeDigits rest). eauto.
Qed.

Lemma digit_not_minus (c : ascii) : isDigit c = true -> Ascii.eqb c "-" = false.
Proof.
  intros D. destruct (Ascii.eqb_spec c "-") as [-> | _]; [| reflexivity].
  vm_compute in D. discriminate.
Qed.

Lemma firstNumber_None (s : string) :
  Outcomes.firstNumber s = None <-> hasDigit s = false.
Proof.
  induction s as [| c s IH]; simpl; [tauto |].
  destruct (isDigit c) eqn:D; simpl; [split; discriminate |].
  destruct (Ascii.eqb c "-" && Outcomes.startsWithDigit s) eqn:M; [| exact IH].
  split; [discriminate |]. intros H.
  apply andb_true_iff in M as [_ M]. destruct s as [| c' s']; [discriminate |].
  simpl in M, H. rewrite M in H. discriminate.
Qed.

Lemma firstNumber_finite (s m : string) :
  Outcomes.firstNumber s = Some m -> exists q : Q, Outcomes.signedValue m = Fin q.
Proof.
  induction s as [| c s IH]; simpl; [discriminate |].
  destruct (isDigit c) eqn:D.
  - intros [= <-]. destruct (numberAt_digit c s D) as [m' ->].
    unfold Outcomes.signedValue. rewrite (digit_not_minus c D).
    apply parseFloat_digit, D.
  - destruct (Ascii.eqb c "-" && Outcomes.startsWithDigit s) eqn:M; [| exact IH].
    intros [= <-]. apply andb_true_iff in M as [Mc Ms].
    destruct s as [| c' s']; [discriminate |]. simpl in Ms.
    destruct (numberAt_digit c' s' Ms) as [m' ->].
    unfold Outcomes.signedValue. rewrite Mc.
    destruct (parseFloat_digit c' m' Ms) as [q ->]. simpl. eauto.
Qed.

(** [parseLeadingNumber] returns [null] for [null] and [undefined], and
    for any other value exactly when its string has no decimal digit;
    whenever it returns a number, that number is not NaN. The string
    "55.3 (1.2)" gives 55.3. *)
Theorem parseLeadingNumber_digits :
  (forall x : value, nullish x = true -> Outcomes.parseLeadingNumber x = None)
  /\ (forall x : value, nullish x = false ->
        (Outcomes.parseLeadingNumber x = None <-> hasDigit (toString x) = false))
  /\ (forall (x : value) (n : number),
        Outcomes.parseLeadingNumber x = Some n -> isNaN n = false)
  /\ (exists q : Q,
        Outcomes.parseLeadingNumber (VStr "55.3 (1.2)") = Some (Fin q) /\ (q == 553 # 10)%Q).
Proof.
  split; [| split; [| split]].
  - intros x H. unfold Outcomes.parseLeadingNumber. rewrite H. reflexivity.
  - intros x H. unfold Outcomes.parseLeadingNumber. rewrite H.
    rewrite <- firstNumber_None.
    destruct (Outcomes.firstNumber (toString x)); split; congruence.
  - intros x n. unfold Outcomes.parseLeadingNumber.
    destruct (nullish x); [discriminate |].
    destruct (Outcomes.firstNumber (toString x)) as [m |] eqn:F; [| discriminate].
    intros [= <-]. destruct (firstNumber_finite _ _ F) as [q ->]. reflexivity.
  - eexists. split; vm_compute; reflexivity.
Qed.

Lemma parseLeadingNumber_digits_witness :
  nullish (VStr "n/a") = false
  /\ hasDigit (toString (VStr "n/a")) = false
  /\ Outcomes.parseLeadingNumber (VStr "n/a") = None.
Proof.
  split; [reflexivity |]. split; [reflexivity |].
  apply (proj2 (proj1 (proj2 parseLeadingNumber_digits) (VStr "n/a") eq_refl)).
  reflexivity.
Defined.

(** ** Means, minima and maxima of finite values *)

Lemma Qsum_bounds (l : list Q) (lo hi : Q) :
  (forall x, In x l -> lo <= x <= hi)%Q ->
  (inject_Z (Z.of_nat (length l)) * lo <= Spec.Qsum l
   /\ Spec.Qsum l <= inject_Z (Z.of_nat (length l)) * hi)%Q.
Proof.
  induction l as [| x l IH]; intros H.
  - cbn [Spec.Qsum fold_right length]. change (inject_Z (Z.of_nat 0)) with 0%Q.
    split; lra.
  - cbn [Spec.Qsum fold_right length]. fold (Spec.Qsum l).
    destruct IH as [IH1 IH2]; [intros y Hy; apply H; right; exact Hy |].
    destruct (H x) as [Hx1 Hx2]; [left; reflexivity |].
    rewrite Nat2Z.inj_succ, <- Z.add_1_r, inject_Z_plus.
    change (inject_Z 1) with 1%Q. split; lra.
Qed.

Lemma mean_bounds (l : list Q) (lo hi : Q) :
  (0 < length l)%nat ->
  (forall x, In x l -> lo <= x <= hi)%Q ->
  (lo <= Spec.mean l <= hi)%Q.
Proof.
  intros Hn H. destruct (Qsum_bounds l lo hi H) as [H1 H2].
  assert (Hpos : (0 < inject_Z (Z.of_nat (length l)))%Q).
  { unfold Qlt, inject_Z; simpl. lia. }
  unfold Spec.mean. split.
  - apply Qle_shift_div_l; [exact Hpos |]. lra.
  - apply Qle_shift_div_r; [exact Hpos |]. lra.
Qed.

(** [d3.mean] of finite values lies between their bounds. *)
Lemma d3mean_bounds (l : list Q) (lo hi : Q) :
  (0 < length l)%nat ->
  (forall x, In x l -> lo <= x <= hi)%Q ->
  exists m : Q, d3mean (map Fin l) = Some (Fin m) /\ (lo <= m <= hi)%Q.
Proof.
  intros Hn H.
  destruct (d3mean_finite (fun x : Q => x) l Hn) as (m & E & Hm).
  exists m. split; [exact E |]. rewrite Hm, map_id. apply mean_bounds; assumption.
Qed.

Lemma filter_Fin (l : list Q) :
  List.filter (fun v => negb (isNaN v)) (map Fin l) = map Fin l.
Proof. induction l as [| x l IH]; simpl; [| rewrite IH]; reflexivity. Qed.

Lemma d3min_finite (l : list Q) :
  l <> [] ->
  exists m : Q, d3min (map Fin l) = Some (Fin m)
                /\ In m l /\ forall x, In x l -> (m <= x)%Q.
Proof.
  assert (G : forall (l : list Q) (m0 : Q),
             exists m : Q,
               fold_left
                 (fun min value =>
                    match min with
                    | Some m => if gt m value then Some value else min
                    | None => if ge value value then Some value else None
                    end) (map Fin l) (Some (Fin m0)) = Some (Fin m)
               /\ (m = m0 \/ In m l) /\ (m <= m0)%Q /\ forall x, In x l -> (m <= x)%Q).
  { clear l. induction l as [| x l IH]; intros m0; simpl.
    - exists m0. split; [reflexivity |]. split; [auto |]. split; [lra |]. tauto.
    - unfold gt at 1, lt. destruct (Qltb x m0) eqn:C.
      + destruct (IH x) as (m & E & Hin & Hle & Hall). exists m. split; [exact E |].
        apply Qltb_lt in C. split; [destruct Hin; auto |]. split; [lra |].
        intros y [<- | Hy]; [exact Hle | apply Hall, Hy].
      + destruct (IH m0) as (m & E & Hin & Hle & Hall). exists m. split; [exact E |].
        apply Qltb_ge in C. split; [destruct Hin; auto |]. split; [exact Hle |].
        intros y [<- | Hy]; [lra | apply Hall, Hy]. }
  intros Hne. destruct l as [| x l]; [congruence |].
  unfold d3min. simpl. rewrite (proj2 (Qltb_ge x x) (Qle_refl x)). simpl.
  destruct (G l x) as (m & E & Hin & Hle & Hall). exists m. split; [exact E |].
  split; [destruct Hin; auto |]. intros y [<- | Hy]; [exact Hle | apply Hall, Hy].
Qed.

Lemma d3max_finite (l : list Q) :
  l <> [] ->
  exists m : Q, d3max (map Fin l) = Some (Fin m)
                /\ In m l /\ forall x, In x l -> (x <= m)%Q.
Proof.
  assert (G : forall (l : list Q) (m0 : Q),
             exists m : Q,
               fold_left
                 (fun max value =>
                    match max with
                    | Some m => if lt m value then Some value else max
                    | None => if ge value value then Some value else None
                    end) (map Fin l) (Some (Fin m0)) = Some (Fin m)
               /\ (m = m0 \/ In m l) /\ (m0 <= m)%Q /\ forall x, In x l -> (x <= m)%Q).
  { clear l. induction l as [| x l IH]; intros m0; simpl.
    - exists m0. split; [reflexivity |]. split; [auto |]. split; [lra |]. tauto.
    - destruct (Qltb m0 x) eqn:C.
      + destruct (IH x) as (m & E & Hin & Hle & Hall). exists m. split; [exact E |].
        apply Qltb_lt in C. split; [destruct Hin; auto |]. split; [lra |].
        intros y [<- | Hy]; [exact Hle | apply Hall, Hy].
      + destruct (IH m0) as (m & E & Hin & Hle & Hall). exists m. split; [exact E |].
        apply Qltb_ge in C. split; [destruct Hin; auto |]. split; [exact Hle |].
        intros y [<- | Hy]; [lra | apply Hall, Hy]. }
  intros Hne. destruct l as [| x l]; [congruence |].
  unfold d3max. simpl. rewrite (proj2 (Qltb_ge x x) (Qle_refl x)). simpl.
  destruct (G l x) as (m & E & Hin & Hle & Hall). exists m. split; [exact E |].
  split; [destruct Hin; auto |]. intros y [<- | Hy]; [exact Hle | apply Hall, Hy].
Qed.

(** ** The graduation proxy of loadOutcomes *)

(** [hsRateProxy] is [null] for a state that has a graduation rate or no
    graduate count. For a state without a rate whose count is among the
    counts, all of them numbers of moderate size, it is a percentage
    between 0 and 100, and it is [null] exactly when all counts are
    equal: the division by [maxG - minG] is never a division by zero. *)
Theorem hsRateProxy_range (counts : list Q) (g : Q) :
  In g counts ->
  (forall c, In c counts -> moderate c) ->
  (forall (hsRate : number) (hsGraduates : option number),
      Outcomes.hsRateProxy (Some hsRate) hsGraduates (map Fin counts) = None)
  /\ (forall hsRate : option number,
        Outcomes.hsRateProxy hsRate None (map Fin counts) = None)
  /\ ((Outcomes.hsRateProxy None (Some (Fin g)) (map Fin counts) = None
       /\ forall c, In c counts -> (c == g)%Q)
      \/ (exists r : Q,
            Outcomes.hsRateProxy None (Some (Fin g)) (map Fin counts) = Some (Fin r)
            /\ (0 <= r <= 100)%Q
            /\ exists c, In c counts /\ ~ (c == g)%Q)).
Proof.
  intros Hg _. split; [reflexivity |]. split; [intros [h |]; reflexivity |].
  assert (Hne : counts <> []) by (intros ->; contradiction).
  unfold Outcomes.hsRateProxy. rewrite filter_Fin.
  destruct (d3min_finite counts Hne) as (lo & -> & Hlo & Hmin).
  destruct (d3max_finite counts Hne) as (hi & -> & Hhi & Hmax).
  simpl. unfold gt, lt.
  pose proof (Hmin g Hg) as H1. pose proof (Hmax g Hg) as H2.
  destruct (Qltb lo hi) eqn:C.
  - right. apply Qltb_lt in C.
    assert (Hd : Qeq_bool (hi + - lo) 0 = false).
    { apply not_true_iff_false. rewrite Qeq_bool_iff. lra. }
    unfold sub, neg, add, div. rewrite Hd. unfold mul, ofZ.
    eexists. split; [reflexivity |]. split.
    + assert (Hr : (0 <= (g + - lo) / (hi + - lo) <= 1)%Q).
      { split.
        - apply Qle_shift_div_l; lra.
        - apply Qle_shift_div_r; lra. }
      change (inject_Z 100) with 100%Q. lra.
    + destruct (Qeq_dec lo g) as [E | E].
      * exists hi. split; [exact Hhi |]. lra.
      * exists lo. split; [exact Hlo | exact E].
  - left. split; [reflexivity |]. apply Qltb_ge in C.
    intros c Hc. pose proof (Hmin c Hc). pose proof (Hmax c Hc). lra.
Qed.

Lemma hsRateProxy_range_witness :
  exists r : Q,
    Outcomes.hsRateProxy None (Some (Fin 5)) (map Fin [1; 5; 11]%Q) = Some (Fin r)
    /\ (r == 40)%Q.
Proof.
  destruct (proj2 (proj2 (hsRateProxy_range [1; 5; 11]%Q 5
                            ltac:(right; left; reflexivity)
                            ltac:(intros c [<- | [<- | [<- | []]]];
                                  split; vm_compute; discriminate))))
    as [[H _] | _].
  - vm_compute in H. discriminate.
  - eexists. split; vm_compute; reflexivity.
Defined.

(** ** The poverty rate and the SES of getStateContext *)

Lemma getSESCategory_finite (m : Q) :
  ((30 <= m)%Q -> getSESCategory (Num (Fin m)) = "Low")
  /\ ((m < 15)%Q -> getSESCategory (Num (Fin m)) = "High")
  /\ ((15 <= m)%Q -> (m < 30)%Q -> getSESCategory (Num (Fin m)) = "Middle").
Proof.
  unfold getSESCategory, ge, lt, ofZ. simpl.
  change (inject_Z 30) with 30%Q. change (inject_Z 15) with 15%Q.
  split; [| split].
  - intros H. rewrite (proj2 (Qltb_ge m 30) H). reflexivity.
  - intros H.
    rewrite (proj2 (Qltb_lt m 30)) by lra. rewrite (proj2 (Qltb_lt m 15) H). reflexivity.
  - intros H1 H2.
    rewrite (proj2 (Qltb_lt m 30) H2). rewrite (proj2 (Qltb_ge m 15) H1). reflexivity.
Qed.

Lemma list_upper (l : list Q) : exists hi : Q, forall x, In x l -> (x <= hi)%Q.
Proof.
  induction l as [| y l [hi H]]; [exists 0%Q; intros x []|].
  destruct (Qlt_le_dec hi y) as [Hlt | Hge].
  - exists y. intros x [<- | Hx]; [lra | specialize (H x Hx); lra].
  - exists hi. intros x [<- | Hx]; [exact Hge | apply H, Hx].
Qed.

(** The rates of a state's rows, when each is a number or an empty cell. *)
Lemma stateRates_where (P : Q -> Prop) (poverty : list Context.povertyRow) (state : string) :
  (forall r, In r poverty -> Context.isState state r = true ->
     exists q : Q, Context.unaryPlus (Context.Poverty_150 r) = Fin q /\ P q) ->
  exists qs : list Q,
    map (fun d => Context.unaryPlus (Context.Poverty_150 d))
        (List.filter (Context.isState state) poverty) = map Fin qs
    /\ length qs = length (List.filter (Context.isState state) poverty)
    /\ forall q, In q qs -> P q.
Proof.
  induction poverty as [| r l IH]; intros Hall; [exists []; simpl; tauto |].
  destruct IH as (qs & E & Hlen & Hb);
    [intros r' Hr' Hs'; apply Hall; [right |]; assumption |].
  simpl. destruct (Context.isState state r) eqn:S; [| exists qs; auto].
  destruct (Hall r ltac:(left; reflexivity) S) as (q & Hq & Hr).
  exists (q :: qs). simpl. rewrite Hq, E, Hlen. simpl.
  split; [reflexivity |]. split; [reflexivity |].
  intros q' [<- | Hq']; [exact Hr | apply Hb, Hq'].
Qed.

Lemma stateRows_pos (poverty : list Context.povertyRow) (state : string) :
  (exists r, In r poverty /\ Context.isState state r = true) ->
  (0 < length (List.filter (Context.isState state) poverty))%nat.
Proof.
  intros (r0 & Hin0 & Hs0).
  assert (Hf : In r0 (List.filter (Context.isState state) poverty))
    by (apply filter_In; auto).
  destruct (List.filter (Context.isState state) poverty); [contradiction | simpl; lia].
Qed.

(** The mean rate of a state whose rows all hold a rate of at least [lo]. *)
Lemma avgPov_lower (poverty : list Context.povertyRow) (state : string) (lo : Q) :
  (exists r, In r poverty /\ Context.isState state r = true) ->
  (forall r, In r poverty -> Context.isState state r = true ->
     exists q : Q, Context.Poverty_150 r = Num (Fin q) /\ (lo <= q)%Q) ->
  exists m : Q, Context.avgPov poverty state = Some (Fin m) /\ (lo <= m)%Q.
Proof.
  intros Hex Hall.
  destruct (stateRates_where (fun q => lo <= q)%Q poverty state) as (qs & E & Hlen & Hb).
  { intros r Hr Hs. destruct (Hall r Hr Hs) as (q & -> & Hq). exists q. auto. }
  assert (Hpos : (0 < length qs)%nat) by (rewrite Hlen; apply stateRows_pos, Hex).
  destruct (list_upper qs) as [hi Hhi].
  destruct (d3mean_bounds qs lo hi Hpos) as (m & Em & Hm);
    [intros x Hx; split; [apply Hb, Hx | apply Hhi, Hx] |].
  exists m. unfold Context.avgPov. rewrite E. split; [exact Em | apply Hm].
Qed.

(** For a state without a row in the poverty file the rate is [undefined]
    and the SES 'Unknown'. An empty cell counts as the rate 0: a state
    whose rows all have an empty cell gets the rate 0 and the SES 'High'.
    When every row of the state holds a rate of at least 30 the SES is
    'Low', and when every row holds a rate of at least 15 it is 'Low' or
    'Middle'. *)
Theorem povertyContext_ses (poverty : list Context.povertyRow) (state : string) :
  ((forall r, In r poverty -> Context.isState state r = false) ->
   Context.povertyContext poverty state = (None, "Unknown"))
  /\ ((exists r, In r poverty /\ Context.isState state r = true) ->
      (forall r, In r poverty -> Context.isState state r = true ->
         Context.Poverty_150 r = Null) ->
      exists m : Q,
        Context.povertyContext poverty state = (Some (Fin m), "High") /\ (m == 0)%Q)
  /\ ((exists r, In r poverty /\ Context.isState state r = true) ->
      (forall r, In r poverty -> Context.isState state r = true ->
         exists q : Q, Context.Poverty_150 r = Num (Fin q) /\ (30 <= q)%Q) ->
      snd (Context.povertyContext poverty state) = "Low")
  /\ ((exists r, In r poverty /\ Context.isState state r = true) ->
      (forall r, In r poverty -> Context.isState state r = true ->
         exists q : Q, Context.Poverty_150 r = Num (Fin q) /\ (15 <= q)%Q) ->
      snd (Context.povertyContext poverty state) = "Low"
      \/ snd (Context.povertyContext poverty state) = "Middle").
Proof.
  split; [| split; [| split]].
  - intros H. unfold Context.povertyContext, Context.avgPov.
    assert (E : List.filter (Context.isState state) poverty = []).
    { induction poverty as [| r l IH]; [reflexivity |]. simpl.
      rewrite (H r) by (left; reflexivity).
      apply IH. intros r' Hr'. apply H. right. exact Hr'. }
    rewrite E. reflexivity.
  - intros Hex Hall.
    destruct (stateRates_where (fun q => 0 <= q <= 0)%Q poverty state) as (qs & E & Hlen & Hb).
    { intros r Hr Hs. rewrite (Hall r Hr Hs). exists 0%Q. split; [reflexivity | lra]. }
    assert (Hpos : (0 < length qs)%nat) by (rewrite Hlen; apply stateRows_pos, Hex).
    destruct (d3mean_bounds qs 0 0 Hpos Hb) as (m & Em & Hm).
    exists m. unfold Context.povertyContext, Context.avgPov. rewrite E, Em.
    destruct (getSESCategory_finite m) as (_ & Hi & _).
    rewrite Hi by lra. split; [reflexivity | lra].
  - intros Hex Hall. destruct (avgPov_lower poverty state 30 Hex Hall) as (m & E & Hm).
    unfold Context.povertyContext. rewrite E. cbn [snd].
    apply (proj1 (getSESCategory_finite m)), Hm.
  - intros Hex Hall. destruct (avgPov_lower poverty state 15 Hex Hall) as (m & E & Hm).
    unfold Context.povertyContext. rewrite E. cbn [snd].
    destruct (getSESCategory_finite m) as (L & _ & Mi).
    destruct (Qlt_le_dec m 30) as [Hlt | Hge]; [right; apply Mi; assumption | left; apply L, Hge].
Qed.

Lemma povertyContext_ses_witness :
  exists m : Q,
    Context.povertyContext
      [ {| Context.State := VStr "TX"; Context.Poverty_150 := Null |};
        {| Context.State := VStr "CA"; Context.Poverty_150 := Num (ofZ 12) |} ] "TX"
    = (Some (Fin m), "High") /\ (m == 0)%Q.
Proof.
  apply (proj1 (proj2 (povertyContext_ses _ "TX"))).
  - eexists. split; [left; reflexivity | reflexivity].
  - intros r [<- | [<- | []]] H; [reflexivity | vm_compute in H; discriminate].
Defined.

(** ** The average spending and the scatter data *)

Lemma calculateStateAverage_present (sp : Viz5Helpers.spending) :
  Viz5Helpers.calculateStateAverage sp
  = if (0 <? length (presentAmounts sp))%nat
    then div (fold_left add (presentAmounts sp) (ofZ 0))
             (ofZ (Z.of_nat (length (presentAmounts sp))))
    else ofZ 0.
Proof.
  destruct sp as [[a |] [b |] [c |]]; reflexivity.
Qed.

(** The average spending of a state is 0 when it has no spending entry,
    and such a state is left out of the scatter data. When all the
    amounts of its entries are at least 1, so is the average, and the
    state is in the scatter data whenever its score is a number other than
    0. Every point of the scatter data has a spending and a score that are
    neither NaN nor 0. *)
Theorem calculateStateAverage_range :
  (forall (sp : Viz5Helpers.spending) (score : input),
      presentAmounts sp = [] ->
      Viz5Helpers.calculateStateAverage sp = ofZ 0
      /\ Viz5Helpers.scatterData
           [ {| Viz5Helpers.rowSpending := sp; Viz5Helpers.rowScore := score |} ] = [])
  /\ (forall (sp : Viz5Helpers.spending) (amounts : list Q) (score : number),
        presentAmounts sp = map Fin amounts -> amounts <> [] ->
        (forall a, In a amounts -> (1 <= a)%Q) ->
        truthy (VNum score) = true ->
        le (ofZ 1) (Viz5Helpers.calculateStateAverage sp) = true
        /\ Viz5Helpers.scatterData
             [ {| Viz5Helpers.rowSpending := sp; Viz5Helpers.rowScore := Num score |} ]
           = [ {| Viz5.spending := Viz5Helpers.calculateStateAverage sp;
                  Viz5.score := score |} ])
  /\ (forall (stateData : list Viz5Helpers.stateRow) (d : Viz5.datum),
        In d (Viz5Helpers.scatterData stateData) ->
        truthy (VNum (Viz5.spending d)) = true /\ truthy (VNum (Viz5.score d)) = true).
Proof.
  split; [| split].
  - intros sp score H.
    assert (E : Viz5Helpers.calculateStateAverage sp = ofZ 0).
    { rewrite calculateStateAverage_present, H. reflexivity. }
    split; [exact E |]. unfold Viz5Helpers.scatterData. simpl. rewrite E.
    destruct score; reflexivity.
  - intros sp amounts score H Hne Hb T.
    assert (Hpos : (0 < length amounts)%nat)
      by (destruct amounts; [congruence | simpl; lia]).
    destruct (list_upper amounts) as [hi Hhi].
    destruct (d3mean_bounds amounts 1 hi Hpos) as (m & E & Hm);
      [intros x Hx; split; [apply Hb, Hx | apply Hhi, Hx] |].
    assert (A : Viz5Helpers.calculateStateAverage sp = Fin m).
    { rewrite calculateStateAverage_present, H, length_map.
      destruct (Nat.ltb_spec 0 (length amounts)) as [_ | Hle]; [| lia].
      unfold d3mean in E. rewrite filter_Fin in E.
      destruct (map Fin amounts) as [| v vs] eqn:Em;
        [destruct amounts; [congruence | discriminate] |].
      rewrite <- Em in E. rewrite length_map in E. injection E as E.
      rewrite <- Em. exact E. }
    rewrite A. split; [apply le_Fin; change (inject_Z 1) with 1%Q; apply Hm |].
    unfold Viz5Helpers.scatterData. cbn [flat_map Viz5Helpers.rowScore Viz5Helpers.rowSpending].
    rewrite A, T.
    assert (Tm : truthy (VNum (Fin m)) = true).
    { cbn [truthy]. apply negb_true_iff, not_true_iff_false. rewrite Qeq_bool_iff.
      destruct Hm as [Hm _]. lra. }
    rewrite Tm. destruct score as [| b | q]; [discriminate | reflexivity | reflexivity].
  - intros stateData d. unfold Viz5Helpers.scatterData. rewrite in_flat_map.
    intros (r & _ & Hd).
    destruct (Viz5Helpers.rowScore r) as [| | sc]; try contradiction.
    destruct (truthy (VNum (Viz5Helpers.calculateStateAverage (Viz5Helpers.rowSpending r))))
      eqn:T1; [| contradiction].
    destruct (truthy (VNum sc)) eqn:T2; [| contradiction].
    simpl in Hd.
    destruct (negb (isNaN (Viz5Helpers.calculateStateAverage (Viz5Helpers.rowSpending r)))
              && negb (isNaN sc)); [| contradiction].
    destruct Hd as [<- | []]. simpl. auto.
Qed.

Lemma calculateStateAverage_range_witness :
  le (ofZ 1)
     (Viz5Helpers.calculateStateAverage
        {| Viz5Helpers.lowSES := Some (ofZ 10); Viz5Helpers.middleSES := None;
           Viz5Helpers.highSES := Some (ofZ 20) |}) = true.
Proof.
  apply (proj1 (proj2 calculateStateAverage_range) _ [10; 20]%Q (ofZ 250)).
  - reflexivity.
  - discriminate.
  - intros a [<- | [<- | []]]; vm_compute; discriminate.
  - reflexivity.
Defined.

(** ** The state tables of visualization4.js *)

Lemma ownProperty_complete (tbl : list (string * string)) (k v : string) :
  NoDup (map fst tbl) -> In (k, v) tbl -> ownProperty tbl k = Some v.
Proof.
  induction tbl as [| [k0 v0] tbl IH]; simpl; intros Hnd Hin; [contradiction |].
  apply NoDup_cons in Hnd as [Hnot Hnd].
  destruct (String.eqb_spec k0 k) as [-> | Hne].
  - destruct Hin as [[= <-] | Hin]; [reflexivity |].
    exfalso. apply Hnot. apply list_elem_of_In, in_map_iff. exists (k, v). auto.
  - destruct Hin as [[= <- <-] | Hin]; [congruence | apply IH; assumption].
Qed.

(** Two tables with the same entries answer every lookup alike. *)
Lemma ownProperty_same (t1 t2 : list (string * string)) (k : string) :
  NoDup (map fst t1) -> NoDup (map fst t2) ->
  (forall e, In e t1 <-> In e t2) ->
  ownProperty t1 k = ownProperty t2 k.
Proof.
  intros N1 N2 H.
  destruct (ownProperty t1 k) as [v |] eqn:E1.
  - apply ownProperty_In in E1. symmetry. apply ownProperty_complete; [exact N2 |].
    apply H, E1.
  - destruct (ownProperty t2 k) as [v |] eqn:E2; [| reflexivity].
    apply ownProperty_In in E2. apply H in E2.
    rewrite (ownProperty_complete t1 k v N1 E2) in E1. discriminate.
Qed.

Lemma ownProperty_app (t1 t2 : list (string * string)) (k : string) :
  ownProperty (t1 ++ t2)%list k
  = match ownProperty t1 k with Some v => Some v | None => ownProperty t2 k end.
Proof.
  induction t1 as [| [k0 v0] t1 IH]; simpl; [reflexivity |].
  destruct (String.eqb k0 k); [reflexivity | exact IH].
Qed.

(** The table of [getStateCode] lists the same states as [stateNames], in
    another order. *)
Lemma getStateCode_stateNames (name : string) :
  Viz4Helpers.getStateCode name = getProp stateNames name.
Proof.
  assert (N1 : NoDup (map fst Viz4Helpers.codeOfName))
    by (apply (bool_decide_unpack _); vm_compute; reflexivity).
  assert (N2 : NoDup (map fst stateNames))
    by (apply (bool_decide_unpack _); vm_compute; reflexivity).
  assert (S : forall e, In e Viz4Helpers.codeOfName <-> In e stateNames).
  { intros e. split; intros H.
    - unfold Viz4Helpers.codeOfName in H. simpl in H.
      repeat (destruct H as [H | H]; [subst e; vm_compute; tauto |]). destruct H.
    - unfold stateNames in H. simpl in H.
      repeat (destruct H as [H | H]; [subst e; vm_compute; tauto |]). destruct H. }
  assert (Hcodes : forallb (fun e => negb (String.eqb (snd e) "")) stateNames = true)
    by (vm_compute; reflexivity).
  unfold Viz4Helpers.getStateCode, getProp.
  rewrite (ownProperty_same _ _ name N1 N2 S).
  destruct (ownProperty stateNames name) as [c |] eqn:E.
  - apply ownProperty_In in E. rewrite forallb_forall in Hcodes.
    specialize (Hcodes (name, c) E). simpl in Hcodes. simpl. rewrite Hcodes. reflexivity.
  - destruct (existsb _ _); reflexivity.
Qed.

(** [getStateCode] and [getStateName] are inverse to each other on the
    fifty states and the District of Columbia, and [getStateName] returns
    any other code unchanged. [getStateCode] resolves every name to what
    the table of [parseNAEPFile] resolves it to, and to what the table of
    [loadAllNAEPData] resolves it to except for 'United States', which
    that table maps to 'National' and [getStateCode] to [null]. *)
Theorem state_tables_inverse :
  (forall name code : string,
      Viz4Helpers.getStateCode name = Some (Code code) ->
      Viz4Helpers.getStateName code = Code name)
  /\ (forall code name : string,
        Viz4Helpers.getStateName code = Code name -> name <> code ->
        Viz4Helpers.getStateCode name = Some (Code code))
  /\ (forall code : string,
        getProp Viz4Helpers.nameOfCode code = None ->
        Viz4Helpers.getStateName code = Code code)
  /\ (forall name : string,
        Viz4Helpers.getStateCode name = getProp CleanNaep.stateNameToCode name)
  /\ (forall name : string,
        name <> "United States" ->
        Viz4Helpers.getStateCode name = getProp DataHelpers.stateNameToCode name)
  /\ Viz4Helpers.getStateCode "United States" = None
  /\ getProp DataHelpers.stateNameToCode "United States" = Some (Code "National").
Proof.
  split; [| split; [| split; [| split; [| split; [| split]]]]].
  - intros name code. unfold Viz4Helpers.getStateCode, getProp.
    destruct (ownProperty Viz4Helpers.codeOfName name) as [c |] eqn:E.
    + simpl. destruct (negb (String.eqb c "")); [| discriminate].
      intros [= ->]. apply ownProperty_In in E.
      unfold Viz4Helpers.codeOfName in E. simpl in E.
      repeat (destruct E as [E | E]; [injection E as <- <-; vm_compute; reflexivity |]).
      destruct E.
    + destruct (existsb _ _); simpl; discriminate.
  - intros code name. unfold Viz4Helpers.getStateName, getProp.
    destruct (ownProperty Viz4Helpers.nameOfCode code) as [n |] eqn:E.
    + simpl. destruct (negb (String.eqb n "")); [| intros [= <-] H; congruence].
      intros [= ->] _. apply ownProperty_In in E.
      unfold Viz4Helpers.nameOfCode in E. simpl in E.
      repeat (destruct E as [E | E]; [injection E as <- <-; vm_compute; reflexivity |]).
      destruct E.
    + destruct (existsb _ _); simpl; [discriminate |]. intros [= <-] H. congruence.
  - intros code H. unfold Viz4Helpers.getStateName. rewrite H. reflexivity.
  - exact getStateCode_stateNames.
  - intros name Hne. rewrite getStateCode_stateNames.
    unfold getProp, DataHelpers.stateNameToCode. rewrite ownProperty_app.
    destruct (ownProperty stateNames name); [reflexivity |].
    cbn [ownProperty]. destruct (String.eqb_spec "United States" name) as [E | _];
      [congruence | reflexivity].
  - reflexivity.
  - reflexivity.
Qed.

Lemma state_tables_inverse_witness :
  Viz4Helpers.getStateCode "Texas" = Some (Code "TX")
  /\ Viz4Helpers.getStateName "TX" = Code "Texas".
Proof.
  assert (H : Viz4Helpers.getStateCode "Texas" = Some (Code "TX")) by reflexivity.
  split; [exact H |]. apply (proj1 state_tables_inverse "Texas" "TX" H).
Defined.

(** ** The prediction of visualization4.js *)

Lemma clamp_fin (q : Q) :
  exists c, mathMax (ofZ 15) (mathMin (ofZ 75) (Fin q)) = Fin c
            /\ (15 <= c <= 75)%Q
            /\ ((q <= 15 /\ c == 15) \/ (15 <= q <= 75 /\ c == q) \/ (75 <= q /\ c == 75))%Q.
Proof.
  unfold mathMax, mathMin, ofZ. cbn [isNaN orb lt].
  change (inject_Z 75) with 75%Q. change (inject_Z 15) with 15%Q.
  destruct (Qltb q 75) eqn:E75.
  - apply Qltb_lt in E75. cbn [isNaN orb lt].
    destruct (Qltb 15 q) eqn:E15.
    + apply Qltb_lt in E15. exists q. split; [reflexivity |]. split; lra.
    + apply Qltb_ge in E15. exists 15%Q. split; [reflexivity |]. split; lra.
  - apply Qltb_ge in E75. cbn [isNaN orb lt].
    exists 75%Q. split; [reflexivity |]. split; lra.
Qed.

Lemma clamp_range (p : number) :
  mathMax (ofZ 15) (mathMin (ofZ 75) p) = NaN
  \/ exists q, mathMax (ofZ 15) (mathMin (ofZ 75) p) = Fin q /\ (15 <= q <= 75)%Q.
Proof.
  destruct p as [| [|] | q].
  - left. reflexivity.
  - right. exists 15%Q. split; [reflexivity | lra].
  - right. exists 75%Q. split; [reflexivity | lra].
  - right. destruct (clamp_fin q) as (c & E & Hc & _). exists c. split; assumption.
Qed.

Lemma getOr_finite (m : gmap member number) (key : string) (f : Q) :
  (forall v, m !! Code key = Some v -> exists q, v = Fin q) ->
  exists q, Viz4Helpers.getOr m key (Fin f) = Fin q.
Proof.
  intros H. unfold Viz4Helpers.getOr.
  destruct (m !! Code key) as [v |] eqn:E; [| eauto].
  destruct (H v eq_refl) as [q ->]. destruct (truthy (VNum (Fin q))); eauto.
Qed.

Lemma incomeOf_finite (l m h : Q) (ses : string) :
  In ses ["low"; "medium"; "high"] ->
  exists i,
    Viz4Helpers.incomeOf
      {| Viz4Helpers.low := Fin l; Viz4Helpers.medium := Fin m; Viz4Helpers.high := Fin h |}
      ses = Fin i.
Proof.
  intros [<- | [<- | [<- | []]]]; unfold Viz4Helpers.incomeOf;
    cbn [String.eqb Ascii.eqb Bool.eqb andb Viz4Helpers.low Viz4Helpers.medium Viz4Helpers.high];
    simpl String.eqb; cbv iota;
    match goal with |- context [truthy ?v] => destruct (truthy v) end; eauto.
Qed.

(** The sum that [calculateStatePrediction] clamps, on finite numbers and
    a score that is not zero. *)
Lemma predicted_finite (b g i s : Q) :
  ~ (s == 0)%Q ->
  sub (add (add (Fin b) (if truthy (VNum (Fin s))
                         then mul (div (sub (Fin s) (ofZ 240)) (ofZ 10)) (ofZ 2)
                         else ofZ 0))
           (mul (Fin b) (sub (div (Fin i) (ofZ 50)) (ofZ 1))))
      (mul (sub (Fin g) (Fin (45 # 100))) (ofZ 10))
  = Fin (b + (s + - inject_Z 240) / inject_Z 10 * inject_Z 2
         + b * (i / inject_Z 50 + - inject_Z 1)
         + - ((g + - (45 # 100)) * inject_Z 10)).
Proof.
  intros Hs. cbn [truthy].
  assert (E : Qeq_bool s 0 = false).
  { apply not_true_iff_false. intros E. apply Qeq_bool_iff in E. contradiction. }
  rewrite E. cbn [negb]. reflexivity.
Qed.

(** [calculateStatePrediction] never returns an infinity: its result is
    NaN or lies between 15 and 75.  On table entries, effects and scores
    that are numbers of moderate size, with a known SES level, the result
    is a number in that range, and among scores other than zero a higher
    literacy score never gives a lower prediction. *)
Theorem calculateStatePrediction_clamped
  (rates ginis : gmap member number) (effects : Viz4Helpers.incomeEffects)
  (code ses : string) (score : number) :
  (Viz4Helpers.calculateStatePrediction rates ginis effects code ses score = NaN
   \/ exists q,
       Viz4Helpers.calculateStatePrediction rates ginis effects code ses score = Fin q
       /\ (15 <= q <= 75)%Q)
  /\ ((forall v, rates !! Code code = Some v -> exists q, v = Fin q /\ moderate q) ->
      (forall v, ginis !! Code code = Some v -> exists q, v = Fin q /\ moderate q) ->
      (exists l m h, effects = {| Viz4Helpers.low := Fin l; Viz4Helpers.medium := Fin m;
                                  Viz4Helpers.high := Fin h |}
                     /\ moderate l /\ moderate m /\ moderate h) ->
      In ses ["low"; "medium"; "high"] ->
      forall s1 s2 : Q,
        moderate s1 -> moderate s2 ->
        ~ (s1 == 0)%Q -> ~ (s2 == 0)%Q -> (s1 <= s2)%Q ->
        exists q1 q2,
          Viz4Helpers.calculateStatePrediction rates ginis effects code ses (Fin s1) = Fin q1
          /\ Viz4Helpers.calculateStatePrediction rates ginis effects code ses (Fin s2) = Fin q2
          /\ (15 <= q1)%Q /\ (q1 <= q2)%Q /\ (q2 <= 75)%Q).
Proof.
  split; [apply clamp_range |].
  intros Hr' Hg' (l & m & h & -> & _) Hs s1 s2 _ _ N1 N2 Hle.
  assert (Hr : forall v, rates !! Code code = Some v -> exists q, v = Fin q)
    by (intros v Hv; destruct (Hr' v Hv) as (q & -> & _); eauto).
  assert (Hg : forall v, ginis !! Code code = Some v -> exists q, v = Fin q)
    by (intros v Hv; destruct (Hg' v Hv) as (q & -> & _); eauto).
  unfold Viz4Helpers.calculateStatePrediction.
  destruct (getOr_finite rates code (inject_Z 35) Hr) as [b Eb].
  destruct (getOr_finite ginis code (48 # 100) Hg) as [g Eg].
  destruct (incomeOf_finite l m h ses Hs) as [i Ei].
  unfold ofZ in Eb. fold (ofZ 35) in Eb.
  cbv zeta. rewrite Eb, Eg, Ei.
  rewrite (predicted_finite b g i s1 N1), (predicted_finite b g i s2 N2).
  match goal with
  | |- context [mathMin (ofZ 75) (Fin ?p)] =>
      destruct (clamp_fin p) as (c1 & E1 & B1 & C1)
  end.
  rewrite E1.
  match goal with
  | |- context [mathMin (ofZ 75) (Fin ?p)] =>
      destruct (clamp_fin p) as (c2 & E2 & B2 & C2)
  end.
  rewrite E2. exists c1, c2. split; [reflexivity |]. split; [reflexivity |].
  set (a1 := ((s1 + - inject_Z 240) / inject_Z 10 * inject_Z 2)%Q) in *.
  set (a2 := ((s2 + - inject_Z 240) / inject_Z 10 * inject_Z 2)%Q) in *.
  set (k := (b * (i / inject_Z 50 + - inject_Z 1))%Q) in *.
  set (p := ((g + - (45 # 100)) * inject_Z 10)%Q) in *.
  assert (M : (a1 <= a2)%Q).
  { assert (X : forall s : Q,
               ((s + - inject_Z 240) / inject_Z 10 * inject_Z 2 == (s - 240) * (1 # 5))%Q)
      by (intros s; change (inject_Z 240) with 240%Q; change (inject_Z 10) with 10%Q;
          change (inject_Z 2) with 2%Q; field).
    unfold a1, a2. rewrite !X. lra. }
  clearbody a1 a2 k p.
  split; [lra |]. split; [| lra]. lra.
Qed.

Lemma calculateStatePrediction_clamped_witness :
  exists q1 q2,
    Viz4Helpers.calculateStatePrediction
      (<[Code "CA" := Fin 40]> ∅) ∅
      {| Viz4Helpers.low := Fin 30; Viz4Helpers.medium := Fin 50; Viz4Helpers.high := Fin 70 |}
      "CA" "high" (Fin 230) = Fin q1
    /\ Viz4Helpers.calculateStatePrediction
      (<[Code "CA" := Fin 40]> ∅) ∅
      {| Viz4Helpers.low := Fin 30; Viz4Helpers.medium := Fin 50; Viz4Helpers.high := Fin 70 |}
      "CA" "high" (Fin 260) = Fin q2
    /\ (15 <= q1)%Q /\ (q1 <= q2)%Q /\ (q2 <= 75)%Q.
Proof.
  apply (proj2 (calculateStatePrediction_clamped
                  (<[Code "CA" := Fin 40]> ∅) ∅
                  {| Viz4Helpers.low := Fin 30; Viz4Helpers.medium := Fin 50;
                     Viz4Helpers.high := Fin 70 |}
                  "CA" "high" NaN)).
  - intros v H. vm_compute in H. injection H as <-. eexists.
    split; [reflexivity | split; vm_compute; discriminate].
  - intros v H. vm_compute in H. discriminate.
  - do 3 eexists. split; [reflexivity |].
    split; [| split]; split; vm_compute; discriminate.
  - simpl. tauto.
  - split; vm_compute; discriminate.
  - split; vm_compute; discriminate.
  - intros H. vm_compute in H. discriminate.
  - intros H. vm_compute in H. discriminate.
  - vm_compute. discriminate.
Defined.

(** ** The latest year and the context states of visualization1.js *)

Lemma insertDesc_perm (x : Z) (l : list Z) : Viz1.insertDesc x l ≡ₚ x :: l.
Proof.
  induction l as [| y l IH]; simpl; [reflexivity |].
  destruct (y <? x)%Z; [reflexivity |].
  rewrite IH. apply Permutation_swap.
Qed.

Lemma sortDesc_perm (l : list Z) : Viz1.sortDesc l ≡ₚ l.
Proof.
  unfold Viz1.sortDesc.
  assert (G : forall acc, fold_left (fun acc x => Viz1.insertDesc x acc) l acc ≡ₚ (acc ++ l)%list).
  { induction l as [| x l IH]; intros acc; simpl.
    - rewrite app_nil_r. reflexivity.
    - rewrite IH, insertDesc_perm. simpl. apply Permutation_middle. }
  rewrite G. reflexivity.
Qed.

Lemma insertDesc_sorted (x : Z) (l : list Z) :
  StronglySorted Z.ge l -> StronglySorted Z.ge (Viz1.insertDesc x l).
Proof.
  induction 1 as [| y l Hs IH Hy]; simpl.
  - constructor; constructor.
  - destruct (Z.ltb_spec y x) as [Hlt | Hge].
    + constructor; [constructor; assumption |].
      constructor; [lia |]. eapply Forall_impl; [exact Hy |]. simpl. intros z Hz. lia.
    + constructor; [exact IH |].
      rewrite insertDesc_perm. constructor; [lia | exact Hy].
Qed.

Lemma sortDesc_sorted (l : list Z) : StronglySorted Z.ge (Viz1.sortDesc l).
Proof.
  unfold Viz1.sortDesc.
  assert (G : forall acc, StronglySorted Z.ge acc ->
                          StronglySorted Z.ge (fold_left (fun acc x => Viz1.insertDesc x acc) l acc)).
  { induction l as [| x l IH]; intros acc Hacc; simpl; [exact Hacc |].
    apply IH, insertDesc_sorted, Hacc. }
  apply G. constructor.
Qed.

(** The year that [years.sort((a, b) => b - a)] puts first is the largest. *)
Lemma latestYear_max (years : list Z) (y : Z) :
  In y years -> (forall y', In y' years -> (y' <= y)%Z) ->
  Viz1.latestYear years = numberToString (ofZ y).
Proof.
  intros Hin Hmax. unfold Viz1.latestYear.
  pose proof (sortDesc_perm years) as P. pose proof (sortDesc_sorted years) as S.
  destruct (Viz1.sortDesc years) as [| h t].
  - apply list_elem_of_In in Hin. rewrite <- P in Hin. inversion Hin.
  - assert (Hh : In h years).
    { apply list_elem_of_In. rewrite <- P. apply list_elem_of_here. }
    assert (Hy : y ∈ h :: t) by (rewrite P; apply list_elem_of_In, Hin).
    apply StronglySorted_inv in S as [_ S]. rewrite Forall_forall in S.
    assert (h = y).
    { apply Hmax in Hh. apply elem_of_cons in Hy as [-> | Hy]; [reflexivity |].
      apply S in Hy. lia. }
    subst h. reflexivity.
Qed.

(** [getNationalAverage] and [getStateScore] read the largest year of the
    grade and no other: the national average is the entry of that year when
    it is a number other than zero, and a state without a score for that
    year has no score, whatever the earlier years hold. *)
Theorem latest_year_only (data : gmap string Viz1.gradeData) (grade : Z)
    (gd : Viz1.gradeData) (y : Z) :
  data !! ("grade" ++ numberToString (ofZ grade)) = Some gd ->
  In y (Viz1.years gd) ->
  (forall y', In y' (Viz1.years gd) -> (y' <= y)%Z) ->
  (forall v, Viz1Context.getNationalAverage data grade = Some v
             <-> Viz1.nationalAvg gd !! numberToString (ofZ y) = Some v
                 /\ truthy (VNum v) = true)
  /\ (forall state ses scores,
        Viz1.states gd !! state = Some scores ->
        scores !! numberToString (ofZ y) = None ->
        Viz1.getStateScore data state grade ses = None)
  /\ (forall state ses scores v,
        Viz1.states gd !! state = Some scores ->
        scores !! numberToString (ofZ y) = Some v ->
        truthy (VNum v) = true ->
        Viz1.getStateScore data state grade ses = Some (Viz1.adjust v ses)).
Proof.
  intros Hd Hin Hmax. pose proof (latestYear_max _ _ Hin Hmax) as L.
  split; [| split].
  - intros v. unfold Viz1Context.getNationalAverage. rewrite Hd, L.
    destruct (Viz1.nationalAvg gd !! numberToString (ofZ y)) as [a |].
    + destruct (truthy (VNum a)) eqn:T; split.
      * intros [= ->]. auto.
      * intros [[= ->] _]. reflexivity.
      * discriminate.
      * intros [[= ->] T']. congruence.
    + split; [discriminate | intros [? _]; discriminate].
  - intros state ses scores Hs Hn. unfold Viz1.getStateScore.
    rewrite Hd, Hs, L, Hn. reflexivity.
  - intros state ses scores v Hs Hv T. unfold Viz1.getStateScore.
    rewrite Hd, Hs, L, Hv, T. reflexivity.
Qed.

Lemma latest_year_only_witness :
  Viz1.getStateScore
    (<["grade4" := {| Viz1.years := [2019; 2022; 2017]%Z;
                      Viz1.states := <["CA" := <["2019" := ofZ 216]> ∅]> ∅;
                      Viz1.nationalAvg := <["2022" := ofZ 216]> ∅ |}]> ∅)
    "CA" 4 "Middle" = None.
Proof.
  refine (proj1 (proj2 (latest_year_only
            (<["grade4" := {| Viz1.years := [2019; 2022; 2017]%Z;
                              Viz1.states := <["CA" := <["2019" := ofZ 216]> ∅]> ∅;
                              Viz1.nationalAvg := <["2022" := ofZ 216]> ∅ |}]> ∅)
            4 _ 2022%Z _ _ _)) "CA" "Middle" (<["2019" := ofZ 216]> ∅) _ _).
  - vm_compute. reflexivity.
  - simpl. tauto.
  - simpl. intros y' H. lia.
  - vm_compute. reflexivity.
  - vm_compute. reflexivity.
Defined.

Lemma comparator_positive (x y : Q) :
  gt (sub (Fin x) (Fin y)) (ofZ 0) = true <-> (y < x)%Q.
Proof.
  unfold gt, sub, neg, add, lt, ofZ. rewrite Qltb_lt.
  change (inject_Z 0) with 0%Q. split; intros; lra.
Qed.

Lemma insertByScore_perm (x : Viz1Context.contextScore) (l : list Viz1Context.contextScore) :
  Viz1Context.insertByScore x l ≡ₚ x :: l.
Proof.
  induction l as [| y l IH]; cbn [Viz1Context.insertByScore]; [reflexivity |].
  destruct (gt (sub (Viz1Context.score x) (Viz1Context.score y)) (ofZ 0)); [reflexivity |].
  rewrite IH. apply Permutation_swap.
Qed.

Lemma sortByScore_perm (l : list Viz1Context.contextScore) : Viz1Context.sortByScore l ≡ₚ l.
Proof.
  unfold Viz1Context.sortByScore.
  assert (G : forall acc,
             fold_left (fun acc x => Viz1Context.insertByScore x acc) l acc ≡ₚ (acc ++ l)%list).
  { induction l as [| x l IH]; intros acc; simpl.
    - rewrite app_nil_r. reflexivity.
    - rewrite IH, insertByScore_perm. simpl. apply Permutation_middle. }
  rewrite G. reflexivity.
Qed.

Lemma insertByScore_sorted (x : Viz1Context.contextScore) (l : list Viz1Context.contextScore) :
  finiteScore x -> Forall finiteScore l ->
  StronglySorted descending l -> StronglySorted descending (Viz1Context.insertByScore x l).
Proof.
  intros [qx Ex] Hf Hs. induction Hs as [| y l Hs IH Hy]; cbn [Viz1Context.insertByScore].
  - constructor; constructor.
  - apply Forall_cons in Hf as [[qy Ey] Hf]. rewrite Ex, Ey.
    destruct (gt (sub (Fin qx) (Fin qy)) (ofZ 0)) eqn:G.
    + apply comparator_positive in G.
      constructor; [constructor; assumption |].
      constructor.
      * unfold descending. rewrite Ex, Ey. apply le_Fin. lra.
      * rewrite Forall_forall in Hy, Hf. apply Forall_forall. intros z Hz.
        destruct (Hf z Hz) as [qz Ez]. specialize (Hy z Hz).
        unfold descending in *. rewrite Ey, Ez in Hy. apply le_Fin in Hy.
        rewrite Ex, Ez. apply le_Fin. lra.
    + constructor; [apply IH, Hf |].
      rewrite insertByScore_perm. constructor; [| exact Hy].
      unfold descending. rewrite Ex, Ey. apply le_Fin.
      destruct (Qlt_le_dec qy qx) as [H | H]; [| exact H].
      apply comparator_positive in H. congruence.
Qed.

Lemma sortByScore_sorted (l : list Viz1Context.contextScore) :
  Forall finiteScore l -> StronglySorted descending (Viz1Context.sortByScore l).
Proof.
  unfold Viz1Context.sortByScore.
  assert (G : forall acc, Forall finiteScore acc -> Forall finiteScore l ->
                          StronglySorted descending acc ->
                          StronglySorted descending
                            (fold_left (fun acc x => Viz1Context.insertByScore x acc) l acc)).
  { induction l as [| x l IH]; intros acc Fa Fl Hacc; simpl; [exact Hacc |].
    apply Forall_cons in Fl as [Fx Fl].
    apply IH; [| exact Fl | apply insertByScore_sorted; assumption].
    rewrite insertByScore_perm. constructor; assumption. }
  intros Hf. apply G; [constructor | exact Hf | constructor].
Qed.

Lemma sorted_lookup (l : list Viz1Context.contextScore) (i j : nat)
    (a b : Viz1Context.contextScore) :
  Forall finiteScore l -> StronglySorted descending l ->
  l !! i = Some a -> l !! j = Some b -> (i <= j)%nat -> descending a b.
Proof.
  intros Hf Hs. revert i j. induction Hs as [| y l Hs IH Hy]; intros i j Ha Hb Hij.
  - discriminate.
  - apply Forall_cons in Hf as [Fy Hf].
    destruct i as [| i]; simpl in Ha.
    + injection Ha as <-. destruct j as [| j]; simpl in Hb.
      * injection Hb as <-. destruct Fy as [q E]. unfold descending. rewrite E.
        apply le_Fin. lra.
      * rewrite Forall_forall in Hy. apply Hy. eapply list_elem_of_lookup_2, Hb.
    + destruct j as [| j]; [lia |]. simpl in Hb. apply (IH Hf i j); [assumption .. | lia].
Qed.

Lemma scoresOf_elem (latest ses : string) (entries : list (string * gmap string number))
    (c : Viz1Context.contextScore) :
  c ∈ Viz1Context.scoresOf latest ses entries
  <-> exists scores baseScore,
        (Viz1Context.state c, scores) ∈ entries
        /\ scores !! latest = Some baseScore
        /\ isNaN baseScore = false
        /\ Viz1Context.score c = Viz1.adjust baseScore ses.
Proof.
  unfold Viz1Context.scoresOf. rewrite list_elem_of_omap. split.
  - intros ([st sc] & Hin & H). destruct (sc !! latest) as [b |] eqn:E; [| discriminate].
    destruct (isNaN b) eqn:N; simpl in H; [discriminate |]. injection H as <-.
    exists sc, b. simpl. auto.
  - intros (sc & b & Hin & E & N & S). exists (Viz1Context.state c, sc). split; [exact Hin |].
    rewrite E, N. simpl. destruct c as [st s]. simpl in *. subst s. reflexivity.
Qed.

Lemma adjust_finite (q : Q) (ses : string) : exists q', Viz1.adjust (Fin q) ses = Fin q'.
Proof.
  unfold Viz1.adjust. destruct (String.eqb ses "Low"); [simpl; eauto |].
  destruct (String.eqb ses "High"); simpl; eauto.
Qed.

(** [getStateScoresForContext] returns nothing when no state has a score
    for the latest year.  Otherwise, on finite scores, it returns the
    'Highest' and the 'Lowest' state, with a 'Middle' state between them
    exactly when more than ten states have a score; the three are states of
    the file with their adjusted scores, and the adjusted score of every
    state lies between the lowest's and the highest's. *)
Theorem getStateScoresForContext_order
    (years : list Z) (entries : list (string * gmap string number)) (ses : string) :
  (forall st sc v, (st, sc) ∈ entries -> sc !! Viz1.latestYear years = Some v ->
                   v = NaN \/ exists q, v = Fin q) ->
  let all := Viz1Context.scoresOf (Viz1.latestYear years) ses entries in
  let result := Viz1Context.getStateScoresForContext (Some (years, entries)) ses in
  (all = [] -> result = [])
  /\ (all <> [] ->
      exists hi lo,
        hi ∈ all /\ lo ∈ all
        /\ (forall c, c ∈ all ->
              le (Viz1Context.score lo) (Viz1Context.score c) = true
              /\ le (Viz1Context.score c) (Viz1Context.score hi) = true)
        /\ (((length all <= 10)%nat
             /\ result = [ {| Viz1Context.entry := Some hi; Viz1Context.label := "Highest" |};
                           {| Viz1Context.entry := Some lo; Viz1Context.label := "Lowest" |} ])
            \/ ((10 < length all)%nat
                /\ exists mid,
                    mid ∈ all
                    /\ result
                       = [ {| Viz1Context.entry := Some hi; Viz1Context.label := "Highest" |};
                           {| Viz1Context.entry := Some mid; Viz1Context.label := "Middle" |};
                           {| Viz1Context.entry := Some lo; Viz1Context.label := "Lowest" |} ])))
  /\ (forall c, c ∈ all <->
        exists scores baseScore,
          (Viz1Context.state c, scores) ∈ entries
          /\ scores !! Viz1.latestYear years = Some baseScore
          /\ isNaN baseScore = false
          /\ Viz1Context.score c = Viz1.adjust baseScore ses).
Proof.
  intros Hfin all result. split; [| split].
  - intros E. unfold result, Viz1Context.getStateScoresForContext. fold all. rewrite E.
    reflexivity.
  - intros Hne.
    assert (Fall : Forall finiteScore all).
    { apply Forall_forall. intros c Hc. apply scoresOf_elem in Hc as (sc & b & Hin & E & N & S).
      destruct (Hfin _ _ _ Hin E) as [-> | [q ->]]; [discriminate |].
      destruct (adjust_finite q ses) as [q' Eq]. exists q'. congruence. }
    pose proof (sortByScore_perm all) as P.
    assert (Fs : Forall finiteScore (Viz1Context.sortByScore all)) by (rewrite P; exact Fall).
    pose proof (sortByScore_sorted all Fall) as S.
    assert (Hlen : length (Viz1Context.sortByScore all) = length all)
      by (apply Permutation_length, P).
    unfold result, Viz1Context.getStateScoresForContext. fold all.
    set (sorted := Viz1Context.sortByScore all) in *.
    assert (Hpos : (0 < length sorted)%nat).
    { rewrite Hlen. destruct all; [congruence | simpl; lia]. }
    destruct (lookup_lt_is_Some_2 sorted 0 Hpos) as [hi Ehi].
    destruct (lookup_lt_is_Some_2 sorted (length sorted - 1)) as [lo Elo]; [lia |].
    exists hi, lo.
    split; [rewrite <- P; eapply list_elem_of_lookup_2, Ehi |].
    split; [rewrite <- P; eapply list_elem_of_lookup_2, Elo |].
    split.
    + intros c Hc. rewrite <- P in Hc. apply list_elem_of_lookup_1 in Hc as [i Ei].
      pose proof (lookup_lt_Some _ _ _ Ei) as Hi.
      split.
      * apply (sorted_lookup sorted i (length sorted - 1) c lo Fs S Ei Elo). lia.
      * apply (sorted_lookup sorted 0 i hi c Fs S Ehi Ei). lia.
    + unfold Viz1Context.pick. apply Nat.ltb_lt in Hpos as Hpos'. rewrite Hpos'.
      rewrite Ehi, Elo. rewrite Hlen.
      destruct (10 <? length all)%nat eqn:E10.
      * apply Nat.ltb_lt in E10. right. split; [exact E10 |].
        destruct (lookup_lt_is_Some_2 sorted (length all / 2)) as [mid Emid].
        { rewrite Hlen. apply Nat.div_lt; lia. }
        exists mid. split; [rewrite <- P; eapply list_elem_of_lookup_2, Emid |].
        rewrite Emid. reflexivity.
      * apply Nat.ltb_ge in E10. left. split; [exact E10 | reflexivity].
  - intros c. apply scoresOf_elem.
Qed.

Lemma getStateScoresForContext_order_witness :
  exists hi lo,
    Viz1Context.getStateScoresForContext (Some (contextYears, contextEntries)) "Low"
    = [ {| Viz1Context.entry := Some hi; Viz1Context.label := "Highest" |};
        {| Viz1Context.entry := Some lo; Viz1Context.label := "Lowest" |} ]
    /\ le (Viz1Context.score lo) (Viz1Context.score hi) = true.
Proof.
  destruct (proj1 (proj2 (getStateScoresForContext_order contextYears contextEntries "Low"
                            ltac:(intros st sc v Hin E; apply list_elem_of_In in Hin;
                                  unfold contextEntries in Hin; cbn [In] in Hin;
                                  destruct Hin as [Hin | [Hin | [Hin | []]]];
                                  injection Hin as <- <-; vm_compute in E;
                                  try discriminate; injection E as <-;
                                  right; eexists; reflexivity)))
              ltac:(vm_compute; discriminate))
    as (hi & lo & Hhi & Hlo & Hb & [[_ E] | [Hlen _]]).
  - exists hi, lo. split; [exact E | apply (Hb hi Hhi)].
  - vm_compute in Hlen. lia.
Defined.
